(** * Session connections, registry, bulk provisioning and shutdown

    A shallow embedding of the TzafonWright session core:

    - [Client]          src/tzafonwright/client.ts  (TzafonWrightClient)
    - [Store]           src/tzafonwrightStore.ts
    - [SessionManager]  sessionManager.ts
    - [Program]         program.ts (setupExitWatchdog)

    JavaScript numbers that hold milliseconds, coordinates and counters are
    integers here ([Z]); the count and the batch size of the bulk
    provisioner, which its callers do not restrict to integers, and the
    indices computed from them are rationals ([Qc]); objects that are shared
    by reference (clients) live in a heap and are named by their index.  The [ws] library and the remote proxy are
    not part of the repository: a socket is modelled by what the client
    observes of it (its events, and whether its [close] throws). *)

From Stdlib Require Import ZArith Lia QArith Qcanon Qround.
From stdpp Require Import numbers base option list gmap strings pretty.

Local Open Scope string_scope.
Local Open Scope list_scope.
Local Open Scope Z_scope.

(** ** Promises and the outcome of awaiting one *)

Inductive Promise (A : Type) : Type :=
| Pending
| Fulfilled (v : A)
| Rejected (reason : string).
Arguments Pending {A}.
Arguments Fulfilled {A} v.
Arguments Rejected {A} reason.

(** Resolving or rejecting a promise that is already settled does nothing. *)
Definition settle {A : Type} (p outcome : Promise A) : Promise A :=
  match p with
  | Pending => outcome
  | _ => p
  end.

(** ** The error/state monad of asynchronous code run to completion

    [Ret]: the awaited promise fulfilled; [Throw]: it rejected (an exception
    at the [await]); [Hang]: it never settles, so the code after the [await]
    never runs. *)
Inductive Outcome (A : Type) : Type :=
| Ret (a : A)
| Throw (e : string)
| Hang.
Arguments Ret {A} a.
Arguments Throw {A} e.
Arguments Hang {A}.

Definition M (S A : Type) : Type := S -> Outcome A * S.

Definition ret {S A : Type} (a : A) : M S A := fun s => (Ret a, s).

Definition throw {S A : Type} (e : string) : M S A := fun s => (Throw e, s).

Definition bind {S A B : Type} (m : M S A) (k : A -> M S B) : M S B :=
  fun s =>
    match m s with
    | (Ret a, s') => k a s'
    | (Throw e, s') => (Throw e, s')
    | (Hang, s') => (Hang, s')
    end.

(** [try { body } catch (e) { handler e }] *)
Definition try_catch {S A : Type} (body : M S A) (handler : string -> M S A)
  : M S A :=
  fun s =>
    match body s with
    | (Throw e, s') => handler e s'
    | r => r
    end.

(** [try { body } finally { fin }], for a [fin] that does not throw. *)
Definition try_finally {S A : Type} (body : M S A) (fin : S -> S) : M S A :=
  fun s =>
    match body s with
    | (Hang, s') => (Hang, s')
    | (r, s') => (r, fin s')
    end.

Definition gets {S A : Type} (f : S -> A) : M S A := fun s => (Ret (f s), s).

Definition modify {S : Type} (f : S -> S) : M S unit := fun s => (Ret tt, f s).

Declare Scope async_scope.
Delimit Scope async_scope with async.
Notation "'await' x <- m ; k" := (bind m (fun x => k))
  (at level 10, x name, m at level 100, k at level 200) : async_scope.
Notation "'perform' m ; k" := (bind m (fun _ => k))
  (at level 10, m at level 100, k at level 200) : async_scope.

(** ** client.ts *)

Module Client.

Inductive ActionType : Type :=
| CLICK
| TYPE
| SCROLL
| GOTO
| SCREENSHOT
| SET_VIEWPORT_SIZE.

Definition ActionType_value (a : ActionType) : string :=
  match a with
  | CLICK => "click"
  | TYPE => "type"
  | SCROLL => "scroll"
  | GOTO => "goto"
  | SCREENSHOT => "screenshot"
  | SET_VIEWPORT_SIZE => "set_viewport_size"
  end.

(** [interface Command]: an optional property is [None] when [undefined]. *)
Record Command : Type := {
  action_type : ActionType;
  x : option Z;
  y : option Z;
  text : option string;
  delta_x : option Z;
  delta_y : option Z;
  url : option string;
  width : option Z;
  height : option Z;
  timeout : option Z;
}.

(** A [Buffer], named by the text and the encoding it was built from. *)
Inductive Buffer : Type :=
| Buffer_from (s : string) (encoding : string).

(** [interface Result] *)
Record Result : Type := {
  success : bool;
  image : option Buffer;
  error_message : option string;
}.

(** The values that occur in the object literal [commandData]. *)
Inductive Json : Type :=
| JNum (n : Z)
| JStr (s : string).

(** [...(v !== undefined && { key: v })] *)
Definition spread {A : Type} (key : string) (inj : A -> Json) (v : option A)
  : list (string * Json) :=
  match v with
  | Some a => [(key, inj a)]
  | None => []
  end.

(** [v || d] on an optional number: [undefined] and [0] are falsy. *)
Definition or_default (v : option Z) (d : Z) : Z :=
  match v with
  | Some n => if n =? 0 then d else n
  | None => d
  end.

(** The object [commandData] of [sendAction], property by property in the
    order of the literal; [JSON.stringify] of it is the frame sent. *)
Definition commandData (command : Command) : list (string * Json) :=
  [("action_type", JStr (ActionType_value (action_type command)))]
  ++ spread "x" JNum (x command)
  ++ spread "y" JNum (y command)
  ++ spread "text" JStr (text command)
  ++ spread "delta_x" JNum (delta_x command)
  ++ spread "delta_y" JNum (delta_y command)
  ++ spread "url" JStr (url command)
  ++ spread "width" JNum (width command)
  ++ spread "height" JNum (height command)
  ++ [("timeout", JNum (or_default (timeout command) 30000))].

(** Property lookup in an object literal without repeated keys. *)
Fixpoint property (key : string) (o : list (string * Json)) : option Json :=
  match o with
  | [] => None
  | (k, v) :: o' => if String.eqb k key then Some v else property key o'
  end.

(** An inbound text frame as [messageHandler] sees it: [JSON.parse] throws
    (also when the text parses to [null], whose property read throws inside
    the same [try]), or yields the three properties the handler reads. *)
Inductive Inbound : Type :=
| Unparsable (err : string)
| Response (r_success : option bool) (r_error_message : option string)
           (r_image : option string).

(** What [messageHandler] settles its promise with. *)
Definition handle (data : Inbound) : Promise Result :=
  match data with
  | Unparsable err => Rejected ("Failed to parse response: " +:+ err)
  | Response s e i =>
      Fulfilled
        {| success := default false s;
           image := match i with
                    | Some b => if String.eqb b "" then None
                                else Some (Buffer_from b "base64")
                    | None => None
                    end;
           error_message := e |}
  end.

(** How the socket of a client answers [connect]: [new WebSocket(url)]
    throws, or the socket emits "open" or "error" after some milliseconds,
    or neither. *)
Inductive Handshake : Type :=
| Invalid (msg : string)
| Opens (after : Z)
| Errors (after : Z) (msg : string)
| Silent.

(** What the network and the proxy will do with a client's socket. *)
Record Remote : Type := {
  handshake : Handshake;
  replies : list Inbound;        (* frames the proxy sends back, in order *)
  closeError : option string;    (* the error [ws.close()] throws, if any *)
}.

(** [class TzafonWrightClient].  [handlers] are the "message" listeners on
    [this.ws] in registration order: each is the [messageHandler] closure of
    one [sendAction] call, named by the index of that call's promise in
    [calls]. *)
Record TzafonWrightClient : Type := {
  wsUrl : string;
  ws : bool;                       (* this.ws !== null *)
  isConnected : bool;
  handlers : list nat;
  sent : list (list (string * Json));
  calls : list (Promise Result);
  closes : nat;                    (* invocations of close() *)
  remote : Remote;
}.

Definition set_isConnected (b : bool) (c : TzafonWrightClient) :=
  {| wsUrl := wsUrl c; ws := ws c; isConnected := b; handlers := handlers c;
     sent := sent c; calls := calls c; closes := closes c;
     remote := remote c |}.

Definition set_ws (b : bool) (c : TzafonWrightClient) :=
  {| wsUrl := wsUrl c; ws := b; isConnected := isConnected c;
     handlers := handlers c; sent := sent c; calls := calls c;
     closes := closes c; remote := remote c |}.

Definition set_handlers (h : list nat) (c : TzafonWrightClient) :=
  {| wsUrl := wsUrl c; ws := ws c; isConnected := isConnected c;
     handlers := h; sent := sent c; calls := calls c; closes := closes c;
     remote := remote c |}.

Definition set_sent (o : list (list (string * Json)))
  (c : TzafonWrightClient) :=
  {| wsUrl := wsUrl c; ws := ws c; isConnected := isConnected c;
     handlers := handlers c; sent := o; calls := calls c; closes := closes c;
     remote := remote c |}.

Definition set_calls (p : list (Promise Result)) (c : TzafonWrightClient) :=
  {| wsUrl := wsUrl c; ws := ws c; isConnected := isConnected c;
     handlers := handlers c; sent := sent c; calls := p; closes := closes c;
     remote := remote c |}.

Definition set_closes (n : nat) (c : TzafonWrightClient) :=
  {| wsUrl := wsUrl c; ws := ws c; isConnected := isConnected c;
     handlers := handlers c; sent := sent c; calls := calls c; closes := n;
     remote := remote c |}.

Definition set_replies (r : list Inbound) (c : TzafonWrightClient) :=
  {| wsUrl := wsUrl c; ws := ws c; isConnected := isConnected c;
     handlers := handlers c; sent := sent c; calls := calls c;
     closes := closes c;
     remote := {| handshake := handshake (remote c); replies := r;
                  closeError := closeError (remote c) |} |}.

(** [new TzafonWrightClient(wsUrl)] *)
Definition new (url : string) (r : Remote) : TzafonWrightClient :=
  {| wsUrl := url; ws := false; isConnected := false; handlers := [];
     sent := []; calls := []; closes := 0%nat; remote := r |}.

(** [ws.off("message", h)]: one registration of [h] is removed. *)
Fixpoint off (k : nat) (hs : list nat) : list nat :=
  match hs with
  | [] => []
  | h :: hs' => if Nat.eqb h k then hs' else h :: off k hs'
  end.

(** One run of the [messageHandler] of call [k] on [data]: the promise is
    settled and the handler detaches itself, on either branch of its [try]. *)
Definition messageHandler (k : nat) (data : Inbound)
  (c : TzafonWrightClient) : TzafonWrightClient :=
  set_handlers (off k (handlers c))
    (set_calls (alter (fun p => settle p (handle data)) k (calls c)) c).

(** The socket emits "message": every listener registered at that moment is
    called with the same [data], in registration order. *)
Definition emit_message (data : Inbound) (c : TzafonWrightClient)
  : TzafonWrightClient :=
  foldl (fun c' k => messageHandler k data c') c (handlers c).

Definition notConnected : Result :=
  {| success := false; image := None;
     error_message := Some "Client not connected" |}.

(** [sendAction(command)] up to the point where it returns its promise: the
    index of that promise in [calls], and the client afterwards. *)
Definition sendAction (command : Command) (c : TzafonWrightClient)
  : nat * TzafonWrightClient :=
  let k := length (calls c) in
  if negb (ws c) || negb (isConnected c) then
    (k, set_calls (calls c ++ [Fulfilled notConnected]) c)
  else
    (k, set_sent (sent c ++ [commandData command])
          (set_handlers (handlers c ++ [k])
             (set_calls (calls c ++ [Pending]) c))).

(** [close()]: [Some e] when [this.ws.close()] throws [e], in which case the
    assignment after it is not reached.  [closes] counts the invocations of
    the method. *)
Definition close (c : TzafonWrightClient)
  : option string * TzafonWrightClient :=
  let c' := set_closes (S (closes c)) c in
  if ws c then
    match closeError (remote c) with
    | Some e => (Some e, c')
    | None => (None, set_isConnected false c')
    end
  else (None, c').

(** What can happen to a connected client, one at a time (the runtime is
    single-threaded): a caller invokes [sendAction] or [close], the socket
    emits one of the events [connect] subscribed to or a "message", or time
    passes.  No method of the class arms a timer for a call, so the passage
    of time alone runs no code of the client. *)
Inductive Event : Type :=
| Call (command : Command)
| OnOpen
| OnError
| OnClose
| OnMessage (data : Inbound)
| CloseCall
| Elapse (ms : Z).

Definition step (c : TzafonWrightClient) (e : Event) : TzafonWrightClient :=
  match e with
  | Call command => snd (sendAction command c)
  | OnOpen => set_isConnected true c
  | OnError => set_isConnected false c
  | OnClose => set_isConnected false c
  | OnMessage data => emit_message data c
  | CloseCall => snd (close c)
  | Elapse _ => c
  end.

Definition run (trace : list Event) (c : TzafonWrightClient)
  : TzafonWrightClient :=
  foldl step c trace.

(** The milliseconds that pass along a trace. *)
Definition elapsed (trace : list Event) : Z :=
  foldr (fun e t => match e with Elapse ms => ms + t | _ => t end) 0 trace.

Definition is_message (e : Event) : bool :=
  match e with
  | OnMessage _ => true
  | _ => false
  end.

(** [connect()] awaited on its own: what the constructor throws is caught
    and rejects, the "open" listener resolves, the "error" listener rejects,
    and with neither event the promise stays pending. *)
Definition connect (c : TzafonWrightClient)
  : Outcome unit * TzafonWrightClient :=
  let c' := set_handlers [] (set_ws true c) in
  match handshake (remote c) with
  | Invalid msg => (Throw msg, c)
  | Opens _ => (Ret tt, set_isConnected true c')
  | Errors _ msg => (Throw msg, set_isConnected false c')
  | Silent => (Hang, c')
  end.

(** [await Promise.race([client.connect(), timer])] with a timer that rejects
    with "Connection timeout" after [connectionTimeout] ms: the handshake
    decides when its event comes strictly before the timer is due.  The
    result is the message of the error caught, if any. *)
Definition connect_race (connectionTimeout : Z) (c : TzafonWrightClient)
  : option string * TzafonWrightClient :=
  let c' := set_handlers [] (set_ws true c) in
  match handshake (remote c) with
  | Invalid msg => (Some msg, c)
  | Opens t =>
      if t <? connectionTimeout then (None, set_isConnected true c')
      else (Some "Connection timeout", c')
  | Errors t msg =>
      if t <? connectionTimeout then (Some msg, set_isConnected false c')
      else (Some "Connection timeout", c')
  | Silent => (Some "Connection timeout", c')
  end.

(** [await sendAction(command)]: the call is issued, then the next frame of
    the proxy (if there is one) arrives as a "message" event. *)
Definition await_sendAction (command : Command) (c : TzafonWrightClient)
  : Outcome Result * TzafonWrightClient :=
  let '(k, c1) := sendAction command c in
  match calls c1 !! k with
  | Some (Fulfilled r) => (Ret r, c1)
  | Some (Rejected e) => (Throw e, c1)
  | _ =>
      match replies (remote c1) with
      | [] => (Hang, c1)
      | data :: rest =>
          let c2 := emit_message data (set_replies rest c1) in
          match calls c2 !! k with
          | Some (Fulfilled r) => (Ret r, c2)
          | Some (Rejected e) => (Throw e, c2)
          | _ => (Hang, c2)
          end
      end
  end.

(** [setViewportSize({ width, height })] *)
Definition setViewportSize (w h : Z) : Command :=
  {| action_type := SET_VIEWPORT_SIZE; x := None; y := None; text := None;
     delta_x := None; delta_y := None; url := None; width := Some w;
     height := Some h; timeout := None |}.

(** The commands the other convenience methods hand to [sendAction]. *)

(** [goto(url, options)], with [options?.timeout] *)
Definition goto (u : string) (options_timeout : option Z) : Command :=
  {| action_type := GOTO; x := None; y := None; text := None;
     delta_x := None; delta_y := None; url := Some u; width := None;
     height := None; timeout := options_timeout |}.

(** [click({ x, y })] *)
Definition click (px py : Z) : Command :=
  {| action_type := CLICK; x := Some px; y := Some py; text := None;
     delta_x := None; delta_y := None; url := None; width := None;
     height := None; timeout := None |}.

(** [type(text)] *)
Definition type (t : string) : Command :=
  {| action_type := TYPE; x := None; y := None; text := Some t;
     delta_x := None; delta_y := None; url := None; width := None;
     height := None; timeout := None |}.

(** [screenshot()] *)
Definition screenshot : Command :=
  {| action_type := SCREENSHOT; x := None; y := None; text := None;
     delta_x := None; delta_y := None; url := None; width := None;
     height := None; timeout := None |}.

(** [scroll({ delta_x, delta_y })] *)
Definition scroll (dx dy : option Z) : Command :=
  {| action_type := SCROLL; x := None; y := None; text := None;
     delta_x := dx; delta_y := dy; url := None; width := None;
     height := None; timeout := None |}.

(** *** createBulkSessions *)

(** [count], [batchSize] and the indices computed from them are JavaScript
    numbers: neither the method nor the schema of the tool that calls it asks
    for integers.  They are rationals here, in lowest terms, and the
    arithmetic on them is exact, as it is in the code on integers and on
    fractions such as 2.5.  Division by zero is dealt with where it occurs
    ([totalBatches]). *)

(** [Math.min(x, y)] *)
Definition Math_min (x y : Qc) : Qc := if Qle_bool x y then x else y.

(** [Math.ceil(x)] *)
Definition Math_ceil (x : Qc) : Z := Qceiling x.

(** The length [Array.from({ length: x }, ...)] gives its array: the
    fraction of [x] is dropped and a negative [x] counts as 0.  (Lengths of
    2^32 and more, which no array can have, are outside what is considered
    here.) *)
Definition ToLength (x : Qc) : Z := Z.max 0 (Qfloor x).

Record BulkOptions : Type := {
  batchSize : option Qc;
  batchDelay : option Qc;
  connectionTimeout : option Z;
}.

Record Successful : Type := {
  s_client : TzafonWrightClient;
  s_sessionId : string;
  s_name : string;
}.

Record Failed : Type := {
  f_error : string;
  f_name : string;
}.

Record BatchResult : Type := {
  batchNumber : Z;
  successful : Z;
  failed : Z;
}.

Record BulkResults : Type := {
  r_successful : list Successful;
  r_failed : list Failed;
  r_batchResults : list BatchResult;
}.

(** The object an attempt's async function returns, on either branch. *)
Record Attempt : Type := {
  a_success : bool;
  a_client : option TzafonWrightClient;
  a_sessionId : option string;
  a_error : option string;
  a_name : option string;
}.

(** An entry of the array [Promise.allSettled] resolves to. *)
Inductive Settled : Type :=
| SFulfilled (value : Attempt)
| SRejected (message : option string).

(** Truthiness of an optional string: [undefined] and [""] are falsy. *)
Definition truthy (v : option string) : bool :=
  match v with
  | Some t => negb (String.eqb t "")
  | None => false
  end.

(** [v || d] on an optional string. *)
Definition or_else (v : option string) (d : string) : string :=
  if truthy v then default d v else d.

(** [Math.ceil(count / batchSize)] as the bound of the batch loop: [None]
    stands for [Infinity] (a positive count over zero); over a zero batch
    size the other quotients are [NaN] or [-Infinity], under which the loop
    condition fails at once, as it does under [0]. *)
Definition totalBatches (count batchSize : Qc) : option Z :=
  if Qeq_bool batchSize 0 then
    (if Qle_bool count 0 then Some 0 else None)
  else Some (Math_ceil (count / batchSize)).

Definition startIndex (batchSize : Qc) (batchIndex : Z) : Qc :=
  Qc_of_Z batchIndex * batchSize.

Definition endIndex (count batchSize : Qc) (batchIndex : Z) : Qc :=
  Math_min (startIndex batchSize batchIndex + batchSize) count.

Definition batchCount (count batchSize : Qc) (batchIndex : Z) : Qc :=
  endIndex count batchSize batchIndex - startIndex batchSize batchIndex.

Section Bulk.

(** The surroundings of a run: what the network does with the socket of the
    attempt with a given global index, and what [Date.now()] and the
    [Math.random()] suffix evaluate to in that attempt. *)
Variable network : Qc -> Remote.
Variable now : Qc -> Z.
Variable random : Qc -> string.

(** The text of a number that is no integer, as a template literal
    renders it. *)
Variable fraction : Qc -> string.

Variable proxyUrl : string.
Variable count : Qc.
Variable namePrefix : string.

(** [`${x}`] for a number [x]: an integer is rendered as its decimal
    numeral. *)
Definition toString (x : Qc) : string :=
  if Pos.eqb (Qden x) 1 then pretty (Qnum x) else fraction x.

(** [`${namePrefix}-${globalIndex + 1}`] *)
Definition sessionName (globalIndex : Qc) : string :=
  namePrefix +:+ "-" +:+ toString (globalIndex + 1).

(** The async function of one slot; it never rejects. *)
Definition attempt (timeoutMs : Z) (globalIndex : Qc) : Attempt :=
  let sessionId :=
    sessionName globalIndex +:+ "-" +:+ pretty (now globalIndex) +:+ "-"
    +:+ random globalIndex in
  let client := new proxyUrl (network globalIndex) in
  match connect_race timeoutMs client with
  | (None, client') =>
      {| a_success := true; a_client := Some client';
         a_sessionId := Some sessionId; a_error := None;
         a_name := Some (sessionName globalIndex) |}
  | (Some errorMsg, _) =>
      {| a_success := false; a_client := None; a_sessionId := None;
         a_error := Some errorMsg; a_name := Some (sessionName globalIndex) |}
  end.

(** [Array.from({ length: batchCount }, ...)] awaited by
    [Promise.allSettled]: one entry per slot, in slot order. *)
Definition batchPromises (size : Qc) (timeoutMs batchIndex : Z)
  : list Settled :=
  (fun indexInBatch =>
     SFulfilled
       (attempt timeoutMs (startIndex size batchIndex + Qc_of_Z indexInBatch)))
  <$> seqZ 0 (ToLength (batchCount count size batchIndex)).

(** The running state of the [forEach] over a batch's settled results:
    the two result arrays and the two counters of the batch. *)
Record Tally : Type := {
  t_successful : list Successful;
  t_failed : list Failed;
  batchSuccessful : Z;
  batchFailed : Z;
}.

Definition record_result (t : Tally) (result : Settled) : Tally :=
  match result with
  | SFulfilled value =>
      match a_client value with
      | Some client =>
          if a_success value && truthy (a_sessionId value)
             && truthy (a_name value)
          then
            {| t_successful :=
                 t_successful t
                 ++ [{| s_client := client;
                        s_sessionId := default "" (a_sessionId value);
                        s_name := default "" (a_name value) |}];
               t_failed := t_failed t;
               batchSuccessful := batchSuccessful t + 1;
               batchFailed := batchFailed t |}
          else
            {| t_successful := t_successful t;
               t_failed :=
                 t_failed t
                 ++ [{| f_error := or_else (a_error value) "Unknown error";
                        f_name := or_else (a_name value) "unknown-session" |}];
               batchSuccessful := batchSuccessful t;
               batchFailed := batchFailed t + 1 |}
      | None =>
          {| t_successful := t_successful t;
             t_failed :=
               t_failed t
               ++ [{| f_error := or_else (a_error value) "Unknown error";
                      f_name := or_else (a_name value) "unknown-session" |}];
             batchSuccessful := batchSuccessful t;
             batchFailed := batchFailed t + 1 |}
      end
  | SRejected message =>
      {| t_successful := t_successful t;
         t_failed :=
           t_failed t
           ++ [{| f_error := or_else message "Unknown error";
                  f_name := "unknown-session" |}];
         batchSuccessful := batchSuccessful t;
         batchFailed := batchFailed t + 1 |}
  end.

(** One iteration of the batch loop.  The pause of [batchDelay] ms between
    batches changes nothing in [results]. *)
Definition batch (size : Qc) (timeoutMs : Z) (results : BulkResults)
  (batchIndex : Z) : BulkResults :=
  let t :=
    foldl record_result
      {| t_successful := r_successful results; t_failed := r_failed results;
         batchSuccessful := 0; batchFailed := 0 |}
      (batchPromises size timeoutMs batchIndex) in
  {| r_successful := t_successful t;
     r_failed := t_failed t;
     r_batchResults :=
       r_batchResults results
       ++ [{| batchNumber := batchIndex + 1;
              successful := batchSuccessful t;
              failed := batchFailed t |}] |}.

(** [createBulkSessions(proxyUrl, count, namePrefix, options)]; [None] when
    the batch loop never ends. *)
Definition createBulkSessions (options : BulkOptions) : option BulkResults :=
  let size := default (Math_min (Qc_of_Z 5) count) (batchSize options) in
  let timeoutMs := default 10000 (connectionTimeout options) in
  n ← totalBatches count size;
  Some (foldl (batch size timeoutMs)
          {| r_successful := []; r_failed := []; r_batchResults := [] |}
          (seqZ 0 n)).

End Bulk.

End Client.

(** ** types.ts and config.d.ts *)

Module BrowserSession.
(** [type BrowserSession].  The client is a reference into the heap; the
    session manager tests the reference itself ([!session.client]), so it is
    optional here although the declared type says it is always there. *)
Record t : Type := {
  client : option nat;
  sessionId : string;
}.
End BrowserSession.

Module TzafonWrightSession.
(** [type TzafonWrightSession] *)
Record t : Type := {
  id : string;
  client : nat;
  created : Z;
  metadata : list (string * string);
}.
End TzafonWrightSession.

Module Config.
Record ViewPort : Type := {
  browserWidth : option Z;
  browserHeight : option Z;
}.

(** [type Config], without the [server] part. *)
Record t : Type := {
  proxyUrl : string;
  viewPort : option ViewPort;
}.
End Config.

(** ** The module state of the process

    [heap] holds every [TzafonWrightClient] constructed so far; [store] is
    the map of tzafonwrightStore.ts; [browsers], [defaultBrowserSession] and
    [activeSessionId] are the module variables of sessionManager.ts.
    [stderr] keeps the lines written on warning and error paths (progress
    lines are left out).  The two JavaScript [Map]s are finite maps; where
    the code walks one of them (in insertion order), the walk here is in the
    order of [map_to_list], and no statement below depends on that order. *)
Record World : Type := {
  heap : list Client.TzafonWrightClient;
  store : gmap string TzafonWrightSession.t;
  browsers : gmap string BrowserSession.t;
  defaultBrowserSession : option BrowserSession.t;
  activeSessionId : string;
  stderr : list string;
}.

Definition set_heap (h : list Client.TzafonWrightClient) (w : World) : World :=
  {| heap := h; store := store w; browsers := browsers w;
     defaultBrowserSession := defaultBrowserSession w;
     activeSessionId := activeSessionId w; stderr := stderr w |}.

Definition set_store (m : gmap string TzafonWrightSession.t) (w : World)
  : World :=
  {| heap := heap w; store := m; browsers := browsers w;
     defaultBrowserSession := defaultBrowserSession w;
     activeSessionId := activeSessionId w; stderr := stderr w |}.

Definition set_browsers (m : gmap string BrowserSession.t) (w : World)
  : World :=
  {| heap := heap w; store := store w; browsers := m;
     defaultBrowserSession := defaultBrowserSession w;
     activeSessionId := activeSessionId w; stderr := stderr w |}.

Definition set_defaultBrowserSession (d : option BrowserSession.t) (w : World)
  : World :=
  {| heap := heap w; store := store w; browsers := browsers w;
     defaultBrowserSession := d;
     activeSessionId := activeSessionId w; stderr := stderr w |}.

Definition set_activeSessionId (a : string) (w : World) : World :=
  {| heap := heap w; store := store w; browsers := browsers w;
     defaultBrowserSession := defaultBrowserSession w;
     activeSessionId := a; stderr := stderr w |}.

(** [process.stderr.write(line)] *)
Definition write_stderr (line : string) (w : World) : World :=
  {| heap := heap w; store := store w; browsers := browsers w;
     defaultBrowserSession := defaultBrowserSession w;
     activeSessionId := activeSessionId w; stderr := stderr w ++ [line] |}.

(** *** Method calls through a client reference *)

(** [new TzafonWrightClient(url)]: the new object's reference. *)
Definition new_client (network : nat -> Client.Remote) (url : string)
  : M World nat :=
  fun w =>
    let r := length (heap w) in
    (Ret r, set_heap (heap w ++ [Client.new url (network r)]) w).

(** A method call on the client behind reference [r]: the object in the
    heap is updated in place.  ([missing] is never reached from a reference
    that [new_client] returned.) *)
Definition with_client {A : Type} (r : nat)
  (method : Client.TzafonWrightClient -> Outcome A * Client.TzafonWrightClient)
  (missing : Outcome A) : M World A :=
  fun w =>
    match heap w !! r with
    | Some c =>
        let '(o, c') := method c in (o, set_heap (<[r:=c']> (heap w)) w)
    | None => (missing, w)
    end.

(** [await client.connect()] *)
Definition client_connect (r : nat) : M World unit :=
  with_client r Client.connect (Ret tt).

(** [await client.sendAction(command)] *)
Definition client_sendAction (r : nat) (command : Client.Command)
  : M World Client.Result :=
  with_client r (Client.await_sendAction command) (Ret Client.notConnected).

(** [await client.close()] *)
Definition client_close (r : nat) : M World unit :=
  with_client r
    (fun c =>
       let '(err, c') := Client.close c in
       (match err with Some e => Throw e | None => Ret tt end, c'))
    (Ret tt).

(** ** tzafonwrightStore.ts *)

Module Store.

Section Store.

Variable network : nat -> Client.Remote.

(** Truthiness of a string: [""] is falsy. *)
Definition nonempty (t : string) : bool := negb (String.eqb t "").

(** Truthiness of an optional number. *)
Definition nonzero (v : option Z) : bool :=
  match v with
  | Some n => negb (n =? 0)
  | None => false
  end.

(** [config.viewPort?.browserWidth && config.viewPort?.browserHeight] *)
Definition viewport_configured (config : Config.t) : option (Z * Z) :=
  match Config.viewPort config with
  | Some v =>
      match Config.browserWidth v, Config.browserHeight v with
      | Some w, Some h =>
          if nonzero (Some w) && nonzero (Some h) then Some (w, h) else None
      | _, _ => None
      end
  | None => None
  end.

(** [createTzafonWrightClient(config, params, sessionId)], with [params]
    given by its optional [proxyUrl]. *)
Definition createTzafonWrightClient (config : Config.t)
  (params_proxyUrl : option string) : M World nat :=
  (let proxyUrl :=
     match params_proxyUrl with
     | Some u => if nonempty u then u else Config.proxyUrl config
     | None => Config.proxyUrl config
     end in
   if negb (nonempty proxyUrl) then throw "TzafonWright proxy URL is required"
   else
     await client <- new_client network proxyUrl;
     try_catch
       (perform client_connect client;
        perform
          match viewport_configured config with
          | Some (w, h) =>
              perform client_sendAction client (Client.setViewportSize w h);
              ret tt
          | None => ret tt
          end;
        ret client)
       (fun error => perform client_close client; throw error))%async.

(** [create(config, params)]; [uuid] is what [randomUUID()] returns and
    [now] what [Date.now()] returns in this call. *)
Definition create (config : Config.t) (params_proxyUrl : option string)
  (params_meta : Datatypes.list (string * string)) (uuid : string) (now : Z)
  : M World TzafonWrightSession.t :=
  (let id := uuid +:+ "_tzafonwright" in
   await client <- createTzafonWrightClient config params_proxyUrl;
   let session :=
     {| TzafonWrightSession.id := id;
        TzafonWrightSession.client := client;
        TzafonWrightSession.created := now;
        TzafonWrightSession.metadata :=
          params_meta
          ++ [("proxyUrl",
               match params_proxyUrl with
               | Some u => if nonempty u then u else Config.proxyUrl config
               | None => Config.proxyUrl config
               end)] |} in
   perform modify (fun w => set_store (<[id := session]> (store w)) w);
   ret session)%async.

(** [get(id)] *)
Definition get (id : string) (w : World) : option TzafonWrightSession.t :=
  store w !! id.

(** [list()] *)
Definition list (w : World) : Datatypes.list TzafonWrightSession.t :=
  snd <$> map_to_list (store w).

(** [remove(id)] *)
Definition remove (id : string) : M World unit :=
  fun w =>
    match store w !! id with
    | None => (Ret tt, w)
    | Some session =>
        try_finally
          (try_catch
             (client_close (TzafonWrightSession.client session))
             (fun error =>
                modify
                  (write_stderr
                     ("[TzafonWrightStore] Error closing session " +:+ id
                      +:+ ": " +:+ error))))
          (fun w' => set_store (delete id (store w')) w')
          w
    end.

(** [await Promise.all(list().map((s) => remove(s.id)))].  Each [remove]
    reaches its only [await] after its [close()] call has run and catches
    what it throws, so the removals are independent and running them one
    after the other leaves the same state. *)
Fixpoint remove_each (sessions : Datatypes.list TzafonWrightSession.t)
  : M World unit :=
  match sessions with
  | [] => ret tt
  | s :: rest =>
      (perform remove (TzafonWrightSession.id s); remove_each rest)%async
  end.

Definition removeAll : M World unit :=
  fun w => remove_each (list w) w.

(** [storeSession(session)] *)
Definition storeSession (session : TzafonWrightSession.t) (w : World) : World :=
  set_store (<[TzafonWrightSession.id session := session]> (store w)) w.

(** [size()] *)
Definition size (w : World) : nat := base.size (store w).

End Store.

End Store.

(** ** sessionManager.ts *)

Module SessionManager.

Section SessionManager.

Variable network : nat -> Client.Remote.

(** [export const defaultSessionId], computed once when the module loads. *)
Variable defaultSessionId : string.

(** [browsers.has(id)] *)
Definition has (id : string) (w : World) : bool :=
  bool_decide (is_Some (browsers w !! id)).

(** [setActiveSessionId(id)] *)
Definition setActiveSessionId (id : string) (w : World) : World :=
  if has id w || String.eqb id defaultSessionId then set_activeSessionId id w
  else
    write_stderr
      ("[SessionManager] WARN - Set active session failed for non-existent ID: "
       +:+ id) w.

(** [getActiveSessionId()] *)
Definition getActiveSessionId (w : World) : string := activeSessionId w.

(** [createNewBrowserSession(newSessionId, config)] *)
Definition createNewBrowserSession (newSessionId : string) (config : Config.t)
  : M World BrowserSession.t :=
  (if negb (Store.nonempty (Config.proxyUrl config)) then
     throw "TzafonWright proxy URL is missing in the configuration."
   else
     try_catch
       (await client <-
          Store.createTzafonWrightClient network config
            (Some (Config.proxyUrl config));
        let sessionObj :=
          {| BrowserSession.client := Some client;
             BrowserSession.sessionId := newSessionId |} in
        perform
          modify (fun w =>
                    set_browsers (<[newSessionId := sessionObj]> (browsers w)) w);
        perform
          modify (fun w =>
                    if String.eqb newSessionId defaultSessionId
                    then set_defaultBrowserSession (Some sessionObj) w
                    else w);
        perform modify (setActiveSessionId newSessionId);
        ret sessionObj)
       (fun errorMessage =>
          perform
            modify
              (write_stderr
                 ("[SessionManager] Creating session " +:+ newSessionId
                  +:+ " failed: " +:+ errorMessage));
          throw
            ("Failed to create/connect session " +:+ newSessionId +:+ ": "
             +:+ errorMessage)))%async.

(** [closeBrowserGracefully(session, sessionIdToLog)] *)
Definition closeBrowserGracefully (session : option BrowserSession.t)
  (sessionIdToLog : string) : M World unit :=
  match session with
  | Some {| BrowserSession.client := Some client |} =>
      try_catch (client_close client)
        (fun closeError =>
           modify
             (write_stderr
                ("[SessionManager] WARN - Error closing TzafonWright client for session "
                 +:+ sessionIdToLog +:+ ": " +:+ closeError)))
  | _ => ret tt
  end.

(** The message of the error [ensureDefaultSessionInternal] throws when the
    retry fails as well. *)
Definition defaultSessionUnavailable (finalErrorMessage : string) : string :=
  "Failed to ensure default session " +:+ defaultSessionId
  +:+ " after initial error and retry: " +:+ finalErrorMessage.

(** The block of [ensureDefaultSessionInternal] under
    [if (needsReCreation)]: one attempt and, when it throws, one more. *)
Definition recreate (config : Config.t) : M World BrowserSession.t :=
  (try_catch
     (await s <- createNewBrowserSession defaultSessionId config;
      perform modify (set_defaultBrowserSession (Some s));
      ret s)
     (fun creationError =>
        perform
          modify
            (write_stderr
               ("[SessionManager] Initial/Recreation attempt for default session "
                +:+ defaultSessionId +:+ " failed. Error: "
                +:+ creationError));
        try_catch
          (await s <- createNewBrowserSession defaultSessionId config;
           perform modify (set_defaultBrowserSession (Some s));
           ret s)
          (fun finalErrorMessage =>
             perform
               modify
                 (write_stderr
                    ("[SessionManager] Failed to recreate default session "
                     +:+ defaultSessionId +:+ " after retry: "
                     +:+ finalErrorMessage));
             throw (defaultSessionUnavailable finalErrorMessage))))%async.

(** [ensureDefaultSessionInternal(config)].  The flag [needsReCreation] is
    set on the first two branches; on the third the existing session is
    "considered okay". *)
Definition ensureDefaultSessionInternal (config : Config.t)
  : M World BrowserSession.t :=
  fun w =>
    match defaultBrowserSession w with
    | None => recreate config w
    | Some session =>
        match BrowserSession.client session with
        | None =>
            (perform closeBrowserGracefully (Some session) defaultSessionId;
             perform modify (set_defaultBrowserSession None);
             perform
               modify (fun w' =>
                         set_browsers (delete defaultSessionId (browsers w')) w');
             recreate config)%async w
        | Some _ => (Ret session, setActiveSessionId defaultSessionId w)
        end
    end.

(** [getSession(sessionId, config, createIfMissing)]; [None] is [null]. *)
Definition getSession (sessionId : string) (config : Config.t)
  (createIfMissing : bool) : M World (option BrowserSession.t) :=
  if String.eqb sessionId defaultSessionId && createIfMissing then
    try_catch
      (await s <- ensureDefaultSessionInternal config; ret (Some s))%async
      (fun _ =>
         perform
           modify
             (write_stderr
                ("[SessionManager] Failed to get default session due to error in ensureDefaultSessionInternal for "
                 +:+ sessionId));
         ret None)%async
  else
    fun w =>
      match browsers w !! sessionId with
      | None =>
          (Ret None,
           write_stderr
             ("[SessionManager] WARN - Session not found in map: "
              +:+ sessionId) w)
      | Some sessionObj =>
          match BrowserSession.client sessionObj with
          | None =>
              (perform
                 modify
                   (write_stderr
                      ("[SessionManager] WARN - Found session " +:+ sessionId
                       +:+ " is stale, removing."));
               perform closeBrowserGracefully (Some sessionObj) sessionId;
               perform
                 modify (fun w' =>
                           set_browsers (delete sessionId (browsers w')) w');
               perform
                 modify (fun w' =>
                           if String.eqb (activeSessionId w') sessionId
                           then setActiveSessionId defaultSessionId w'
                           else w');
               ret None)%async w
          | Some _ => (Ret (Some sessionObj), setActiveSessionId sessionId w)
          end
      end.

(** [cleanupSession(sessionId)] *)
Definition cleanupSession (sessionId : string) : M World unit :=
  (await session <- gets (fun w => browsers w !! sessionId);
   perform
     match session with
     | Some s => closeBrowserGracefully (Some s) sessionId
     | None => ret tt
     end;
   perform
     modify (fun w => set_browsers (delete sessionId (browsers w)) w);
   perform
     modify (fun w =>
               if String.eqb sessionId defaultSessionId
                  && bool_decide (is_Some (defaultBrowserSession w))
               then set_defaultBrowserSession None w
               else w);
   modify (fun w =>
             if String.eqb (activeSessionId w) sessionId
             then setActiveSessionId defaultSessionId w
             else w))%async.

(** The loop of [closeAllSessions] that starts [closeBrowserGracefully] for
    every entry of [browsers]; each of them catches what [close()] throws. *)
Fixpoint close_each (entries : list (string * BrowserSession.t))
  : M World unit :=
  match entries with
  | [] => ret tt
  | (id, session) :: rest =>
      (perform closeBrowserGracefully (Some session) id; close_each rest)%async
  end.

(** [closeAllSessions()] *)
Definition closeAllSessions : M World unit :=
  (await entries <- gets (fun w => map_to_list (browsers w));
   perform
     try_catch (close_each entries)
       (fun _ =>
          modify
            (write_stderr
               "[SessionManager] WARN - Some errors occurred during batch session closing. See individual messages."));
   perform modify (set_browsers ∅);
   perform modify (set_defaultBrowserSession None);
   modify (setActiveSessionId defaultSessionId))%async.

End SessionManager.

End SessionManager.

(** ** program.ts *)

Module Program.

Section Program.

(** [ServerList] (server.ts) is outside this development: the object is
    taken as given, with a state of its own (the servers it has created) on
    which its [closeAll()] acts; that call may fulfil, reject or never
    settle. *)
Variable ServerList : Type.
Variable closeAll : ServerList -> Outcome unit * ServerList.

(** How the process comes to its end in [handleExit]. *)
Inductive Exit : Type :=
| ExitAfterCleanup         (* the [process.exit(0)] at the end of [handleExit] *)
| ExitAtDeadline.          (* the [process.exit(0)] of the 15000 ms timer *)

Definition deadline : Z := 15000.

(** [handleExit]: [tzafonwrightStore.removeAll()] and [serverList.closeAll()]
    are both started before [Promise.all] is awaited; a rejection of either
    is caught and logged; when the two never both settle, the timer armed
    first ends the process.  The result is the state the process exits in. *)
Definition handleExit (w : World) (servers : ServerList)
  : Exit * World * ServerList :=
  let '(o1, w1) := Store.removeAll w in
  let '(o2, servers') := closeAll servers in
  match o1, o2 with
  | Throw e, _ | _, Throw e =>
      (ExitAfterCleanup, write_stderr ("Error during cleanup: " +:+ e) w1,
       servers')
  | Ret _, Ret _ => (ExitAfterCleanup, w1, servers')
  | _, _ => (ExitAtDeadline, w1, servers')
  end.

End Program.

End Program.

(** ** config.ts *)

Module Configuration.

(** The values that occur in a configuration object.  The properties of an
    object are kept in the order in which they were created. *)
#[warnings="-register-all"]
Inductive JsValue : Type :=
| JUndefined
| JNumber (n : Z)
| JString (s : string)
| JObject (props : list (string * JsValue)).

(** Truthiness. *)
Definition truthy (v : JsValue) : bool :=
  match v with
  | JUndefined => false
  | JNumber n => negb (n =? 0)
  | JString s => negb (String.eqb s "")
  | JObject _ => true
  end.

(** [typeof v === "object"]: neither [null] nor an array occurs here. *)
Definition is_object (v : JsValue) : bool :=
  match v with
  | JObject _ => true
  | _ => false
  end.

(** [o[key]] *)
Fixpoint get (key : string) (o : list (string * JsValue)) : JsValue :=
  match o with
  | [] => JUndefined
  | (k, v) :: o' => if String.eqb k key then v else get key o'
  end.

(** [o[key] = value]: an own property keeps its place, a new one comes
    last. *)
Fixpoint set (key : string) (value : JsValue) (o : list (string * JsValue))
  : list (string * JsValue) :=
  match o with
  | [] => [(key, value)]
  | (k, v) :: o' =>
      if String.eqb k key then (k, value) :: o' else (k, v) :: set key value o'
  end.

(** Copying the own properties of [source] onto [target], as a spread
    element and [Object.fromEntries] do; a property whose value is
    [undefined] is copied like any other. *)
Definition assign (target source : list (string * JsValue))
  : list (string * JsValue) :=
  foldl (fun o kv => set (fst kv) (snd kv) o) target source.

(** The own properties of a value that is spread. *)
Definition properties (v : JsValue) : list (string * JsValue) :=
  match v with
  | JObject props => props
  | _ => []
  end.

(** [type CLIOptions], as the object [resolveConfig] is called with.  The
    type declares [port] and the two dimensions as numbers; program.ts
    passes the options object of commander, whose options have no argument
    parser, so that one given on the command line is a string.  The three
    are kept as the values they are: a string, a number, or [undefined]. *)
Record CLIOptions : Type := {
  proxyUrl : option string;
  port : JsValue;
  host : option string;
  browserWidth : JsValue;
  browserHeight : JsValue;
}.


Definition of_string (v : option string) : JsValue :=
  match v with
  | Some s => JString s
  | None => JUndefined
  end.

Definition fallbackProxyUrl : string := "ws://34.123.107.160:80".

Section Configuration.

(** [process.env.TZAFONWRIGHT_PROXY_URL] *)
Variable env : option string.

(** [const defaultConfig] *)
Definition defaultConfig : list (string * JsValue) :=
  [("proxyUrl", JString (default fallbackProxyUrl env));
   ("server", JObject [("port", JUndefined); ("host", JUndefined)]);
   ("viewPort",
    JObject [("browserWidth", JNumber 1024); ("browserHeight", JNumber 768)])].

(** [configFromCLIOptions(cliOptions)] *)
Definition configFromCLIOptions (cliOptions : CLIOptions)
  : list (string * JsValue) :=
  [("proxyUrl",
    JString (Client.or_else (proxyUrl cliOptions) (Client.or_else env "")));
   ("server",
    JObject [("port", port cliOptions);
             ("host", of_string (host cliOptions))]);
   ("viewPort",
    JObject [("browserWidth", browserWidth cliOptions);
             ("browserHeight", browserHeight cliOptions)])].

(** [pickDefined(obj)] *)
Definition pickDefined (obj : option (list (string * JsValue)))
  : list (string * JsValue) :=
  match obj with
  | None => []
  | Some o =>
      assign []
        (List.filter
           (fun kv => match snd kv with JUndefined => false | _ => true end)
           o)
  end.

(** [mergeConfig(base, overrides)] *)
Definition mergeConfig (base overrides : list (string * JsValue))
  : list (string * JsValue) :=
  let baseFiltered := pickDefined (Some base) in
  let overridesFiltered := pickDefined (Some overrides) in
  let result := assign [] baseFiltered in
  foldl
    (fun result kv =>
       let key := fst kv in
       let value := snd kv in
       if truthy value && is_object value && truthy (get key result)
          && is_object (get key result)
       then
         set key
           (JObject (assign (assign [] (properties (get key result)))
                       (properties value)))
           result
       else set key value result)
    result overridesFiltered.

(** [resolveConfig(cliOptions)] *)
Definition resolveConfig (cliOptions : CLIOptions) : list (string * JsValue) :=
  let cliConfig := configFromCLIOptions cliOptions in
  let mergedConfig := mergeConfig defaultConfig cliConfig in
  if negb (truthy (get "proxyUrl" mergedConfig))
  then set "proxyUrl" (JString fallbackProxyUrl) mergedConfig
  else mergedConfig.

End Configuration.

(** A dimension as the type [Config] has it: a number, or none. *)
Definition dimension_of (v : JsValue) : option (option Z) :=
  match v with
  | JNumber n => Some (Some n)
  | JUndefined => Some None
  | _ => None
  end.

(** The configuration object as a value of the type [Config], when it is
    one: an object with a string in the place of a dimension is none. *)
Definition as_Config (o : list (string * JsValue)) : option Config.t :=
  match get "proxyUrl" o with
  | JString url =>
      match get "viewPort" o with
      | JObject v =>
          width ← dimension_of (get "browserWidth" v);
          height ← dimension_of (get "browserHeight" v);
          Some {| Config.proxyUrl := url;
                  Config.viewPort :=
                    Some {| Config.browserWidth := width;
                            Config.browserHeight := height |} |}
      | JUndefined => Some {| Config.proxyUrl := url; Config.viewPort := None |}
      | _ => None
      end
  | _ => None
  end.


End Configuration.

(** ** context.ts *)

(** Code written against one part of the state, run in a larger one. *)
Definition lift {L S A : Type} (m : M S A) : M (L * S) A :=
  fun s => let '(o, s') := m (snd s) in (o, (fst s, s')).

(** [ImageContent | TextContent] *)
Inductive Content : Type :=
| TextContent (text : string)
| ImageContent (data : string) (mimeType : string).

(** [type ToolActionResult]: [None] is [undefined], [Some None] an object
    without [content]. *)
Definition ToolActionResult : Type := option (option (list Content)).

(** [CallToolResult] *)
Record CallToolResult : Type := {
  content : list Content;
  isError : bool;
}.

Module Context.

(** The context object a tool is handed.  [own_client] is the client that
    an own [getTzafonWrightClient] property of the object returns, for an
    object that has one; any other object inherits the method of the
    class. *)
Record t : Type := {
  config : Config.t;
  currentSessionId : string;
  own_client : option nat;
}.

(** What a tool acts on: the context object and the module state. *)
Definition State : Type := t * World.

(** [context.currentSessionId = id] *)
Definition set_currentSessionId (id : string) (s : State) : State :=
  ({| config := config (fst s); currentSessionId := id;
      own_client := own_client (fst s) |}, snd s).

(** [type ToolResult]; [waitForNetwork] is read nowhere. *)
Record ToolResult : Type := {
  action : option (M State ToolActionResult);
}.

(** [type Tool<Input>], by the two parts [run] reads. *)
Record Tool (Input : Type) : Type := {
  name : string;
  handle : option (Input -> M State ToolResult);
}.

Arguments name {Input} _.
Arguments handle {Input} _.

Section Context.

Variable network : nat -> Client.Remote.
Variable defaultSessionId : string.

(** [new Context(server, config)] *)
Definition new (config : Config.t) : t :=
  {| config := config; currentSessionId := defaultSessionId;
     own_client := None |}.

(** [context.getTzafonWrightClient()], with the default argument. *)
Definition getTzafonWrightClient : M State (option nat) :=
  fun s =>
    match own_client (fst s) with
    | Some client => (Ret (Some client), s)
    | None =>
        (await session <-
           lift (SessionManager.getSession network defaultSessionId
                   (currentSessionId (fst s)) (config (fst s)) true);
         match session with
         | None =>
             throw ("No session found for ID: " +:+ currentSessionId (fst s))
         | Some session => ret (BrowserSession.client session)
         end)%async s
    end.

(** [context.getActiveClient(createIfMissing)] *)
Definition getActiveClient (createIfMissing : bool) : M State (option nat) :=
  fun s =>
    (await session <-
       lift (SessionManager.getSession network defaultSessionId
               (currentSessionId (fst s)) (config (fst s)) createIfMissing);
     match session with
     | None => ret None
     | Some session => ret (BrowserSession.client session)
     end)%async s.

(** [context.run(tool, args)] *)
Definition run {Input : Type} (tool : Tool Input) (args : Input)
  : M State CallToolResult :=
  try_catch
    (match handle tool with
     | Some handle =>
         await toolResult <- handle args;
         match action toolResult with
         | Some action =>
             await actionResult <- action;
             ret {| content :=
                      match actionResult with
                      | Some (Some content) => content
                      | _ => []
                      end;
                    isError := false |}
         | None =>
             ret {| content :=
                      [TextContent (name tool +:+ " completed successfully.")];
                    isError := false |}
         end
     | None =>
         throw ("Tool " +:+ name tool +:+ " does not have a handle method")
     end)%async
    (fun errorMessage =>
       ret {| content := [TextContent ("Error: " +:+ errorMessage)];
              isError := true |}).

End Context.

End Context.

(** ** index.ts *)

Module Index.

Section Index.

(** [new Date().toISOString()] at the moment an error is logged. *)
Variable timestamp : string.

(** The callback registered for a tool with [server.tool]. *)
Definition tool_callback {Input : Type} (tool : Context.Tool Input)
  (params : Input) : M Context.State CallToolResult :=
  try_catch (Context.run tool params)
    (fun errorMessage =>
       perform
         lift
           (modify
              (write_stderr
                 ("[Smithery Error] " +:+ timestamp +:+ " Error running tool "
                  +:+ Context.name tool +:+ ": " +:+ errorMessage)));
       throw
         ("Failed to run tool '" +:+ Context.name tool +:+ "': "
          +:+ errorMessage))%async.

(** The default export, up to its first statement: the check of the
    configuration it is given. *)
Definition proxyUrl_required (config : Config.t) : Outcome unit :=
  if negb (Store.nonempty (Config.proxyUrl config))
  then Throw "proxyUrl is required"
  else Ret tt.

End Index.

End Index.

(** ** tools/navigate.ts *)

Module Navigate.

(** The URL [handleNavigate] hands to [client.goto]. *)
Definition normalizedUrl (url : string) : string :=
  if negb (String.prefix "http://" url) && negb (String.prefix "https://" url)
  then "https://" +:+ url
  else url.

Section Navigate.

Variable network : nat -> Client.Remote.
Variable defaultSessionId : string.

(** The [action] of [handleNavigate(context, params)]. *)
Definition action (url : string) : M Context.State ToolActionResult :=
  try_catch
    (await client <- Context.getTzafonWrightClient network defaultSessionId;
     match client with
     | None => throw "No TzafonWright client available"
     | Some client =>
         await result <-
           lift (client_sendAction client
                   (Client.goto (normalizedUrl url) None));
         if negb (Client.success result)
         then
           throw (Client.or_else (Client.error_message result)
                    "Navigation failed")
         else
           ret (Some
                  (Some
                     [TextContent
                        ("Successfully navigated to: " +:+ normalizedUrl url
                         +:+ " (original: " +:+ url +:+ ")")]))
     end)%async
    (fun errorMsg => throw ("Failed to navigate: " +:+ errorMsg)).

Definition handleNavigate (url : string) : M Context.State Context.ToolResult :=
  ret {| Context.action := Some (action url) |}.

Definition navigateTool : Context.Tool string :=
  {| Context.name := "tzafonwright_navigate";
     Context.handle := Some handleNavigate |}.

End Navigate.

End Navigate.

(** ** tools/session.ts *)

Module Session.

(** The two variables of the [action] of [handleCloseSession] that its
    [try] block and its [catch] clause assign. *)
Record Locals : Type := {
  clientClosedSuccessfully : bool;
  clientCloseErrorMessage : string;
}.

Section Session.

Variable network : nat -> Client.Remote.
Variable defaultSessionId : string.

(** The id [handleCreateSession] creates or reuses. *)
Definition targetSessionId (params_sessionId : option string) : string :=
  if Client.truthy params_sessionId
  then default "" params_sessionId +:+ "_tzafonwright"
  else defaultSessionId.

(** The [action] of [handleCreateSession(context, params)]. *)
Definition createSession_action (params_sessionId : option string)
  : M Context.State ToolActionResult :=
  try_catch
    (fun s =>
       let config := Context.config (fst s) in
       let target := targetSessionId params_sessionId in
       (await session <-
          lift
            (if String.eqb target defaultSessionId
             then
               SessionManager.ensureDefaultSessionInternal network
                 defaultSessionId config
             else
               SessionManager.createNewBrowserSession network defaultSessionId
                 target config);
        if negb (bool_decide (is_Some (BrowserSession.client session)))
           || negb (Store.nonempty (BrowserSession.sessionId session))
        then
          throw
            ("SessionManager failed to return a valid session object for ID: "
             +:+ target)
        else
          perform modify (Context.set_currentSessionId target);
          ret (Some
                 (Some
                    [TextContent
                       ("TzafonWright session created successfully: "
                        +:+ BrowserSession.sessionId session)])))%async s)
    (fun errorMessage =>
       perform
         lift
           (modify
              (write_stderr
                 ("[tool.createSession] Action failed: " +:+ errorMessage)));
       throw ("Failed to create Browserbase session: " +:+ errorMessage))%async.

Definition createSessionTool : Context.Tool (option string) :=
  {| Context.name := "tzafonwright_session_create";
     Context.handle :=
       Some (fun params_sessionId =>
               ret {| Context.action :=
                        Some (createSession_action params_sessionId) |}) |}.

(** Step 1 of the [action] of [handleCloseSession]: the [try] statement. *)
Definition close_client (previousSessionId : string) (config : Config.t)
  : M (Locals * Context.State) unit :=
  try_catch
    (await session <-
       lift
         (lift
            (SessionManager.getSession network defaultSessionId
               previousSessionId config false));
     match session with
     | Some {| BrowserSession.client := Some client |} =>
         perform lift (lift (client_close client));
         perform
           modify
             (fun s : Locals * Context.State =>
                ({| clientClosedSuccessfully := true;
                    clientCloseErrorMessage :=
                      clientCloseErrorMessage (fst s) |}, snd s));
         lift (lift (SessionManager.cleanupSession defaultSessionId
                       previousSessionId))
     | _ => ret tt
     end)%async
    (fun error =>
       perform
         modify
           (fun s : Locals * Context.State =>
              ({| clientClosedSuccessfully := clientClosedSuccessfully (fst s);
                  clientCloseErrorMessage := error |}, snd s));
       lift
         (lift
            (modify
               (write_stderr
                  ("[tool.closeSession] Error retrieving or closing TzafonWright client (session ID was "
                   +:+ Client.or_else (Some previousSessionId) "default/unknown"
                   +:+ "): " +:+ error)))))%async.

(** The [action] of [handleCloseSession(context)], on its locals. *)
Definition closeSession_body (previousSessionId : string) (config : Config.t)
  : M (Locals * Context.State) ToolActionResult :=
  (perform close_client previousSessionId config;
   perform lift (modify (Context.set_currentSessionId defaultSessionId));
   await locals <- gets fst;
   if Store.nonempty (clientCloseErrorMessage locals)
      && negb (clientClosedSuccessfully locals)
   then
     throw
       ("Failed to close the TzafonWright session (session ID in context was "
        +:+ Client.or_else (Some previousSessionId) "default/unknown"
        +:+ "). Error: " +:+ clientCloseErrorMessage locals
        +:+ ". Session context has been reset to default.")
   else if clientClosedSuccessfully locals then
     ret (Some
            (Some
               [TextContent
                  ("TzafonWright session ("
                   +:+ Client.or_else (Some previousSessionId) "default"
                   +:+ ") closed successfully. Context reset to default.")]))
   else
     ret (Some
            (Some
               [TextContent
                  (if Store.nonempty previousSessionId
                      && negb (String.eqb previousSessionId defaultSessionId)
                   then
                     "No active TzafonWright session found for session ID '"
                     +:+ previousSessionId
                     +:+ "'. The context has been reset to default."
                   else
                     "No active TzafonWright session found to close. Session context has been reset to default.")])))%async.

Definition closeSession_action : M Context.State ToolActionResult :=
  fun s =>
    let '(o, (_, s')) :=
      closeSession_body (Context.currentSessionId (fst s))
        (Context.config (fst s))
        ({| clientClosedSuccessfully := false;
            clientCloseErrorMessage := "" |}, s) in
    (o, s').

Definition closeSessionTool : Context.Tool unit :=
  {| Context.name := "browserbase_session_close";
     Context.handle :=
       Some (fun _ => ret {| Context.action := Some closeSession_action |}) |}.

End Session.

End Session.

(** ** tools/multiSession.ts *)

Module MultiSession.

Section MultiSession.

Variable network : nat -> Client.Remote.
Variable defaultSessionId : string.

(** [createMultiSessionAwareTool(originalTool, { namePrefix, nameSuffix })].
    The tool's handler runs the original handler on [sessionContext], an
    object created from the context it is given with two own properties;
    what the original handler and its action do to that object does not
    reach the context itself. *)
Definition createMultiSessionAwareTool {Input : Type}
  (originalTool : Context.Tool Input) (namePrefix nameSuffix : string)
  : Context.Tool (string * Input) :=
  {| Context.name := namePrefix +:+ Context.name originalTool +:+ nameSuffix;
     Context.handle :=
       Some
         (fun params s =>
            let sessionId := fst params in
            let originalParams := snd params in
            match Store.get sessionId (snd s) with
            | None => (Throw ("Session " +:+ sessionId +:+ " not found"), s)
            | Some session =>
                let sessionContext :=
                  {| Context.config := Context.config (fst s);
                     Context.currentSessionId := sessionId;
                     Context.own_client :=
                       Some (TzafonWrightSession.client session) |} in
                match Context.handle originalTool with
                | None => (Throw "originalTool.handle is not a function", s)
                | Some handle =>
                    let '(o, (sessionContext', w')) :=
                      handle originalParams (sessionContext, snd s) in
                    (match o with
                     | Ret toolResult =>
                         Ret
                           {| Context.action :=
                                (fun action s1 =>
                                   let '(o1, (_, w1)) :=
                                     action (sessionContext', snd s1) in
                                   (o1, (fst s1, w1)))
                                <$> Context.action toolResult |}
                     | Throw e => Throw e
                     | Hang => Hang
                     end, (fst s, w'))
                end
            end) |}.

(** [navigateWithSessionTool] *)
Definition navigateWithSessionTool : Context.Tool (string * string) :=
  createMultiSessionAwareTool
    (Navigate.navigateTool network defaultSessionId) "multi_" "_session".

(** The handler of [createSessionTool]; [uuid] and [now] are what
    [randomUUID()] and [Date.now()] return in this call. *)
Definition createSession_handle (uuid : string) (now : Z)
  (params_name : option string) : M Context.State Context.ToolResult :=
  try_catch
    (fun s =>
       (await session <-
          lift
            (Store.create network (Context.config (fst s)) None
               (if Client.truthy params_name
                then [("name", default "" params_name)]
                else [])
               uuid now);
        ret {| Context.action :=
                 Some
                   (ret (Some
                           (Some
                              [TextContent
                                 ("Created TzafonWright session "
                                  +:+ TzafonWrightSession.id session
                                  +:+ (if Client.truthy params_name
                                       then " (" +:+ default "" params_name
                                            +:+ ")"
                                       else ""))]))) |})%async s)
    (fun errorMessage =>
       throw
         ("Failed to create browser session: " +:+ errorMessage
          +:+ ". Please check your TzafonWright proxy connection and try again.")).

Definition createSessionTool (uuid : string) (now : Z)
  : Context.Tool (option string) :=
  {| Context.name := "multi_tzafonwright_session_create";
     Context.handle := Some (createSession_handle uuid now) |}.

(** The handler of [closeSessionTool]. *)
Definition closeSession_handle (sessionId : string)
  : M Context.State Context.ToolResult :=
  fun s =>
    match Store.get sessionId (snd s) with
    | None => (Throw ("Session " +:+ sessionId +:+ " not found"), s)
    | Some _ =>
        (perform lift (Store.remove sessionId);
         ret {| Context.action :=
                  Some
                    (ret (Some
                            (Some
                               [TextContent
                                  ("Closed session " +:+ sessionId)]))) |})%async
          s
    end.

Definition closeSessionTool : Context.Tool string :=
  {| Context.name := "multi_tzafonwright_session_close";
     Context.handle := Some closeSession_handle |}.

End MultiSession.

End MultiSession.

(** ** Sample data for the closed instances below *)

Module Sample.

Import Client.

Definition proxy : string := "ws://proxy:80".

(** A socket that opens after 5 ms, answers nothing and closes quietly. *)
Definition quiet : Remote :=
  {| handshake := Opens 5; replies := []; closeError := None |}.

(** A client after a successful [connect()]. *)
Definition client : TzafonWrightClient := snd (connect (new proxy quiet)).

Definition command (a : ActionType) (t : option Z) : Command :=
  {| action_type := a; x := None; y := None; text := None; delta_x := None;
     delta_y := None; url := None; width := None; height := None;
     timeout := t |}.

(** A socket that never opens nor fails. *)
Definition quiet_forever : Remote :=
  {| handshake := Silent; replies := []; closeError := None |}.

(** A network on which every socket opens but that of the attempt with
    index 3, which never answers. *)
Definition fourth_silent (i : Qc) : Remote :=
  if Qeq_bool i 3 then quiet_forever else quiet.

(** The text of a number with one decimal digit, such as 3.5. *)
Definition tenths (x : Qc) : string :=
  pretty (Qfloor x) +:+ "." +:+ pretty (Qfloor (x * Qc_of_Z 10)%Qc mod 10).

Definition respA : Inbound := Response (Some true) None None.

Definition respB : Inbound := Response (Some false) (Some "B failed") None.

Definition main : string := "tzafonwright_session_main_1700000000000".

(** A configuration without a viewport. *)
Definition config : Config.t :=
  {| Config.proxyUrl := proxy; Config.viewPort := None |}.

(** A socket whose handshake fails. *)
Definition refusing : Remote :=
  {| handshake := Errors 3 "ECONNREFUSED"; replies := [];
     closeError := None |}.

(** A socket whose [close()] throws. *)
Definition stubborn : Remote :=
  {| handshake := Opens 5; replies := []; closeError := Some "EPIPE" |}.

Definition session (r : nat) (id : string) : BrowserSession.t :=
  {| BrowserSession.client := Some r; BrowserSession.sessionId := id |}.

(** Nothing created yet. *)
Definition fresh : World :=
  {| heap := []; store := ∅; browsers := ∅; defaultBrowserSession := None;
     activeSessionId := main; stderr := [] |}.

(** The default session exists, and its socket has been closed from the
    other side (the "close" event has set [isConnected] to false). *)
Definition stale : World :=
  {| heap := [step client OnClose]; store := ∅;
     browsers := {[ main := session 0 main ]};
     defaultBrowserSession := Some (session 0 main);
     activeSessionId := main; stderr := [] |}.

(** A session "a" with a live connection is registered and active. *)
Definition named : World :=
  {| heap := [client]; store := ∅;
     browsers := {[ "a" := session 0 "a" ]};
     defaultBrowserSession := None;
     activeSessionId := "a"; stderr := [] |}.

(** One session of a bulk run is in the store; the registry is empty. *)
Definition stored : World :=
  {| heap := [client];
     store :=
       {[ "session-1-1700000000000-k3x9q2a" :=
            {| TzafonWrightSession.id := "session-1-1700000000000-k3x9q2a";
               TzafonWrightSession.client := 0%nat;
               TzafonWrightSession.created := 1700000000000;
               TzafonWrightSession.metadata := [("name", "session-1")] |} ]};
     browsers := ∅;
     defaultBrowserSession := None;
     activeSessionId := main; stderr := [] |}.

(** A server list with nothing to close. *)
Definition closeNothing (servers : unit) : Outcome unit * unit :=
  (Ret tt, servers).

(** A socket that opens and whose proxy answers one call with success. *)
Definition answering : Remote :=
  {| handshake := Opens 5; replies := [respA]; closeError := None |}.

(** The session "a" is registered and active, its connection is live and
    the proxy will answer its next call. *)
Definition browsing : World :=
  {| heap := [snd (connect (new proxy answering))]; store := ∅;
     browsers := {[ "a" := session 0 "a" ]};
     defaultBrowserSession := None;
     activeSessionId := "a"; stderr := [] |}.

(** A context whose current session is "a". *)
Definition context : Context.t :=
  {| Context.config := config; Context.currentSessionId := "a";
     Context.own_client := None |}.

(** One session is in the store, with a live connection whose proxy will
    answer the next call. *)
Definition stocked : World :=
  {| heap := [snd (connect (new proxy answering))];
     store :=
       {[ "s1" :=
            {| TzafonWrightSession.id := "s1";
               TzafonWrightSession.client := 0%nat;
               TzafonWrightSession.created := 1700000000000;
               TzafonWrightSession.metadata := [("name", "scraper")] |} ]};
     browsers := ∅;
     defaultBrowserSession := None;
     activeSessionId := main; stderr := [] |}.

End Sample.

(** ** Vocabulary of the statements *)


(** The ceiling of the quotient of two integers, [b <> 0]. *)
Definition ceil_div (a b : Z) : Z := - ((- a) / b).


(** The socket opens, and the proxy answers the viewport command (when
    the configuration asks for one) with a frame that parses. *)
Definition remote_cooperates (config : Config.t) (r : Client.Remote) : bool :=
  match Client.handshake r with
  | Client.Opens _ =>
      match Store.viewport_configured config with
      | None => true
      | Some _ =>
          match Client.replies r with
          | Client.Response _ _ _ :: _ => true
          | _ => false
          end
      end
  | _ => false
  end.

(** What [createTzafonWrightClient] does to the client it has constructed,
    told on the client alone: its [try] block, and [close()] before the
    rethrow in its [catch]. *)
Definition close_and_rethrow (e : string) (c : Client.TzafonWrightClient)
  : Outcome unit * Client.TzafonWrightClient :=
  let '(err, c') := Client.close c in
  (match err with Some e' => Throw e' | None => Throw e end, c').

Definition client_fate (config : Config.t) (c0 : Client.TzafonWrightClient)
  : Outcome unit * Client.TzafonWrightClient :=
  let '(o1, c1) := Client.connect c0 in
  match o1 with
  | Ret _ =>
      match Store.viewport_configured config with
      | Some (w, h) =>
          let '(o2, c2) :=
            Client.await_sendAction (Client.setViewportSize w h) c1 in
          match o2 with
          | Ret _ => (Ret tt, c2)
          | Throw e => close_and_rethrow e c2
          | Hang => (Hang, c2)
          end
      | None => (Ret tt, c1)
      end
  | Throw e => close_and_rethrow e c1
  | Hang => (Hang, c1)
  end.

(** The state in which [ensureDefaultSessionInternal] starts to create: a
    default session without a client has been dropped from the slot and
    from the map (there is no client to close). *)
Definition evict (defaultSessionId : string) (w : World) : World :=
  match defaultBrowserSession w with
  | None => w
  | Some _ =>
      set_browsers (delete defaultSessionId (browsers w))
        (set_defaultBrowserSession None w)
  end.

(** The line written between the first attempt and the retry. *)
Definition retry_notice (defaultSessionId creationError : string) : string :=
  "[SessionManager] Initial/Recreation attempt for default session "
  +:+ defaultSessionId +:+ " failed. Error: " +:+ creationError.

(** Every entry of the store sits under its own id, as [create] and
    [storeSession] put it there. *)
Definition store_wf (w : World) : Prop :=
  forall k s, store w !! k = Some s -> TzafonWrightSession.id s = k.

(** The registry after [cleanupSession] of [sessionId], from the state in
    which the session's client has been closed. *)
Definition cleaned (defaultSessionId sessionId : string) (w : World) : World :=
  {| heap := heap w;
     store := store w;
     browsers := delete sessionId (browsers w);
     defaultBrowserSession :=
       if String.eqb sessionId defaultSessionId then None
       else defaultBrowserSession w;
     activeSessionId :=
       if String.eqb (activeSessionId w) sessionId then defaultSessionId
       else activeSessionId w;
     stderr := stderr w |}.

(** Every listener of a client names a call that has been issued. *)
Definition wf (c : Client.TzafonWrightClient) : Prop :=
  Forall (fun k => (k < length (Client.calls c))%nat) (Client.handlers c).

(** The world after a successful [createNewBrowserSession]. *)
Definition created (defaultSessionId newSessionId : string)
  (c' : Client.TzafonWrightClient) (w : World) : World :=
  let s := {| BrowserSession.client := Some (length (heap w));
              BrowserSession.sessionId := newSessionId |} in
  {| heap := heap w ++ [c'];
     store := store w;
     browsers := <[newSessionId := s]> (browsers w);
     defaultBrowserSession :=
       if String.eqb newSessionId defaultSessionId then Some s
       else defaultBrowserSession w;
     activeSessionId := newSessionId;
     stderr := stderr w |}.

(** The session [getSession] finds for an id without creating one: the
    default slot for the default id, the map entry for any other. *)
Definition current_session (defaultSessionId id : string) (w : World)
  : option BrowserSession.t :=
  if String.eqb id defaultSessionId then defaultBrowserSession w
  else browsers w !! id.

(** What the navigate action makes of the outcome of its [goto] call. *)
Definition navigate_result (url : string) (o : Outcome Client.Result)
  : Outcome ToolActionResult :=
  match o with
  | Ret result =>
      if Client.success result then
        Ret (Some
               (Some
                  [TextContent
                     ("Successfully navigated to: " +:+ Navigate.normalizedUrl url
                      +:+ " (original: " +:+ url +:+ ")")]))
      else
        Throw ("Failed to navigate: "
               +:+ Client.or_else (Client.error_message result)
                     "Navigation failed")
  | Throw e => Throw ("Failed to navigate: " +:+ e)
  | Hang => Hang
  end.

(** The result [Context.run] makes of an error message. *)
Definition error_result (errorMessage : string) : CallToolResult :=
  {| content := [TextContent ("Error: " +:+ errorMessage)]; isError := true |}.

(** The active id names the default session or a registered one. *)
Definition active_registered (defaultSessionId : string) (w : World) : Prop :=
  activeSessionId w = defaultSessionId
  \/ is_Some (browsers w !! activeSessionId w).

(** The frames that setting a client up puts on the wire: the viewport
    command, when the configuration asks for one. *)
Definition setup_frames (config : Config.t)
  : list (list (string * Client.Json)) :=
  match Store.viewport_configured config with
  | Some (w, h) => [Client.commandData (Client.setViewportSize w h)]
  | None => []
  end.

(** The frames of the proxy that are still to come once a client has been
    set up: the answer to the viewport command has been used up. *)
Definition replies_after_setup (config : Config.t) (r : Client.Remote)
  : list Client.Inbound :=
  match Store.viewport_configured config with
  | Some _ => tail (Client.replies r)
  | None => Client.replies r
  end.

(** The registry is in order: the default slot mirrors the map's entry
    under the default id, every registered session sits under its own id
    and has a client that exists, and the active id is registered. *)
Definition registry_wf (defaultSessionId : string) (w : World) : Prop :=
  defaultBrowserSession w = browsers w !! defaultSessionId
  /\ (forall id s,
        browsers w !! id = Some s ->
        BrowserSession.sessionId s = id
        /\ exists r c, BrowserSession.client s = Some r /\ heap w !! r = Some c)
  /\ active_registered defaultSessionId w.

(** An attempt of a bulk run succeeds when its socket opens strictly before
    the connection timeout. *)
Definition bulk_opens (network : Qc -> Client.Remote) (timeoutMs : Z) (i : Qc)
  : bool :=
  match Client.handshake (network i) with
  | Client.Opens t => t <? timeoutMs
  | _ => false
  end.

(** The entry a successful attempt leaves in [successful]. *)
Definition bulk_success (network : Qc -> Client.Remote) (now : Qc -> Z)
  (random fraction : Qc -> string) (proxyUrl namePrefix : string) (i : Qc)
  : Client.Successful :=
  {| Client.s_client :=
       Client.set_isConnected true
         (Client.set_handlers []
            (Client.set_ws true (Client.new proxyUrl (network i))));
     Client.s_sessionId :=
       Client.sessionName fraction namePrefix i +:+ "-" +:+ pretty (now i)
       +:+ "-" +:+ random i;
     Client.s_name := Client.sessionName fraction namePrefix i |}.

(** The entry a failed attempt leaves in [failed]. *)
Definition bulk_failure (network : Qc -> Client.Remote)
  (fraction : Qc -> string) (namePrefix : string) (timeoutMs : Z) (i : Qc)
  : Client.Failed :=
  {| Client.f_error :=
       Client.or_else
         (Some
            match Client.handshake (network i) with
            | Client.Invalid msg => msg
            | Client.Errors t msg =>
                if t <? timeoutMs then msg else "Connection timeout"
            | _ => "Connection timeout"
            end)
         "Unknown error";
     Client.f_name := Client.sessionName fraction namePrefix i |}.

(** * Properties *)

(** ** The wire frame of a command *)

Section Frame.

Import Client.

Lemma property_spread_ne {A : Type} (key k : string) (inj : A -> Json)
  (v : option A) (o : list (string * Json)) :
  String.eqb k key = false ->
  property key (spread k inj v ++ o) = property key o.
Proof.
  intros Hne. destruct v as [a|]; simpl; [rewrite Hne|]; reflexivity.
Qed.

Lemma commandData_timeout (command : Command) :
  property "timeout" (commandData command)
  = Some (JNum (or_default (timeout command) 30000)).
Proof.
  unfold commandData. simpl.
  repeat (rewrite property_spread_ne by reflexivity). reflexivity.
Qed.

Lemma or_default_nonzero (v : option Z) (d : Z) :
  d <> 0 -> or_default v d <> 0.
Proof.
  intros Hd. unfold or_default. destruct v as [n|]; [|assumption].
  destruct (Z.eqb_spec n 0); assumption.
Qed.

(** The frame of every command has a non-zero [timeout]. *)
Lemma commandData_timeout_nonzero (command : Command) :
  exists t, property "timeout" (commandData command) = Some (JNum t) /\ t <> 0.
Proof.
  exists (or_default (timeout command) 30000). split.
  - apply commandData_timeout.
  - apply or_default_nonzero. lia.
Qed.

(** C10.  A command whose [timeout] is set to 0 goes on the wire with
    [timeout] 30000: on an open client [sendAction] sends exactly the frame
    [commandData command], whose [timeout] property is 30000; and the frame
    of no command at all has a [timeout] of 0. *)
Theorem sendAction_zero_timeout_is_default (command : Command)
  (c : TzafonWrightClient) :
  timeout command = Some 0 ->
  ws c = true ->
  isConnected c = true ->
  sent (snd (sendAction command c)) = sent c ++ [commandData command]
  /\ property "timeout" (commandData command) = Some (JNum 30000)
  /\ (forall other : Command,
       property "timeout" (commandData other) <> Some (JNum 0)).
Proof.
  intros Ht Hws Hconn. split; [|split].
  - unfold sendAction. rewrite Hws, Hconn. reflexivity.
  - rewrite commandData_timeout, Ht. reflexivity.
  - intros other Hzero.
    destruct (commandData_timeout_nonzero other) as (t & Ht' & Hne).
    rewrite Ht' in Hzero. injection Hzero as ->. contradiction.
Qed.

End Frame.

(** Contradictions between memberships in a list and in its tail. *)
Ltac membership :=
  solve
    [ match goal with
      | H : ?x ∉ ?y :: ?l |- _ =>
          apply H;
          first [ apply list_elem_of_here
                | apply list_elem_of_further; assumption ]
      end
    | match goal with
      | H : ?x ∈ ?y :: ?l |- _ =>
          apply elem_of_cons in H as [H|H]; [congruence|contradiction]
      end
    | match goal with
      | H : ?x ∈ [] |- _ => inversion H
      end ].

(** ** Calls and inbound messages on one client *)

Section Calls.

Import Client.

Lemma settle_idemp {A : Type} (p v : Promise A) :
  settle (settle p v) v = settle p v.
Proof. destruct p, v; reflexivity. Qed.

Lemma emit_fold_handlers (data : Inbound) (hs : list nat)
  (c : TzafonWrightClient) :
  handlers c = hs ->
  handlers (foldl (fun c' k => messageHandler k data c') c hs) = [].
Proof.
  revert c. induction hs as [|k hs IH]; intros c Hc; simpl.
  - exact Hc.
  - apply IH. unfold messageHandler. simpl. rewrite Hc. simpl.
    rewrite Nat.eqb_refl. reflexivity.
Qed.

(** After a "message" event no listener is left. *)
Lemma emit_message_handlers (data : Inbound) (c : TzafonWrightClient) :
  handlers (emit_message data c) = [].
Proof. apply emit_fold_handlers. reflexivity. Qed.

Lemma emit_fold_calls (data : Inbound) (hs : list nat)
  (c : TzafonWrightClient) :
  calls (foldl (fun c' k => messageHandler k data c') c hs)
  = foldl (fun p k => alter (fun q => settle q (handle data)) k p)
      (calls c) hs.
Proof.
  revert c. induction hs as [|k hs IH]; intros c; simpl; [reflexivity|].
  rewrite IH. reflexivity.
Qed.

Lemma fold_alter_lookup (v : Promise Result) (hs : list nat)
  (p : list (Promise Result)) (k : nat) :
  foldl (fun p k => alter (fun q => settle q v) k p) p hs !! k
  = if decide (k ∈ hs) then (fun q => settle q v) <$> p !! k else p !! k.
Proof.
  revert p. induction hs as [|h hs IH]; intros p.
  - case_decide as Hin; [|reflexivity]. inversion Hin.
  - cbn [foldl]. rewrite IH. destruct (decide (h = k)) as [->|Hne].
    + rewrite list_lookup_alter_eq.
      repeat case_decide; try reflexivity.
      * destruct (p !! k) as [q|]; simpl; [|reflexivity].
        rewrite settle_idemp. reflexivity.
      * exfalso. membership.
      * exfalso. membership.
    + rewrite list_lookup_alter_ne by assumption.
      repeat case_decide; try reflexivity; exfalso; membership.
Qed.

(** A "message" event settles the call of every attached listener with the
    one frame, and leaves every other promise as it is. *)
Lemma emit_message_calls (data : Inbound) (c : TzafonWrightClient) (k : nat) :
  calls (emit_message data c) !! k
  = if decide (k ∈ handlers c)
    then (fun q => settle q (handle data)) <$> calls c !! k
    else calls c !! k.
Proof.
  unfold emit_message. rewrite emit_fold_calls. apply fold_alter_lookup.
Qed.

Lemma emit_message_length (data : Inbound) (c : TzafonWrightClient) :
  length (calls (emit_message data c)) = length (calls c).
Proof.
  unfold emit_message. rewrite emit_fold_calls.
  generalize (calls c). induction (handlers c) as [|h hs IH]; intros p; simpl.
  - reflexivity.
  - rewrite IH. apply length_alter.
Qed.

Lemma emit_fold_frame (data : Inbound) (hs : list nat)
  (c : TzafonWrightClient) :
  let c' := foldl (fun c' k => messageHandler k data c') c hs in
  ws c' = ws c /\ isConnected c' = isConnected c /\ sent c' = sent c
  /\ closes c' = closes c.
Proof.
  revert c. induction hs as [|k hs IH]; intros c; simpl; [tauto|].
  destruct (IH (messageHandler k data c)) as (H1 & H2 & H3 & H4).
  rewrite H1, H2, H3, H4. tauto.
Qed.

Lemma emit_message_frame (data : Inbound) (c : TzafonWrightClient) :
  ws (emit_message data c) = ws c
  /\ isConnected (emit_message data c) = isConnected c
  /\ sent (emit_message data c) = sent c
  /\ closes (emit_message data c) = closes c.
Proof. apply emit_fold_frame. Qed.

Lemma sendAction_open (command : Command) (c : TzafonWrightClient) :
  ws c = true ->
  isConnected c = true ->
  sendAction command c
  = (length (calls c),
     set_sent (sent c ++ [commandData command])
       (set_handlers (handlers c ++ [length (calls c)])
          (set_calls (calls c ++ [Pending]) c))).
Proof. intros Hws Hconn. unfold sendAction. rewrite Hws, Hconn. reflexivity. Qed.

(** One call, then its response: the pairing is right. *)
Lemma sendAction_then_message (command : Command) (data : Inbound)
  (c : TzafonWrightClient) :
  ws c = true ->
  isConnected c = true ->
  calls (run [Call command; OnMessage data] c) !! length (calls c)
  = Some (handle data).
Proof.
  intros Hws Hconn. unfold run. simpl. rewrite sendAction_open by assumption.
  simpl. rewrite emit_message_calls. simpl.
  rewrite decide_True by (apply elem_of_app; right; apply list_elem_of_here).
  rewrite lookup_app_r by lia. rewrite Nat.sub_diag. reflexivity.
Qed.

(** C1, as the code has it.  [sendAction] has no single-flight guard.  Two
    calls issued back to back on an open client are both accepted at once
    (both promises pending, both listeners attached, both frames sent); the
    first inbound frame then settles both calls, and the second frame finds
    no listener.  The pairing is right when the first call's response comes
    before the second call is issued. *)
Theorem sendAction_has_no_single_flight (cmd1 cmd2 : Command)
  (dA dB : Inbound) (c : TzafonWrightClient) :
  ws c = true ->
  isConnected c = true ->
  let k1 := length (calls c) in
  let k2 := S k1 in
  let c2 := run [Call cmd1; Call cmd2] c in
  let c3 := run [OnMessage dA] c2 in
  let c4 := run [OnMessage dB] c3 in
  let s4 := run [Call cmd1; OnMessage dA; Call cmd2; OnMessage dB] c in
  (calls c2 !! k1 = Some Pending /\ calls c2 !! k2 = Some Pending
   /\ handlers c2 = handlers c ++ [k1; k2]
   /\ sent c2 = sent c ++ [commandData cmd1; commandData cmd2])
  /\ (calls c3 !! k1 = Some (handle dA) /\ calls c3 !! k2 = Some (handle dA)
      /\ handlers c3 = [])
  /\ (calls c4 !! k1 = Some (handle dA) /\ calls c4 !! k2 = Some (handle dA))
  /\ (calls s4 !! k1 = Some (handle dA) /\ calls s4 !! k2 = Some (handle dB)).
Proof.
  intros Hws Hconn k1 k2 c2 c3 c4 s4.
  assert (Hc2 : c2
    = set_sent (sent c ++ [commandData cmd1; commandData cmd2])
        (set_handlers (handlers c ++ [k1; k2])
           (set_calls (calls c ++ [Pending; Pending]) c))).
  { subst c2. unfold run. simpl.
    rewrite (sendAction_open cmd1 c) by assumption.
    simpl. rewrite sendAction_open by (simpl; assumption). simpl.
    rewrite length_app. simpl. rewrite Nat.add_1_r.
    rewrite <- !app_assoc. reflexivity. }
  assert (H21 : calls c2 !! k1 = Some Pending).
  { rewrite Hc2. simpl. rewrite lookup_app_r by (subst k1; lia).
    subst k1. rewrite Nat.sub_diag. reflexivity. }
  assert (H22 : calls c2 !! k2 = Some Pending).
  { rewrite Hc2. simpl. rewrite lookup_app_r by (subst k2 k1; lia).
    subst k2 k1. replace (S (length (calls c)) - length (calls c))%nat
      with 1%nat by lia. reflexivity. }
  assert (H2h : handlers c2 = handlers c ++ [k1; k2])
    by (rewrite Hc2; reflexivity).
  assert (H31 : calls c3 !! k1 = Some (handle dA)).
  { subst c3. unfold run. simpl. rewrite emit_message_calls.
    rewrite decide_True by (rewrite H2h; set_solver).
    rewrite H21. reflexivity. }
  assert (H32 : calls c3 !! k2 = Some (handle dA)).
  { subst c3. unfold run. simpl. rewrite emit_message_calls.
    rewrite decide_True by (rewrite H2h; set_solver).
    rewrite H22. reflexivity. }
  assert (H3h : handlers c3 = []) by apply emit_message_handlers.
  repeat split; try assumption.
  - rewrite Hc2. reflexivity.
  - subst c4. unfold run. simpl. rewrite emit_message_calls.
    unfold run in H3h. simpl in H3h. rewrite H3h.
    rewrite decide_False by set_solver. exact H31.
  - subst c4. unfold run. simpl. rewrite emit_message_calls.
    unfold run in H3h. simpl in H3h. rewrite H3h.
    rewrite decide_False by set_solver. exact H32.
  - subst s4. unfold run. simpl.
    rewrite (sendAction_open cmd1 c) by assumption. simpl.
    set (c1 := emit_message dA _).
    assert (Hk1 : calls c1 !! k1 = Some (handle dA)).
    { subst c1. rewrite emit_message_calls. simpl.
      rewrite decide_True by set_solver.
      rewrite lookup_app_r by (subst k1; lia). subst k1.
      rewrite Nat.sub_diag. reflexivity. }
    assert (Hh1 : handlers c1 = []) by apply emit_message_handlers.
    assert (Hl1 : length (calls c1) = k2).
    { subst c1. rewrite emit_message_length. simpl. rewrite length_app.
      simpl. subst k2 k1. lia. }
    assert (Hws1 : ws c1 = true).
    { subst c1. rewrite (proj1 (emit_message_frame _ _)). exact Hws. }
    assert (Hconn1 : isConnected c1 = true).
    { subst c1. rewrite (proj1 (proj2 (emit_message_frame _ _))).
      exact Hconn. }
    rewrite sendAction_open by assumption.
    simpl. rewrite emit_message_calls. simpl. rewrite Hh1. simpl.
    rewrite decide_False.
    + rewrite lookup_app_l by (rewrite Hl1; subst k2; lia). exact Hk1.
    + rewrite Hl1. intros Hin. apply list_elem_of_singleton in Hin.
      subst k2. lia.
  - subst s4. unfold run. simpl.
    rewrite (sendAction_open cmd1 c) by assumption. simpl.
    set (c1 := emit_message dA _).
    assert (Hl1 : length (calls c1) = k2).
    { subst c1. rewrite emit_message_length. simpl. rewrite length_app.
      simpl. subst k2 k1. lia. }
    assert (Hws1 : ws c1 = true).
    { subst c1. rewrite (proj1 (emit_message_frame _ _)). exact Hws. }
    assert (Hconn1 : isConnected c1 = true).
    { subst c1. rewrite (proj1 (proj2 (emit_message_frame _ _))).
      exact Hconn. }
    rewrite sendAction_open by assumption.
    simpl. rewrite emit_message_calls. simpl.
    rewrite decide_True by set_solver.
    rewrite lookup_app_r by lia. rewrite Hl1, Nat.sub_diag. reflexivity.
Qed.

(** C1, witness: the theorem at two commands on a connected client. *)
Lemma sendAction_has_no_single_flight_witness :
  ws Sample.client = true /\ isConnected Sample.client = true
  /\ calls
       (run [Call (Sample.command GOTO None);
             Call (Sample.command SCREENSHOT None);
             OnMessage Sample.respA] Sample.client) !! 1%nat
     = Some (handle Sample.respA).
Proof.
  split; [reflexivity|]. split; [reflexivity|].
  exact (proj1 (proj2 (proj1 (proj2
    (sendAction_has_no_single_flight (Sample.command GOTO None)
       (Sample.command SCREENSHOT None) Sample.respA Sample.respB
       Sample.client eq_refl eq_refl))))).
Defined.

(** C1, as stated, fails.  The second of two back-to-back calls is neither
    rejected (its promise is pending) nor queued (its frame is already
    sent), and it is settled with the response to the first call. *)
Lemma back_to_back_calls_cross_wired :
  calls (run [Call (Sample.command GOTO None);
              Call (Sample.command SCREENSHOT None)] Sample.client) !! 1%nat
  = Some Pending
  /\ length (sent (run [Call (Sample.command GOTO None);
                        Call (Sample.command SCREENSHOT None)]
                     Sample.client)) = 2%nat
  /\ calls (run [Call (Sample.command GOTO None);
                 Call (Sample.command SCREENSHOT None);
                 OnMessage Sample.respA; OnMessage Sample.respB]
              Sample.client) !! 1%nat
     = Some (handle Sample.respA)
  /\ handle Sample.respA <> handle Sample.respB.
Proof.
  split; [reflexivity|]. split; [reflexivity|]. split; [reflexivity|].
  discriminate.
Qed.

(** *** A call that gets no response *)

Lemma sendAction_length (command : Command) (c : TzafonWrightClient) :
  length (calls (snd (sendAction command c))) = S (length (calls c)).
Proof.
  unfold sendAction.
  destruct (negb (ws c) || negb (isConnected c)); simpl;
    rewrite length_app; simpl; lia.
Qed.

(** An event other than "message" leaves a pending call pending and its
    listener attached, once. *)
Lemma step_keeps_listener (e : Event) (c : TzafonWrightClient) (k : nat) :
  is_message e = false ->
  wf c ->
  calls c !! k = Some Pending ->
  count_occ Nat.eq_dec (handlers c) k = 1%nat ->
  wf (step c e) /\ calls (step c e) !! k = Some Pending
  /\ count_occ Nat.eq_dec (handlers (step c e)) k = 1%nat.
Proof.
  intros Hmsg Hwf Hk Hcount.
  assert (Hlt : (k < length (calls c))%nat) by (eapply lookup_lt_Some; eauto).
  destruct e; try discriminate; simpl.
  - unfold sendAction, wf in *.
    destruct (negb (ws c) || negb (isConnected c)); simpl.
    + repeat split.
      * eapply Forall_impl; [exact Hwf|]. intros h Hh. simpl in Hh.
        rewrite length_app. simpl. lia.
      * rewrite lookup_app_l by lia. exact Hk.
      * exact Hcount.
    + repeat split.
      * apply Forall_app. split.
        -- eapply Forall_impl; [exact Hwf|]. intros h Hh. simpl in Hh.
           rewrite length_app. simpl. lia.
        -- constructor; [|constructor]. rewrite length_app. simpl. lia.
      * rewrite lookup_app_l by lia. exact Hk.
      * rewrite count_occ_app, Hcount. simpl.
        destruct (Nat.eq_dec (length (calls c)) k); lia.
  - repeat split; assumption.
  - repeat split; assumption.
  - repeat split; assumption.
  - unfold close. destruct (ws c); [|repeat split; assumption].
    destruct (closeError (remote c)); simpl; repeat split; assumption.
  - repeat split; assumption.
Qed.

Lemma run_keeps_listener (trace : list Event) (c : TzafonWrightClient)
  (k : nat) :
  forallb (fun e => negb (is_message e)) trace = true ->
  wf c ->
  calls c !! k = Some Pending ->
  count_occ Nat.eq_dec (handlers c) k = 1%nat ->
  wf (run trace c) /\ calls (run trace c) !! k = Some Pending
  /\ count_occ Nat.eq_dec (handlers (run trace c)) k = 1%nat.
Proof.
  revert c. induction trace as [|e trace IH]; intros c Htrace Hwf Hk Hcount.
  - repeat split; assumption.
  - simpl in Htrace. apply andb_prop in Htrace as [He Htrace].
    apply negb_true_iff in He.
    destruct (step_keeps_listener e c k He Hwf Hk Hcount) as (Hwf' & Hk' & Hc').
    unfold run. simpl. apply IH; assumption.
Qed.

(** Every event keeps the listeners well-formed, so every client that
    [connect] and a sequence of events lead to is. *)
Lemma step_wf (e : Event) (c : TzafonWrightClient) : wf c -> wf (step c e).
Proof.
  unfold wf. intros Hwf. destruct e; simpl; try assumption.
  - unfold sendAction.
    destruct (negb (ws c) || negb (isConnected c)); simpl.
    + eapply Forall_impl; [exact Hwf|]. intros h Hh. simpl in Hh.
      rewrite length_app. simpl. lia.
    + apply Forall_app. split.
      * eapply Forall_impl; [exact Hwf|]. intros h Hh. simpl in Hh.
        rewrite length_app. simpl. lia.
      * constructor; [|constructor]. rewrite length_app. simpl. lia.
  - rewrite emit_message_handlers. constructor.
  - unfold close. destruct (ws c); [|assumption].
    destruct (closeError (remote c)); assumption.
Qed.

Lemma run_wf (trace : list Event) (url : string) (r : Remote) :
  wf (run trace (snd (connect (new url r)))).
Proof.
  assert (H0 : wf (snd (connect (new url r)))).
  { unfold connect, wf. simpl. destruct (handshake r); constructor. }
  revert H0. generalize (snd (connect (new url r))).
  induction trace as [|e trace IH]; intros c Hc; [exact Hc|].
  unfold run. simpl. apply IH, step_wf, Hc.
Qed.

Lemma wf_count_fresh (c : TzafonWrightClient) :
  wf c -> count_occ Nat.eq_dec (handlers c) (length (calls c)) = 0%nat.
Proof.
  unfold wf. intros Hwf. apply count_occ_not_In. intros Hin.
  rewrite Forall_forall in Hwf. apply list_elem_of_In, Hwf in Hin. lia.
Qed.

(** C2, as the code has it.  A call on an open client attaches exactly one
    listener; the listener stays attached and the call pending under every
    sequence of events without an inbound message, however much time
    passes (no timer is armed for the call); the next inbound message
    settles the call and detaches the listener. *)
Theorem sendAction_listener_until_message (command : Command)
  (trace : list Event) (data : Inbound) (c : TzafonWrightClient) :
  ws c = true ->
  isConnected c = true ->
  wf c ->
  forallb (fun e => negb (is_message e)) trace = true ->
  let k := fst (sendAction command c) in
  let c1 := snd (sendAction command c) in
  let c2 := run trace c1 in
  let c3 := step c2 (OnMessage data) in
  (count_occ Nat.eq_dec (handlers c) k = 0%nat
   /\ count_occ Nat.eq_dec (handlers c1) k = 1%nat
   /\ calls c1 !! k = Some Pending)
  /\ (calls c2 !! k = Some Pending
      /\ count_occ Nat.eq_dec (handlers c2) k = 1%nat)
  /\ (calls c3 !! k = Some (handle data)
      /\ count_occ Nat.eq_dec (handlers c3) k = 0%nat).
Proof.
  intros Hws Hconn Hwf Htrace. rewrite sendAction_open by assumption. simpl.
  set (k := length (calls c)).
  set (c1 := set_sent _ _).
  assert (Hfresh : count_occ Nat.eq_dec (handlers c) k = 0%nat)
    by (apply wf_count_fresh; exact Hwf).
  assert (H1c : count_occ Nat.eq_dec (handlers c1) k = 1%nat).
  { subst c1. simpl. rewrite count_occ_app, Hfresh. simpl.
    destruct (Nat.eq_dec k k); [reflexivity|contradiction]. }
  assert (H1p : calls c1 !! k = Some Pending).
  { subst c1. simpl. rewrite lookup_app_r by (subst k; lia). subst k.
    rewrite Nat.sub_diag. reflexivity. }
  assert (H1w : wf c1).
  { subst c1. unfold wf in *. simpl. apply Forall_app. split.
    - eapply Forall_impl; [exact Hwf|]. intros h Hh. simpl in Hh.
      rewrite length_app. simpl. lia.
    - constructor; [|constructor]. rewrite length_app. simpl. subst k. lia. }
  destruct (run_keeps_listener trace c1 k Htrace H1w H1p H1c)
    as (H2w & H2p & H2c).
  repeat split; try assumption.
  - rewrite emit_message_calls. rewrite decide_True.
    + rewrite H2p. reflexivity.
    + apply list_elem_of_In. apply (count_occ_In Nat.eq_dec). lia.
  - rewrite emit_message_handlers. reflexivity.
Qed.

(** C2, witness: a call followed by a minute of silence and the loss of
    the socket. *)
Lemma sendAction_listener_until_message_witness :
  (ws Sample.client = true /\ isConnected Sample.client = true
   /\ wf Sample.client)
  /\ calls
       (run [Elapse 60000; OnClose]
          (snd (sendAction (Sample.command SCREENSHOT None) Sample.client)))
     !! fst (sendAction (Sample.command SCREENSHOT None) Sample.client)
     = Some Pending.
Proof.
  split.
  - split; [reflexivity|]. split; [reflexivity|]. constructor.
  - exact (proj1 (proj1 (proj2
      (sendAction_listener_until_message (Sample.command SCREENSHOT None)
         [Elapse 60000; OnClose] Sample.respA Sample.client eq_refl eq_refl
         (Forall_nil_2 _) eq_refl)))).
Defined.

(** C2, as stated, fails.  A call whose frame asks for a 1000 ms timeout
    gets no response for more than an hour: it has not failed, and its
    listener is still attached. *)
Lemma call_without_response_stays_pending :
  property "timeout" (commandData (Sample.command SCREENSHOT (Some 1000)))
  = Some (JNum 1000)
  /\ elapsed [Elapse 1000; Elapse 3600000] = 3601000
  /\ calls
       (run [Elapse 1000; Elapse 3600000]
          (snd (sendAction (Sample.command SCREENSHOT (Some 1000))
                  Sample.client))) !! 0%nat
     = Some Pending
  /\ handlers
       (run [Elapse 1000; Elapse 3600000]
          (snd (sendAction (Sample.command SCREENSHOT (Some 1000))
                  Sample.client)))
     = [0%nat].
Proof. repeat split; reflexivity. Qed.

(** C10, witness. *)
Lemma sendAction_zero_timeout_is_default_witness :
  timeout (Sample.command GOTO (Some 0)) = Some 0
  /\ property "timeout" (commandData (Sample.command GOTO (Some 0)))
     = Some (JNum 30000).
Proof.
  split; [reflexivity|].
  exact (proj1 (proj2 (sendAction_zero_timeout_is_default
                         (Sample.command GOTO (Some 0)) Sample.client
                         eq_refl eq_refl eq_refl))).
Defined.

End Calls.

(** ** Bulk provisioning *)

(** *** Integer counts and batch sizes

    On integers the arithmetic of the provisioner is integer arithmetic. *)

Section BulkNumbers.

Import Client.

Lemma Qle_bool_integral (a b : Z) :
  Qle_bool (Qc_of_Z a) (Qc_of_Z b) = (a <=? b).
Proof. unfold Qle_bool. simpl. rewrite !Z.mul_1_r. reflexivity. Qed.

Lemma Qeq_bool_integral (a : Z) : Qeq_bool (Qc_of_Z a) 0%Q = (a =? 0).
Proof. unfold Qeq_bool. simpl. rewrite Z.mul_1_r. reflexivity. Qed.

Lemma Math_min_integral (a b : Z) :
  Math_min (Qc_of_Z a) (Qc_of_Z b) = Qc_of_Z (Z.min a b).
Proof.
  unfold Math_min. rewrite Qle_bool_integral.
  destruct (Z.leb_spec a b); f_equal; lia.
Qed.

Lemma startIndex_integral (b i : Z) :
  startIndex (Qc_of_Z b) i = Qc_of_Z (i * b).
Proof. unfold startIndex. symmetry. apply Z2Qc_inj_mul. Qed.

Lemma batchCount_integral (c b i : Z) :
  batchCount (Qc_of_Z c) (Qc_of_Z b) i
  = Qc_of_Z (Z.min (i * b + b) c - i * b).
Proof.
  unfold batchCount, endIndex. rewrite startIndex_integral.
  rewrite <- Z2Qc_inj_add, Math_min_integral, <- Z2Qc_inj_sub. reflexivity.
Qed.

Lemma ToLength_integral (n : Z) : ToLength (Qc_of_Z n) = Z.max 0 n.
Proof. unfold ToLength, Qc_of_Z. cbn [this]. rewrite Qfloor_Z. reflexivity. Qed.

(** The slots of a batch. *)
Lemma slots_integral (c b i : Z) :
  ToLength (batchCount (Qc_of_Z c) (Qc_of_Z b) i)
  = Z.max 0 (Z.min (i * b + b) c - i * b).
Proof. rewrite batchCount_integral. apply ToLength_integral. Qed.

Lemma Math_ceil_integral (a b : Z) :
  b <> 0 -> Math_ceil (Qc_of_Z a / Qc_of_Z b) = ceil_div a b.
Proof.
  intros Hb. unfold Math_ceil, ceil_div, Qceiling. f_equal.
  rewrite Zdiv_Qdiv. apply Qfloor_comp.
  unfold Qcdiv, Qcmult, Qcinv, Q2Qc, Qc_of_Z. cbn [this].
  rewrite !Qred_correct, inject_Z_opp. unfold Qdiv. ring.
Qed.

Lemma totalBatches_integral (c b : Z) :
  totalBatches (Qc_of_Z c) (Qc_of_Z b)
  = if b =? 0 then (if c <=? 0 then Some 0 else None)
    else Some (ceil_div c b).
Proof.
  unfold totalBatches. rewrite Qeq_bool_integral.
  destruct (Z.eqb_spec b 0) as [H0|H0].
  - change 0%Q with (this (Qc_of_Z 0)). rewrite Qle_bool_integral.
    reflexivity.
  - rewrite Math_ceil_integral by exact H0. reflexivity.
Qed.

(** The batch size in effect, when the one given (if any) is an integer. *)
Lemma size_integral (c : Z) (given : option Z) :
  default (Math_min (Qc_of_Z 5) (Qc_of_Z c)) (Qc_of_Z <$> given)
  = Qc_of_Z (default (Z.min 5 c) given).
Proof. destruct given; simpl; [reflexivity|apply Math_min_integral]. Qed.

Lemma toString_integral (fraction : Qc -> string) (n : Z) :
  toString fraction (Qc_of_Z n) = pretty n.
Proof. reflexivity. Qed.

(** The name of the attempt with an integer index. *)
Lemma sessionName_integral (fraction : Qc -> string) (namePrefix : string)
  (g : Z) :
  sessionName fraction namePrefix (Qc_of_Z g)
  = namePrefix +:+ "-" +:+ pretty (g + 1).
Proof.
  unfold sessionName.
  rewrite <- Z2Qc_inj_1, <- Z2Qc_inj_add, toString_integral. reflexivity.
Qed.

Lemma seqZ_max (m n : Z) : seqZ m (Z.max 0 n) = seqZ m n.
Proof. unfold seqZ. f_equal. f_equal. lia. Qed.

(** *** Any count and batch size *)











End BulkNumbers.

Section BulkProperties.

Import Client.

Variable network : Qc -> Remote.
Variable now : Qc -> Z.
Variable random : Qc -> string.
Variable fraction : Qc -> string.
Variable proxyUrl : string.
Variable namePrefix : string.


Local Abbreviation batch_step count :=
  (batch network now random fraction proxyUrl count namePrefix).
Local Abbreviation try_one :=
  (attempt network now random fraction proxyUrl namePrefix).
Local Abbreviation create count :=
  (createBulkSessions network now random fraction proxyUrl count namePrefix).


(** [Math.ceil]: the least integer not below the quotient. *)
Lemma ceil_div_bounds (a b : Z) :
  0 < b -> (ceil_div a b - 1) * b < a <= ceil_div a b * b.
Proof.
  intros Hb. unfold ceil_div.
  pose proof (Z.div_mod (- a) b ltac:(lia)) as Hdm.
  pose proof (Z.mod_pos_bound (- a) b Hb) as Hmod.
  nia.
Qed.







(** *** Which attempt ends up where *)

Lemma sessionName_truthy (i : Qc) :
  truthy (Some (sessionName fraction namePrefix i)) = true.
Proof. unfold sessionName. destruct namePrefix; reflexivity. Qed.



(** The attempts of a batch, for an integer count and batch size: those
    with the indices from [batchIndex * size] on. *)
Lemma batchPromises_indices (c size timeoutMs batchIndex : Z) :
  batchPromises network now random fraction proxyUrl (Qc_of_Z c) namePrefix
    (Qc_of_Z size) timeoutMs batchIndex
  = (fun i => SFulfilled (try_one timeoutMs i))
    <$> (Qc_of_Z
         <$> seqZ (batchIndex * size)
               (Z.min (batchIndex * size + size) c - batchIndex * size)).
Proof.
  unfold batchPromises.
  rewrite slots_integral, seqZ_max, startIndex_integral.
  rewrite <- (Z.add_0_r (batchIndex * size)) at 3.
  rewrite <- fmap_add_seqZ, <- !list_fmap_compose.
  apply list_fmap_ext. intros k i _. simpl.
  rewrite Z2Qc_inj_add. reflexivity.
Qed.









End BulkProperties.





(** ** The session registry and the store *)

Section Registry.

Variable network : nat -> Client.Remote.
Variable defaultSessionId : string.

Lemma with_client_fresh {A : Type} (l : list Client.TzafonWrightClient)
  (c : Client.TzafonWrightClient)
  (method : Client.TzafonWrightClient -> Outcome A * Client.TzafonWrightClient)
  (missing : Outcome A) (w : World) :
  with_client (length l) method missing (set_heap (l ++ [c]) w)
  = (fst (method c), set_heap (l ++ [snd (method c)]) w).
Proof.
  unfold with_client. simpl.
  rewrite lookup_app_r by lia. rewrite Nat.sub_diag. simpl.
  destruct (method c) as [o c']. simpl. f_equal. unfold set_heap. simpl.
  f_equal. rewrite insert_app_r_alt by lia. rewrite Nat.sub_diag. reflexivity.
Qed.

(** Awaiting a call changes neither the socket nor the connected flag, and
    closes nothing. *)
Lemma await_sendAction_frame (command : Client.Command)
  (c : Client.TzafonWrightClient) :
  let c' := snd (Client.await_sendAction command c) in
  Client.ws c' = Client.ws c
  /\ Client.isConnected c' = Client.isConnected c
  /\ Client.closes c' = Client.closes c.
Proof.
  unfold Client.await_sendAction, Client.sendAction.
  destruct (negb (Client.ws c) || negb (Client.isConnected c)); simpl.
  - rewrite lookup_app_r by lia. rewrite Nat.sub_diag. simpl. tauto.
  - rewrite lookup_app_r by lia. rewrite Nat.sub_diag. simpl.
    destruct (Client.replies (Client.remote c)) as [|data rest]; simpl;
      [tauto|].
    match goal with
    | |- context [Client.emit_message ?d ?x] =>
        destruct (emit_message_frame d x) as (H1 & H2 & _ & H4);
        destruct (Client.calls (Client.emit_message d x) !! length (Client.calls c))
          as [[| |]|]; simpl; rewrite H1, H2, H4; simpl; tauto
    end.
Qed.

Lemma createTzafonWrightClient_fate (config : Config.t) (url : string)
  (w : World) :
  Store.nonempty url = true ->
  Store.createTzafonWrightClient network config (Some url) w
  = (match
       fst (client_fate config
              (Client.new url (network (length (heap w)))))
     with
     | Ret _ => Ret (length (heap w))
     | Throw e => Throw e
     | Hang => Hang
     end,
     set_heap
       (heap w
        ++ [snd (client_fate config
                   (Client.new url (network (length (heap w)))))]) w).
Proof.
  intros Hurl. unfold Store.createTzafonWrightClient. rewrite Hurl. simpl.
  rewrite Hurl. simpl.
  unfold bind, new_client, try_catch, client_connect, client_sendAction,
    client_close, client_fate, close_and_rethrow.
  rewrite with_client_fresh.
  destruct (Client.connect _) as [[[]|e|] c1]; simpl.
  - destruct (Store.viewport_configured config) as [[vw vh]|]; simpl;
      [|reflexivity].
    unfold bind. rewrite with_client_fresh.
    destruct (Client.await_sendAction _ c1) as [[res|e|] c2]; simpl;
      try reflexivity.
    rewrite with_client_fresh.
    destruct (Client.close c2) as [[e'|] c3]; reflexivity.
  - rewrite with_client_fresh.
    destruct (Client.close c1) as [[e'|] c3]; reflexivity.
  - reflexivity.
Qed.

Lemma close_and_rethrow_throws (e : string) (c : Client.TzafonWrightClient) :
  exists e', fst (close_and_rethrow e c) = Throw e'.
Proof.
  unfold close_and_rethrow, Client.close.
  destruct (Client.ws c); [destruct (Client.closeError (Client.remote c))|];
    simpl; eauto.
Qed.

(** A client whose creation succeeded is connected and has not been
    closed. *)
Lemma client_fate_ret (config : Config.t) (url : string) (r : Client.Remote) :
  fst (client_fate config (Client.new url r)) = Ret tt ->
  Client.ws (snd (client_fate config (Client.new url r))) = true
  /\ Client.isConnected (snd (client_fate config (Client.new url r))) = true
  /\ Client.closes (snd (client_fate config (Client.new url r))) = 0%nat.
Proof.
  unfold client_fate, Client.connect. simpl.
  destruct (Client.handshake r) as [msg0|t|t msg|]; simpl.
  - discriminate.
  - destruct (Store.viewport_configured config) as [[vw vh]|]; simpl;
      [|tauto].
    match goal with
    | |- context [Client.await_sendAction ?cmd ?c] =>
        pose proof (await_sendAction_frame cmd c) as Hf;
        destruct (Client.await_sendAction cmd c) as [[res|e|] c2]
    end; simpl in *.
    + tauto.
    + destruct (close_and_rethrow_throws e c2) as [e' He'].
      rewrite He'. discriminate.
    + discriminate.
  - match goal with
    | |- context [close_and_rethrow ?e ?c] =>
        destruct (close_and_rethrow_throws e c) as [e' He']
    end.
    rewrite He'. discriminate.
  - discriminate.
Qed.

(** With a socket that opens and a proxy that answers, creation succeeds. *)
Lemma client_fate_cooperates (config : Config.t) (url : string)
  (r : Client.Remote) :
  remote_cooperates config r = true ->
  fst (client_fate config (Client.new url r)) = Ret tt.
Proof.
  unfold remote_cooperates, client_fate, Client.connect. simpl.
  destruct (Client.handshake r) as [msg0|t|t msg|]; try discriminate. simpl.
  destruct (Store.viewport_configured config) as [[vw vh]|]; [|reflexivity].
  destruct (Client.replies r) as [|[err|sc em im] rest] eqn:Hr;
    try discriminate.
  intros _. unfold Client.await_sendAction. simpl. rewrite Hr. simpl.
  reflexivity.
Qed.

Lemma createNewBrowserSession_eq (newSessionId : string) (config : Config.t)
  (w : World) :
  Store.nonempty (Config.proxyUrl config) = true ->
  let fate :=
    client_fate config
      (Client.new (Config.proxyUrl config) (network (length (heap w)))) in
  SessionManager.createNewBrowserSession network defaultSessionId newSessionId
    config w
  = match fst fate with
    | Ret _ =>
        (Ret {| BrowserSession.client := Some (length (heap w));
                BrowserSession.sessionId := newSessionId |},
         created defaultSessionId newSessionId (snd fate) w)
    | Throw e =>
        (Throw ("Failed to create/connect session " +:+ newSessionId +:+ ": "
                +:+ e),
         write_stderr
           ("[SessionManager] Creating session " +:+ newSessionId
            +:+ " failed: " +:+ e)
           (set_heap (heap w ++ [snd fate]) w))
    | Hang => (Hang, set_heap (heap w ++ [snd fate]) w)
    end.
Proof.
  intros Hurl fate. unfold SessionManager.createNewBrowserSession.
  rewrite Hurl. simpl. unfold try_catch, bind.
  rewrite createTzafonWrightClient_fate by exact Hurl. fold fate.
  destruct (fst fate) as [[]|e|]; simpl; try reflexivity.
  unfold modify, ret, created, SessionManager.setActiveSessionId,
    SessionManager.has. simpl.
  f_equal.
  destruct (String.eqb newSessionId defaultSessionId); simpl;
    rewrite lookup_insert_eq; simpl; reflexivity.
Qed.

Lemma createNewBrowserSession_nourl (newSessionId : string) (config : Config.t)
  (w : World) :
  Store.nonempty (Config.proxyUrl config) = false ->
  SessionManager.createNewBrowserSession network defaultSessionId newSessionId
    config w
  = (Throw "TzafonWright proxy URL is missing in the configuration.", w).
Proof.
  intros Hurl. unfold SessionManager.createNewBrowserSession.
  rewrite Hurl. reflexivity.
Qed.

(** C8, as the code has it.  [createNewBrowserSession] stores the new
    session under its id whatever the map holds: when it succeeds, an entry
    already under that id is replaced by the new session, whose client is a
    new object, and every client that existed before -- the one of the
    replaced entry included -- is left exactly as it was, so it is not
    closed; when it does not succeed the map is unchanged. *)
Theorem createNewBrowserSession_replaces_without_closing
  (newSessionId : string) (config : Config.t) (w : World) :
  let o :=
    fst (SessionManager.createNewBrowserSession network defaultSessionId
           newSessionId config w) in
  let w' :=
    snd (SessionManager.createNewBrowserSession network defaultSessionId
           newSessionId config w) in
  (forall r c, heap w !! r = Some c -> heap w' !! r = Some c)
  /\ match o with
     | Ret s' =>
         browsers w' = <[newSessionId := s']> (browsers w)
         /\ BrowserSession.client s' = Some (length (heap w))
         /\ heap w !! length (heap w) = None
     | _ => browsers w' = browsers w
     end.
Proof.
  destruct (Store.nonempty (Config.proxyUrl config)) eqn:Hurl.
  - rewrite createNewBrowserSession_eq by exact Hurl.
    destruct (fst (client_fate _ _)) as [[]|e|]; simpl; split;
      try reflexivity;
      try (intros r c Hr; apply lookup_app_l_Some; exact Hr).
    repeat split. apply lookup_ge_None. lia.
  - rewrite createNewBrowserSession_nourl by exact Hurl. simpl. tauto.
Qed.

(** *** The default session *)

Local Abbreviation createNew :=
  (SessionManager.createNewBrowserSession network defaultSessionId).
Local Abbreviation ensureDefault :=
  (SessionManager.ensureDefaultSessionInternal network defaultSessionId).

Lemma createNewBrowserSession_ret (id : string) (config : Config.t)
  (w w1 : World) (s : BrowserSession.t) :
  createNew id config w = (Ret s, w1) ->
  exists c',
    s = {| BrowserSession.client := Some (length (heap w));
           BrowserSession.sessionId := id |}
    /\ w1 = created defaultSessionId id c' w
    /\ Client.ws c' = true /\ Client.isConnected c' = true
    /\ Client.closes c' = 0%nat.
Proof.
  destruct (Store.nonempty (Config.proxyUrl config)) eqn:Hurl.
  - rewrite createNewBrowserSession_eq by exact Hurl.
    destruct (fst (client_fate _ _)) as [[]|e|] eqn:Hf; try discriminate.
    intros [= <- <-]. eexists. split; [reflexivity|]. split; [reflexivity|].
    apply client_fate_ret. exact Hf.
  - rewrite createNewBrowserSession_nourl by exact Hurl. discriminate.
Qed.

Lemma createNewBrowserSession_heap (id : string) (config : Config.t)
  (w : World) :
  (length (heap (snd (createNew id config w))) <= length (heap w) + 1)%nat
  /\ (forall r c, heap w !! r = Some c ->
              heap (snd (createNew id config w)) !! r = Some c).
Proof.
  destruct (Store.nonempty (Config.proxyUrl config)) eqn:Hurl.
  - rewrite createNewBrowserSession_eq by exact Hurl.
    destruct (fst (client_fate _ _)) as [[]|e|]; simpl;
      (split; [rewrite length_app; simpl; lia
              |intros r c Hr; apply lookup_app_l_Some; exact Hr]).
  - rewrite createNewBrowserSession_nourl by exact Hurl. simpl.
    split; [lia|tauto].
Qed.

Lemma createNewBrowserSession_cooperates (id : string) (config : Config.t)
  (w : World) :
  Store.nonempty (Config.proxyUrl config) = true ->
  remote_cooperates config (network (length (heap w))) = true ->
  fst (createNew id config w)
  = Ret {| BrowserSession.client := Some (length (heap w));
           BrowserSession.sessionId := id |}.
Proof.
  intros Hurl Hcoop. rewrite createNewBrowserSession_eq by exact Hurl.
  rewrite client_fate_cooperates by exact Hcoop. reflexivity.
Qed.

(** The creation block, attempt by attempt. *)
Lemma recreate_unfold (config : Config.t) (w : World) :
  SessionManager.recreate network defaultSessionId config w
  = match createNew defaultSessionId config w with
    | (Ret s, w1) => (Ret s, set_defaultBrowserSession (Some s) w1)
    | (Hang, w1) => (Hang, w1)
    | (Throw e1, w1) =>
        match
          createNew defaultSessionId config
            (write_stderr (retry_notice defaultSessionId e1) w1)
        with
        | (Ret s, w2) => (Ret s, set_defaultBrowserSession (Some s) w2)
        | (Hang, w2) => (Hang, w2)
        | (Throw e2, w2) =>
            (Throw (SessionManager.defaultSessionUnavailable defaultSessionId e2),
             write_stderr
               ("[SessionManager] Failed to recreate default session "
                +:+ defaultSessionId +:+ " after retry: " +:+ e2) w2)
        end
    end.
Proof.
  unfold SessionManager.recreate, try_catch, bind, modify, ret, throw,
    retry_notice.
  destruct (createNew defaultSessionId config w) as [[s|e1|] w1]; simpl;
    try reflexivity.
  destruct (createNew defaultSessionId config _) as [[s|e2|] w2]; reflexivity.
Qed.

Lemma ensureDefault_recreate (config : Config.t) (w : World) :
  (defaultBrowserSession w = None
   \/ exists s, defaultBrowserSession w = Some s
               /\ BrowserSession.client s = None) ->
  ensureDefault config w
  = SessionManager.recreate network defaultSessionId config
      (evict defaultSessionId w).
Proof.
  unfold SessionManager.ensureDefaultSessionInternal, evict.
  intros [Hnone|(s & Hs & Hc)].
  - rewrite Hnone. reflexivity.
  - rewrite Hs, Hc. destruct s as [cl sid]. simpl in Hc. subst cl.
    reflexivity.
Qed.

Lemma created_default (c' : Client.TzafonWrightClient) (w : World) :
  let s := {| BrowserSession.client := Some (length (heap w));
              BrowserSession.sessionId := defaultSessionId |} in
  let w1 := set_defaultBrowserSession (Some s)
              (created defaultSessionId defaultSessionId c' w) in
  activeSessionId w1 = defaultSessionId
  /\ defaultBrowserSession w1 = Some s
  /\ browsers w1 !! defaultSessionId = Some s
  /\ heap w1 !! length (heap w) = Some c'.
Proof.
  simpl. repeat split.
  - apply lookup_insert_eq.
  - rewrite lookup_app_r by lia. rewrite Nat.sub_diag. reflexivity.
Qed.

(** What holds after the creation block, whatever the two attempts do. *)
Lemma recreate_spec (config : Config.t) (w : World) :
  let a1 := createNew defaultSessionId config w in
  let r := SessionManager.recreate network defaultSessionId config w in
  (length (heap (snd r)) <= length (heap w) + 2)%nat
  /\ (forall r0 c, heap w !! r0 = Some c -> heap (snd r) !! r0 = Some c)
  /\ (forall s, fst a1 = Ret s ->
       fst r = Ret s
       /\ (length (heap (snd r)) <= length (heap w) + 1)%nat)
  /\ (forall e1, fst a1 = Throw e1 ->
       let a2 :=
         createNew defaultSessionId config
           (write_stderr (retry_notice defaultSessionId e1) (snd a1)) in
       (forall s, fst a2 = Ret s -> fst r = Ret s)
       /\ (forall e2, fst a2 = Throw e2 ->
            fst r
            = Throw (SessionManager.defaultSessionUnavailable
                       defaultSessionId e2)))
  /\ (forall e, fst r = Throw e ->
       exists e1 e2,
         fst a1 = Throw e1
         /\ fst (createNew defaultSessionId config
                   (write_stderr (retry_notice defaultSessionId e1) (snd a1)))
            = Throw e2
         /\ e = SessionManager.defaultSessionUnavailable defaultSessionId e2)
  /\ (forall s, fst r = Ret s ->
       activeSessionId (snd r) = defaultSessionId
       /\ defaultBrowserSession (snd r) = Some s
       /\ browsers (snd r) !! defaultSessionId = Some s
       /\ exists n c,
            BrowserSession.client s = Some n
            /\ (length (heap w) <= n)%nat
            /\ heap (snd r) !! n = Some c
            /\ Client.isConnected c = true
            /\ Client.closes c = 0%nat).
Proof.
  intros a1 r. subst r. rewrite recreate_unfold. subst a1.
  pose proof (createNewBrowserSession_heap defaultSessionId config w)
    as [Hlen1 Hkeep1].
  destruct (createNew defaultSessionId config w) as [[s1|e1|] w1] eqn:E1;
    simpl in *.
  - apply createNewBrowserSession_ret in E1
      as (c1 & -> & -> & Hws & Hconn & Hcl).
    destruct (created_default c1 w) as (Ha & Hd & Hb & Hh).
    refine (conj _ (conj _ (conj _ (conj _ (conj _ _))))).
    + lia.
    + exact Hkeep1.
    + intros s [= <-]. split; [reflexivity|exact Hlen1].
    + discriminate.
    + discriminate.
    + intros s [= <-]. refine (conj Ha (conj Hd (conj Hb _))).
      exists (length (heap w)), c1. simpl. auto.
  - set (w1' := write_stderr (retry_notice defaultSessionId e1) w1).
    pose proof (createNewBrowserSession_heap defaultSessionId config w1')
      as [Hlen2 Hkeep2].
    assert (Hw1 : heap w1' = heap w1) by reflexivity.
    assert (Hmono : (length (heap w) <= length (heap w1))%nat).
    { apply Nat.nlt_ge. intros Hlt.
      destruct (lookup_lt_is_Some_2 (heap w) (length (heap w1)))
        as [c Hc]; [exact Hlt|].
      pose proof (Hkeep1 _ _ Hc) as Hc'.
      apply lookup_lt_Some in Hc'. lia. }
    destruct (createNew defaultSessionId config w1') as [[s2|e2|] w2] eqn:E2;
      simpl in *.
    + pose proof E2 as E2c.
      apply createNewBrowserSession_ret in E2
        as (c2 & -> & -> & Hws & Hconn & Hcl).
      destruct (created_default c2 w1') as (Ha & Hd & Hb & Hh).
      refine (conj _ (conj _ (conj _ (conj _ (conj _ _))))).
      * simpl. rewrite length_app. simpl. lia.
      * intros r0 c Hr. apply Hkeep2, Hkeep1. exact Hr.
      * discriminate.
      * intros e [= <-]. fold w1'. rewrite E2c. simpl.
        split; [intros s Hs; exact Hs|discriminate].
      * discriminate.
      * intros s [= <-]. refine (conj Ha (conj Hd (conj Hb _))).
        exists (length (heap w1')), c2. simpl in *. auto.
    + refine (conj _ (conj _ (conj _ (conj _ (conj _ _))))).
      * simpl in Hlen2. lia.
      * intros r0 c Hr. apply Hkeep2, Hkeep1. exact Hr.
      * discriminate.
      * intros e [= <-]. fold w1'. rewrite E2. simpl.
        split; [discriminate|]. intros e [= <-]. reflexivity.
      * intros e [= <-]. exists e1, e2. fold w1'. rewrite E2. auto.
      * discriminate.
    + refine (conj _ (conj _ (conj _ (conj _ (conj _ _))))).
      * simpl in Hlen2. lia.
      * intros r0 c Hr. apply Hkeep2, Hkeep1. exact Hr.
      * discriminate.
      * intros e [= <-]. fold w1'. rewrite E2. simpl. split; discriminate.
      * discriminate.
      * discriminate.
  - refine (conj _ (conj _ (conj _ (conj _ (conj _ _)))));
      try discriminate; [lia|exact Hkeep1].
Qed.

(** An attempt that does not succeed leaves the slot and the map alone. *)
Lemma createNewBrowserSession_registry (id : string) (config : Config.t)
  (w : World) :
  match fst (createNew id config w) with
  | Ret _ => True
  | _ =>
      defaultBrowserSession (snd (createNew id config w))
      = defaultBrowserSession w
      /\ browsers (snd (createNew id config w)) = browsers w
  end.
Proof.
  destruct (Store.nonempty (Config.proxyUrl config)) eqn:Hurl.
  - rewrite createNewBrowserSession_eq by exact Hurl.
    destruct (fst (client_fate _ _)) as [[]|e|]; simpl; auto.
  - rewrite createNewBrowserSession_nourl by exact Hurl. simpl. auto.
Qed.

(** The slot and the map after the creation block: the session returned is
    in both; when none is returned they are as they were. *)
Lemma recreate_registry (config : Config.t) (w : World) :
  let r := SessionManager.recreate network defaultSessionId config w in
  match fst r with
  | Ret s =>
      defaultBrowserSession (snd r) = Some s
      /\ browsers (snd r) = <[defaultSessionId := s]> (browsers w)
  | _ =>
      defaultBrowserSession (snd r) = defaultBrowserSession w
      /\ browsers (snd r) = browsers w
  end.
Proof.
  cbv zeta. rewrite recreate_unfold.
  pose proof (createNewBrowserSession_registry defaultSessionId config w)
    as H1.
  destruct (createNew defaultSessionId config w) as [[s1|e1|] w1] eqn:E1;
    cbn [fst snd] in *.
  - apply createNewBrowserSession_ret in E1 as (c1 & -> & -> & _).
    split; reflexivity.
  - destruct H1 as [Hd1 Hb1].
    set (w1' := write_stderr (retry_notice defaultSessionId e1) w1).
    pose proof (createNewBrowserSession_registry defaultSessionId config w1')
      as H2.
    destruct (createNew defaultSessionId config w1') as [[s2|e2|] w2] eqn:E2;
      cbn [fst snd] in *.
    + apply createNewBrowserSession_ret in E2 as (c2 & -> & -> & _).
      split; [reflexivity|]. unfold created. cbn [browsers].
      subst w1'. cbn [browsers write_stderr]. rewrite <- Hb1. reflexivity.
    + destruct H2 as [Hd2 Hb2]. subst w1'.
      cbn [defaultBrowserSession browsers write_stderr] in *.
      split; congruence.
    + destruct H2 as [Hd2 Hb2]. subst w1'.
      cbn [defaultBrowserSession browsers write_stderr] in *.
      split; congruence.
  - exact H1.
Qed.

Lemma evict_heap (w : World) : heap (evict defaultSessionId w) = heap w.
Proof. unfold evict. destruct (defaultBrowserSession w); reflexivity. Qed.

(** C5.  When the default session has to be created (none exists, or the
    one in the slot has no client), [ensureDefaultSessionInternal] makes one
    attempt and, only if that one throws, one more: at most two clients are
    constructed; the session of whichever attempt succeeds is returned, is
    in the slot and in the map, and is the active one; the error of an
    unavailable default session is thrown exactly when both attempts have
    thrown. *)
Theorem ensureDefaultSessionInternal_retries_once (config : Config.t)
  (w : World) :
  (defaultBrowserSession w = None
   \/ exists s, defaultBrowserSession w = Some s
               /\ BrowserSession.client s = None) ->
  let w0 := evict defaultSessionId w in
  let a1 := createNew defaultSessionId config w0 in
  let r := ensureDefault config w in
  (length (heap (snd r)) <= length (heap w) + 2)%nat
  /\ (forall r0 c, heap w !! r0 = Some c -> heap (snd r) !! r0 = Some c)
  /\ (forall s, fst a1 = Ret s ->
       fst r = Ret s
       /\ (length (heap (snd r)) <= length (heap w) + 1)%nat)
  /\ (forall e1, fst a1 = Throw e1 ->
       let a2 :=
         createNew defaultSessionId config
           (write_stderr (retry_notice defaultSessionId e1) (snd a1)) in
       (forall s, fst a2 = Ret s -> fst r = Ret s)
       /\ (forall e2, fst a2 = Throw e2 ->
            fst r
            = Throw (SessionManager.defaultSessionUnavailable
                       defaultSessionId e2)))
  /\ (forall e, fst r = Throw e ->
       exists e1 e2,
         fst a1 = Throw e1
         /\ fst (createNew defaultSessionId config
                   (write_stderr (retry_notice defaultSessionId e1) (snd a1)))
            = Throw e2
         /\ e = SessionManager.defaultSessionUnavailable defaultSessionId e2)
  /\ (forall s, fst r = Ret s ->
       activeSessionId (snd r) = defaultSessionId
       /\ defaultBrowserSession (snd r) = Some s
       /\ browsers (snd r) !! defaultSessionId = Some s
       /\ exists n c,
            BrowserSession.client s = Some n
            /\ (length (heap w) <= n)%nat
            /\ heap (snd r) !! n = Some c
            /\ Client.isConnected c = true
            /\ Client.closes c = 0%nat).
Proof.
  intros Hneeds w0 a1 r. subst r a1 w0.
  rewrite ensureDefault_recreate by exact Hneeds.
  rewrite <- (evict_heap w). apply recreate_spec.
Qed.

(** C4, as the code has it.  The staleness test of
    [ensureDefaultSessionInternal] reads the session's client reference,
    not the connected flag of the client.  A default session that has a
    client is returned as it is and made active, whatever the state of its
    connection, and nothing is created or closed.  A default session without
    a client is dropped from the slot and the map (no client is closed)
    whatever becomes of the creation that follows: when a session is
    returned, the slot and the map's entry hold that new session in place of
    the old one, and when creation throws or never settles the slot is empty
    and the map is the old one without the default id.  With a socket that
    opens and a proxy that answers the new session is returned, and whenever
    one is returned its client is a new, connected one. *)
Theorem ensureDefaultSessionInternal_tests_client_reference
  (config : Config.t) (w : World) (s : BrowserSession.t) :
  defaultBrowserSession w = Some s ->
  let r := ensureDefault config w in
  match BrowserSession.client s with
  | Some _ =>
      fst r = Ret s /\ heap (snd r) = heap w
      /\ browsers (snd r) = browsers w
      /\ defaultBrowserSession (snd r) = Some s
      /\ activeSessionId (snd r) = defaultSessionId
  | None =>
      (forall r0 c, heap w !! r0 = Some c -> heap (snd r) !! r0 = Some c)
      /\ (Store.nonempty (Config.proxyUrl config) = true ->
          remote_cooperates config (network (length (heap w))) = true ->
          fst r
          = Ret {| BrowserSession.client := Some (length (heap w));
                   BrowserSession.sessionId := defaultSessionId |})
      /\ (forall s', fst r = Ret s' ->
           defaultBrowserSession (snd r) = Some s'
           /\ browsers (snd r) !! defaultSessionId = Some s'
           /\ exists n c,
                BrowserSession.client s' = Some n
                /\ (length (heap w) <= n)%nat
                /\ heap (snd r) !! n = Some c
                /\ Client.isConnected c = true
                /\ Client.closes c = 0%nat)
      /\ match fst r with
         | Ret s' =>
             defaultBrowserSession (snd r) = Some s'
             /\ browsers (snd r)
                = <[defaultSessionId := s']>
                    (delete defaultSessionId (browsers w))
         | _ =>
             defaultBrowserSession (snd r) = None
             /\ browsers (snd r) = delete defaultSessionId (browsers w)
         end
  end.
Proof.
  intros Hs r. destruct (BrowserSession.client s) as [n|] eqn:Hc.
  - subst r. unfold SessionManager.ensureDefaultSessionInternal.
    rewrite Hs, Hc. unfold SessionManager.setActiveSessionId.
    rewrite String.eqb_refl, orb_true_r. simpl. auto.
  - assert (Hneeds : defaultBrowserSession w = None
                     \/ exists s0, defaultBrowserSession w = Some s0
                                  /\ BrowserSession.client s0 = None)
      by (right; eauto).
    pose proof (recreate_spec config (evict defaultSessionId w)) as Hspec.
    cbv zeta in Hspec.
    rewrite <- (ensureDefault_recreate config w Hneeds) in Hspec.
    rewrite evict_heap in Hspec.
    destruct Hspec as (_ & Hkeep & Hfirst & _ & _ & Hret).
    fold r in Hkeep, Hfirst, Hret.
    refine (conj Hkeep (conj _ (conj _ _))).
    + intros Hurl Hcoop. apply Hfirst.
      rewrite <- (evict_heap w).
      apply createNewBrowserSession_cooperates; [exact Hurl|].
      rewrite evict_heap. exact Hcoop.
    + intros s' Hs'. destruct (Hret s' Hs') as (_ & Hd & Hb & Hn). auto.
    + pose proof (recreate_registry config (evict defaultSessionId w))
        as Hreg.
      cbv zeta in Hreg.
      rewrite <- (ensureDefault_recreate config w Hneeds) in Hreg.
      fold r in Hreg. unfold evict in Hreg. rewrite Hs in Hreg.
      exact Hreg.
Qed.

End Registry.

(** C4, witness: the stale default session of [Sample.stale] is returned. *)
Lemma ensureDefaultSessionInternal_tests_client_reference_witness :
  defaultBrowserSession Sample.stale = Some (Sample.session 0 Sample.main)
  /\ fst (SessionManager.ensureDefaultSessionInternal (fun _ => Sample.quiet)
            Sample.main Sample.config Sample.stale)
     = Ret (Sample.session 0 Sample.main).
Proof.
  split; [reflexivity|].
  exact (proj1 (ensureDefaultSessionInternal_tests_client_reference
                  (fun _ => Sample.quiet) Sample.main Sample.config
                  Sample.stale (Sample.session 0 Sample.main) eq_refl)).
Defined.

(** C4, as stated, fails.  The default session's connection is not
    established, a new connection could be had, and yet the stale session is
    what [ensureDefaultSessionInternal] returns: no client is created and
    none is closed. *)
Lemma stale_default_session_is_reused :
  (Client.isConnected <$> heap Sample.stale !! 0%nat) = Some false
  /\ remote_cooperates Sample.config Sample.quiet = true
  /\ fst (SessionManager.ensureDefaultSessionInternal (fun _ => Sample.quiet)
            Sample.main Sample.config Sample.stale)
     = Ret (Sample.session 0 Sample.main)
  /\ heap (snd (SessionManager.ensureDefaultSessionInternal
                  (fun _ => Sample.quiet) Sample.main Sample.config
                  Sample.stale))
     = heap Sample.stale
  /\ (Client.closes <$> heap Sample.stale !! 0%nat) = Some 0%nat.
Proof. repeat split; reflexivity. Qed.

(** C5, witness: the first socket is refused, the second opens. *)
Lemma ensureDefaultSessionInternal_retries_once_witness :
  defaultBrowserSession Sample.fresh = None
  /\ fst (SessionManager.ensureDefaultSessionInternal
            (fun r => if Nat.eqb r 0 then Sample.refusing else Sample.quiet)
            Sample.main Sample.config Sample.fresh)
     = Ret (Sample.session 1 Sample.main).
Proof.
  split; [reflexivity|].
  apply (proj1 (proj2 (proj2 (proj2
    (ensureDefaultSessionInternal_retries_once
       (fun r => if Nat.eqb r 0 then Sample.refusing else Sample.quiet)
       Sample.main Sample.config Sample.fresh (or_introl eq_refl)))))
    _ eq_refl).
  reflexivity.
Defined.

(** C8, as stated, fails.  The id "a" is in the map with a live connection;
    creating a session under "a" again replaces the entry by one with a new
    client, and the previous client is still connected and has never been
    closed. *)
Lemma createNewBrowserSession_leaves_old_connection_open :
  browsers Sample.named !! "a" = Some (Sample.session 0 "a")
  /\ browsers
       (snd (SessionManager.createNewBrowserSession (fun _ => Sample.quiet)
               Sample.main "a" Sample.config Sample.named)) !! "a"
     = Some (Sample.session 1 "a")
  /\ heap
       (snd (SessionManager.createNewBrowserSession (fun _ => Sample.quiet)
               Sample.main "a" Sample.config Sample.named)) !! 0%nat
     = Some Sample.client
  /\ Client.isConnected Sample.client = true
  /\ Client.closes Sample.client = 0%nat.
Proof. repeat split; reflexivity. Qed.

(** ** Removal and shutdown *)

Section Removal.

Variable network : nat -> Client.Remote.
Variable defaultSessionId : string.

Lemma close_closes (c : Client.TzafonWrightClient) :
  Client.closes (snd (Client.close c)) = S (Client.closes c).
Proof.
  unfold Client.close.
  destruct (Client.ws c); [destruct (Client.closeError (Client.remote c))|];
    reflexivity.
Qed.

(** [client.close()] through a reference: the client behind it has one more
    invocation of [close], every other client is as before. *)
Lemma client_close_heap (r : nat) (w : World) :
  let w' := snd (client_close r w) in
  store w' = store w /\ browsers w' = browsers w
  /\ defaultBrowserSession w' = defaultBrowserSession w
  /\ activeSessionId w' = activeSessionId w
  /\ stderr w' = stderr w
  /\ (forall n c, heap w !! n = Some c ->
       exists c', heap w' !! n = Some c'
                  /\ (Client.closes c <= Client.closes c')%nat
                  /\ (n = r -> (Client.closes c < Client.closes c')%nat))
  /\ (forall n, n <> r -> heap w' !! n = heap w !! n).
Proof.
  unfold client_close, with_client.
  destruct (heap w !! r) as [c0|] eqn:Hr; simpl.
  - pose proof (close_closes c0) as Hcl.
    destruct (Client.close c0) as [err c0']. simpl in *.
    refine (conj eq_refl (conj eq_refl (conj eq_refl (conj eq_refl
             (conj eq_refl (conj _ _)))))).
    + intros n c Hn. destruct (decide (n = r)) as [->|Hne].
      * exists c0'. rewrite list_lookup_insert_eq
          by (eapply lookup_lt_Some; exact Hr).
        rewrite Hr in Hn. injection Hn as <-.
        split; [reflexivity|]. split; intros; lia.
      * exists c. rewrite list_lookup_insert_ne by congruence.
        split; [exact Hn|]. split; [lia|]. intros Heq. contradiction.
    + intros n Hne. apply list_lookup_insert_ne. congruence.
  - refine (conj eq_refl (conj eq_refl (conj eq_refl (conj eq_refl
             (conj eq_refl (conj _ _)))))).
    + intros n c Hn. exists c. split; [exact Hn|]. split; [lia|].
      intros ->. rewrite Hr in Hn. discriminate.
    + reflexivity.
Qed.

(** [close()] has no [await] inside: it returns or throws at once. *)
Lemma client_close_settles (r : nat) (w : World) :
  match fst (client_close r w) with
  | Hang => False
  | _ => True
  end.
Proof.
  unfold client_close, with_client.
  destruct (heap w !! r) as [c|]; simpl; [|exact I].
  destruct (Client.close c) as [[e|] c']; exact I.
Qed.

(** [closeBrowserGracefully] never throws; what [close()] throws ends up in
    a warning line. *)
Lemma closeBrowserGracefully_spec (session : option BrowserSession.t)
  (id : string) (w : World) :
  let r := SessionManager.closeBrowserGracefully session id w in
  fst r = Ret tt
  /\ store (snd r) = store w /\ browsers (snd r) = browsers w
  /\ defaultBrowserSession (snd r) = defaultBrowserSession w
  /\ activeSessionId (snd r) = activeSessionId w
  /\ (forall s n c e,
       session = Some s -> BrowserSession.client s = Some n ->
       heap w !! n = Some c -> Client.ws c = true ->
       Client.closeError (Client.remote c) = Some e ->
       stderr (snd r)
       = stderr w
         ++ ["[SessionManager] WARN - Error closing TzafonWright client for session "
             +:+ id +:+ ": " +:+ e]).
Proof.
  unfold SessionManager.closeBrowserGracefully.
  destruct session as [[[n|] sid]|]; simpl.
  - unfold try_catch, client_close, with_client.
    destruct (heap w !! n) as [c0|] eqn:Hn; simpl.
    + unfold Client.close.
      destruct (Client.ws c0) eqn:Hws;
        [destruct (Client.closeError (Client.remote c0)) as [e0|] eqn:He|];
        simpl;
        refine (conj eq_refl (conj eq_refl (conj eq_refl (conj eq_refl
                 (conj eq_refl _)))));
        intros s n' c e [= <-] [= <-] Hc Hws' He'; simpl in *;
        rewrite Hn in Hc; injection Hc as <-; congruence.
    + refine (conj eq_refl (conj eq_refl (conj eq_refl (conj eq_refl
               (conj eq_refl _))))).
      intros s n' c e [= <-] [= <-] Hc. simpl in Hc. congruence.
  - refine (conj eq_refl (conj eq_refl (conj eq_refl (conj eq_refl
             (conj eq_refl _))))).
    intros s n' c e [= <-] [=].
  - refine (conj eq_refl (conj eq_refl (conj eq_refl (conj eq_refl
             (conj eq_refl _))))).
    intros s n' c e [=].
Qed.

Lemma cleanupSession_eq (sessionId : string) (w : World) :
  SessionManager.cleanupSession defaultSessionId sessionId w
  = (Ret tt,
     cleaned defaultSessionId sessionId
       (snd (SessionManager.closeBrowserGracefully (browsers w !! sessionId)
               sessionId w))).
Proof.
  unfold SessionManager.cleanupSession, bind, gets, modify.
  assert (Hclose :
    (match browsers w !! sessionId with
     | Some s => SessionManager.closeBrowserGracefully (Some s) sessionId
     | None => ret tt
     end) w
    = (Ret tt,
       snd (SessionManager.closeBrowserGracefully (browsers w !! sessionId)
              sessionId w))).
  { destruct (browsers w !! sessionId) as [s|]; [|reflexivity].
    destruct (closeBrowserGracefully_spec (Some s) sessionId w) as (Ho & _).
    destruct (SessionManager.closeBrowserGracefully (Some s) sessionId w)
      as [o w1]. simpl in *. subst o. reflexivity. }
  rewrite Hclose.
  set (w1 := snd _). f_equal.
  unfold cleaned, SessionManager.setActiveSessionId, SessionManager.has.
  destruct (String.eqb sessionId defaultSessionId) eqn:E1;
    destruct (defaultBrowserSession w1) as [d|] eqn:E2;
    destruct (String.eqb (activeSessionId w1) sessionId) eqn:E3;
    cbn; rewrite ?E1, ?E2, ?E3; cbn; rewrite ?E3, ?String.eqb_refl,
      ?orb_true_r; cbn;
    unfold set_activeSessionId, set_browsers, set_defaultBrowserSession;
    cbn; rewrite ?E2; reflexivity.
Qed.

(** C9.  [cleanupSession] never throws and always takes the id out of the
    map, also when the client's [close()] throws (the error goes to a
    warning line); it leaves the other entries alone, resets the active id
    to the default id when the removed id was the active one, and clears
    the default slot when the removed id was the default id, so that the
    next [ensureDefaultSessionInternal] creates the default session anew.
    [remove] of the store likewise never throws and always deletes the
    entry, and the others stay: it invokes [close()] on the session's
    client, and what [close()] throws goes to an error line of the store
    and to nobody else; without an entry under the id it does nothing. *)
Theorem cleanupSession_always_removes (sessionId : string) (w : World) :
  let r := SessionManager.cleanupSession defaultSessionId sessionId w in
  let q := Store.remove sessionId w in
  (fst r = Ret tt
   /\ browsers (snd r) !! sessionId = None
   /\ (forall j, j <> sessionId -> browsers (snd r) !! j = browsers w !! j)
   /\ (activeSessionId w = sessionId ->
       activeSessionId (snd r) = defaultSessionId)
   /\ (activeSessionId w <> sessionId ->
       activeSessionId (snd r) = activeSessionId w)
   /\ (sessionId = defaultSessionId -> defaultBrowserSession (snd r) = None)
   /\ (sessionId = defaultSessionId ->
       forall config,
         SessionManager.ensureDefaultSessionInternal network defaultSessionId
           config (snd r)
         = SessionManager.recreate network defaultSessionId config (snd r))
   /\ (sessionId <> defaultSessionId ->
       defaultBrowserSession (snd r) = defaultBrowserSession w)
   /\ (forall s n c e,
        browsers w !! sessionId = Some s ->
        BrowserSession.client s = Some n ->
        heap w !! n = Some c -> Client.ws c = true ->
        Client.closeError (Client.remote c) = Some e ->
        stderr (snd r)
        = stderr w
          ++ ["[SessionManager] WARN - Error closing TzafonWright client for session "
              +:+ sessionId +:+ ": " +:+ e]))
  /\ (fst q = Ret tt /\ store (snd q) !! sessionId = None
      /\ (forall j, j <> sessionId -> store (snd q) !! j = store w !! j)
      /\ (forall s c,
            store w !! sessionId = Some s ->
            heap w !! TzafonWrightSession.client s = Some c ->
            heap (snd q) !! TzafonWrightSession.client s
            = Some (snd (Client.close c))
            /\ Client.closes (snd (Client.close c)) = S (Client.closes c)
            /\ stderr (snd q)
               = match fst (Client.close c) with
                 | Some e =>
                     stderr w
                     ++ ["[TzafonWrightStore] Error closing session "
                         +:+ sessionId +:+ ": " +:+ e]
                 | None => stderr w
                 end)
      /\ (forall s c e,
            store w !! sessionId = Some s ->
            heap w !! TzafonWrightSession.client s = Some c ->
            Client.ws c = true ->
            Client.closeError (Client.remote c) = Some e ->
            stderr (snd q)
            = stderr w
              ++ ["[TzafonWrightStore] Error closing session " +:+ sessionId
                  +:+ ": " +:+ e])
      /\ (store w !! sessionId = None -> snd q = w)).
Proof.
  intros r q. split.
  - subst r. rewrite cleanupSession_eq.
    destruct (closeBrowserGracefully_spec (browsers w !! sessionId)
                sessionId w) as (_ & _ & Hb & Hd & Ha & Hlog).
    set (w1 := snd _) in *. simpl.
    refine (conj eq_refl (conj _ (conj _ (conj _ (conj _
             (conj _ (conj _ (conj _ _)))))))).
    + apply lookup_delete_eq.
    + intros j Hj. rewrite Hb. apply lookup_delete_ne. congruence.
    + intros Hact. rewrite Ha, Hact, String.eqb_refl. reflexivity.
    + intros Hact. rewrite Ha. apply String.eqb_neq in Hact.
      rewrite Hact. reflexivity.
    + intros ->. rewrite String.eqb_refl. reflexivity.
    + intros -> config.
      unfold SessionManager.ensureDefaultSessionInternal, cleaned. simpl.
      rewrite String.eqb_refl. reflexivity.
    + intros Hne. apply String.eqb_neq in Hne. rewrite Hne. exact Hd.
    + intros s n c e Hs. apply Hlog. exact Hs.
  - assert (Hlog : forall s c,
              store w !! sessionId = Some s ->
              heap w !! TzafonWrightSession.client s = Some c ->
              heap (snd q) !! TzafonWrightSession.client s
              = Some (snd (Client.close c))
              /\ Client.closes (snd (Client.close c)) = S (Client.closes c)
              /\ stderr (snd q)
                 = match fst (Client.close c) with
                   | Some e =>
                       stderr w
                       ++ ["[TzafonWrightStore] Error closing session "
                           +:+ sessionId +:+ ": " +:+ e]
                   | None => stderr w
                   end).
    { intros s c Hs Hc. subst q. unfold Store.remove. rewrite Hs.
      unfold try_finally, try_catch, client_close, with_client. rewrite Hc.
      pose proof (lookup_lt_Some _ _ _ Hc) as Hlt.
      split; [|split; [apply close_closes|]];
        destruct (Client.close c) as [[e|] c']; cbn;
        try reflexivity; apply list_lookup_insert_eq; exact Hlt. }
    subst q. unfold Store.remove in *.
    destruct (store w !! sessionId) as [s|] eqn:Hs; simpl.
    + unfold try_finally, try_catch in *.
      destruct (client_close_heap (TzafonWrightSession.client s) w)
        as (Hst & _).
      pose proof (client_close_settles (TzafonWrightSession.client s) w)
        as Hsettles.
      destruct (client_close (TzafonWrightSession.client s) w)
        as [[[]|e|] w1]; simpl in *; [| |contradiction]; rewrite Hst;
        (split; [reflexivity|]);
        (split; [apply lookup_delete_eq|]);
        (split; [intros j Hj; apply lookup_delete_ne; congruence|]);
        (split; [exact Hlog|]);
        (split; [|discriminate]);
        intros s0 c e0 Hs0 Hc Hws He;
        destruct (Hlog s0 c Hs0 Hc) as (_ & _ & Herr);
        rewrite Herr; unfold Client.close; rewrite Hws, He; reflexivity.
    + refine (conj eq_refl (conj Hs (conj (fun _ _ => eq_refl)
               (conj _ (conj _ (fun _ => eq_refl)))))).
      * intros s c [=].
      * intros s c e [=].
Qed.

(** [storeSession] keeps every entry under its own id. *)
Lemma storeSession_wf (session : TzafonWrightSession.t) (w : World) :
  store_wf w -> store_wf (Store.storeSession session w).
Proof.
  unfold store_wf, Store.storeSession. simpl. intros Hwf k s Hks.
  destruct (decide (TzafonWrightSession.id session = k)) as [<-|Hne].
  - rewrite lookup_insert_eq in Hks. congruence.
  - rewrite lookup_insert_ne in Hks by exact Hne. apply Hwf. exact Hks.
Qed.

(** *** The store at shutdown *)

Lemma remove_spec (id : string) (w : World) :
  let r := Store.remove id w in
  fst r = Ret tt
  /\ store (snd r) = delete id (store w)
  /\ browsers (snd r) = browsers w
  /\ defaultBrowserSession (snd r) = defaultBrowserSession w
  /\ activeSessionId (snd r) = activeSessionId w
  /\ (forall n c, heap w !! n = Some c ->
       exists c', heap (snd r) !! n = Some c'
                  /\ (Client.closes c <= Client.closes c')%nat
                  /\ (forall s, store w !! id = Some s ->
                                TzafonWrightSession.client s = n ->
                                (Client.closes c < Client.closes c')%nat))
  /\ (forall n, (forall s, store w !! id = Some s ->
                           TzafonWrightSession.client s <> n) ->
                heap (snd r) !! n = heap w !! n).
Proof.
  unfold Store.remove.
  destruct (store w !! id) as [s|] eqn:Hs; simpl.
  - unfold try_finally, try_catch.
    destruct (client_close_heap (TzafonWrightSession.client s) w)
      as (Hst & Hb & Hd & Ha & _ & Hheap & Hother).
    pose proof (client_close_settles (TzafonWrightSession.client s) w)
      as Hsettles.
    destruct (client_close (TzafonWrightSession.client s) w)
      as [[[]|e|] w1]; simpl in *; [| |contradiction]; rewrite Hst;
      (refine (conj eq_refl (conj eq_refl (conj Hb (conj Hd (conj Ha
                (conj _ _)))))));
      [intros n c Hn; destruct (Hheap n c Hn) as (c' & Hc' & Hle & Hlt);
       exists c'; split; [exact Hc'|]; split; [exact Hle|];
       intros s0 [= <-] Hcl; apply Hlt; symmetry; exact Hcl
      |intros n Hn; apply Hother; intros ->; exact (Hn s eq_refl eq_refl)
      |intros n c Hn; destruct (Hheap n c Hn) as (c' & Hc' & Hle & Hlt);
       exists c'; split; [exact Hc'|]; split; [exact Hle|];
       intros s0 [= <-] Hcl; apply Hlt; symmetry; exact Hcl
      |intros n Hn; apply Hother; intros ->; exact (Hn s eq_refl eq_refl)].
  - refine (conj eq_refl (conj _ (conj eq_refl (conj eq_refl (conj eq_refl
             (conj _ _)))))).
    + symmetry. apply delete_id. exact Hs.
    + intros n c Hn. exists c. split; [exact Hn|]. split; [lia|].
      intros s [=].
    + reflexivity.
Qed.

Lemma remove_each_spec (l : list TzafonWrightSession.t) (w : World) :
  NoDup (TzafonWrightSession.id <$> l) ->
  (forall s, s ∈ l -> store w !! TzafonWrightSession.id s = Some s) ->
  let r := Store.remove_each l w in
  fst r = Ret tt
  /\ (forall k, store (snd r) !! k
                = if decide (k ∈ TzafonWrightSession.id <$> l) then None
                  else store w !! k)
  /\ browsers (snd r) = browsers w
  /\ defaultBrowserSession (snd r) = defaultBrowserSession w
  /\ activeSessionId (snd r) = activeSessionId w
  /\ (forall n c, heap w !! n = Some c ->
       exists c', heap (snd r) !! n = Some c'
                  /\ (Client.closes c <= Client.closes c')%nat
                  /\ (forall s, s ∈ l -> TzafonWrightSession.client s = n ->
                                (Client.closes c < Client.closes c')%nat))
  /\ (forall n, (forall s, s ∈ l -> TzafonWrightSession.client s <> n) ->
                heap (snd r) !! n = heap w !! n).
Proof.
  revert w. induction l as [|s l IH]; intros w Hnd Hin.
  - simpl. refine (conj eq_refl (conj _ (conj eq_refl (conj eq_refl
                     (conj eq_refl (conj _ _)))))).
    + intros k. reflexivity.
    + intros n c Hn. exists c. split; [exact Hn|]. split; [lia|].
      intros s Hs. inversion Hs.
    + reflexivity.
  - rewrite fmap_cons in Hnd. apply NoDup_cons in Hnd as [Hfresh Hnd].
    cbn [Store.remove_each]. unfold bind.
    destruct (remove_spec (TzafonWrightSession.id s) w)
      as (Ho & Hst & Hb & Hd & Ha & Hheap & Hother).
    destruct (Store.remove (TzafonWrightSession.id s) w) as [o w1].
    simpl in Ho, Hst, Hb, Hd, Ha, Hheap, Hother. subst o.
    assert (Hin1 : forall s', s' ∈ l ->
              store w1 !! TzafonWrightSession.id s' = Some s').
    { intros s' Hs'. rewrite Hst. rewrite lookup_delete_ne.
      - apply Hin. apply list_elem_of_further. exact Hs'.
      - intros Heq. apply Hfresh. rewrite Heq.
        apply list_elem_of_fmap_2. exact Hs'. }
    destruct (IH w1 Hnd Hin1) as (Ho' & Hst' & Hb' & Hd' & Ha' & Hheap' & Hother').
    set (r := Store.remove_each l w1) in *.
    refine (conj Ho' (conj _ (conj _ (conj _ (conj _ (conj _ _)))))).
    + intros k. rewrite Hst', Hst, fmap_cons.
      destruct (decide (k = TzafonWrightSession.id s)) as [->|Hne].
      * rewrite lookup_delete_eq.
        repeat case_decide; try reflexivity; exfalso; membership.
      * rewrite lookup_delete_ne by congruence.
        repeat case_decide; try reflexivity; exfalso; membership.
    + congruence.
    + congruence.
    + congruence.
    + intros n c Hn. destruct (Hheap n c Hn) as (c1 & Hc1 & Hle1 & Hlt1).
      destruct (Hheap' n c1 Hc1) as (c' & Hc' & Hle' & Hlt').
      exists c'. split; [exact Hc'|]. split; [lia|].
      intros s' Hs' Hcl. apply elem_of_cons in Hs' as [->|Hs'].
      * specialize (Hlt1 s (Hin s (list_elem_of_here _ _)) Hcl). lia.
      * specialize (Hlt' s' Hs' Hcl). lia.
    + intros n Hn. rewrite Hother'.
      * apply Hother. intros s0 Hs0 Hcl.
        assert (s0 = s).
        { rewrite (Hin s (list_elem_of_here _ _)) in Hs0. congruence. }
        subst s0. exact (Hn s (list_elem_of_here _ _) Hcl).
      * intros s' Hs'. apply Hn. apply list_elem_of_further. exact Hs'.
Qed.

(** [removeAll] closes the client of every session in the store and leaves
    the store empty; clients of no store session, and the registry, are not
    touched. *)
Lemma removeAll_spec (w : World) :
  store_wf w ->
  let r := Store.removeAll w in
  fst r = Ret tt
  /\ store (snd r) = ∅
  /\ browsers (snd r) = browsers w
  /\ defaultBrowserSession (snd r) = defaultBrowserSession w
  /\ activeSessionId (snd r) = activeSessionId w
  /\ (forall k s c,
       store w !! k = Some s ->
       heap w !! TzafonWrightSession.client s = Some c ->
       exists c', heap (snd r) !! TzafonWrightSession.client s = Some c'
                  /\ (Client.closes c < Client.closes c')%nat)
  /\ (forall n, (forall k s, store w !! k = Some s ->
                             TzafonWrightSession.client s <> n) ->
                heap (snd r) !! n = heap w !! n).
Proof.
  intros Hwf. unfold Store.removeAll, Store.list.
  assert (Hmem : forall s, s ∈ (map_to_list (store w)).*2 ->
            store w !! TzafonWrightSession.id s = Some s).
  { intros s Hs. apply list_elem_of_fmap in Hs as ([k s'] & -> & Hks).
    simpl. apply elem_of_map_to_list in Hks.
    rewrite (Hwf k s' Hks). exact Hks. }
  assert (Hids : TzafonWrightSession.id <$> (map_to_list (store w)).*2
                 = (map_to_list (store w)).*1).
  { rewrite <- list_fmap_compose. apply list_fmap_ext.
    intros i [k s] Hi. simpl. apply (Hwf k s).
    apply elem_of_map_to_list. eapply list_elem_of_lookup_2. exact Hi. }
  destruct (remove_each_spec ((map_to_list (store w)).*2) w)
    as (Ho & Hst & Hb & Hd & Ha & Hheap & Hother).
  - rewrite Hids. apply NoDup_fst_map_to_list.
  - exact Hmem.
  - refine (conj Ho (conj _ (conj Hb (conj Hd (conj Ha (conj _ _)))))).
    + apply map_empty. intros k. rewrite Hst.
      destruct (decide _) as [|Hk]; [reflexivity|].
      destruct (store w !! k) as [s|] eqn:Hks; [|reflexivity].
      exfalso. apply Hk. rewrite Hids.
      apply list_elem_of_fmap. exists (k, s). split; [reflexivity|].
      apply elem_of_map_to_list. exact Hks.
    + intros k s c Hks Hc. destruct (Hheap _ c Hc) as (c' & Hc' & _ & Hlt).
      exists c'. split; [exact Hc'|]. apply (Hlt s); [|reflexivity].
      apply list_elem_of_fmap. exists (k, s). split; [reflexivity|].
      apply elem_of_map_to_list. exact Hks.
    + intros n Hn. apply Hother. intros s Hs.
      apply (Hn (TzafonWrightSession.id s) s). apply Hmem. exact Hs.
Qed.

End Removal.

Section Shutdown.

Variable ServerList : Type.
Variable closeAll : ServerList -> Outcome unit * ServerList.

(** C3, as the code has it.  On a termination signal [handleExit] starts
    the store's [removeAll] and the server list's [closeAll]: [close()] is
    invoked on the client of every session in the store, and the store is
    left empty, whatever [closeAll] does (it may throw or never settle).
    The session registry is not part of this cleanup: its map, default slot
    and active id are as before, and a client that no store session holds
    is left exactly as it was. *)
Theorem handleExit_closes_store_sessions (w : World) (servers : ServerList) :
  store_wf w ->
  let r := Program.handleExit ServerList closeAll w servers in
  let w' := snd (fst r) in
  store w' = ∅
  /\ (forall k s c,
       store w !! k = Some s ->
       heap w !! TzafonWrightSession.client s = Some c ->
       exists c', heap w' !! TzafonWrightSession.client s = Some c'
                  /\ (Client.closes c < Client.closes c')%nat)
  /\ (forall n, (forall k s, store w !! k = Some s ->
                             TzafonWrightSession.client s <> n) ->
                heap w' !! n = heap w !! n)
  /\ browsers w' = browsers w
  /\ defaultBrowserSession w' = defaultBrowserSession w
  /\ activeSessionId w' = activeSessionId w
  /\ snd r = snd (closeAll servers)
  /\ (fst (fst r) = Program.ExitAtDeadline <-> fst (closeAll servers) = Hang).
Proof.
  intros Hwf. unfold Program.handleExit.
  destruct (removeAll_spec w Hwf) as (Ho & Hst & Hb & Hd & Ha & Hheap & Hother).
  destruct (Store.removeAll w) as [o1 w1]. simpl in *. subst o1.
  destruct (closeAll servers) as [[[]|e|] servers']; simpl;
    (refine (conj Hst (conj Hheap (conj Hother (conj Hb (conj Hd (conj Ha
               (conj eq_refl _))))))));
    split; intros H; (discriminate || reflexivity).
Qed.

End Shutdown.

Lemma stored_wf : store_wf Sample.stored.
Proof.
  intros k s Hks. unfold Sample.stored in Hks. cbn [store] in Hks.
  apply lookup_singleton_Some in Hks as [<- <-]. reflexivity.
Qed.

(** The registry's own [closeAllSessions] does close the client of a
    registered session and empties the map; [handleExit] does not call it. *)
Example closeAllSessions_closes_registered :
  let w' := snd (SessionManager.closeAllSessions Sample.main Sample.named) in
  (Client.closes <$> heap w' !! 0%nat) = Some 1%nat
  /\ (Client.isConnected <$> heap w' !! 0%nat) = Some false
  /\ browsers w' = ∅ /\ activeSessionId w' = Sample.main.
Proof. repeat split; reflexivity. Qed.

(** C3, witness: the one session in the store is closed and removed. *)
Lemma handleExit_closes_store_sessions_witness :
  store_wf Sample.stored
  /\ store (snd (fst (Program.handleExit unit Sample.closeNothing
                        Sample.stored tt))) = ∅.
Proof.
  split; [exact stored_wf|].
  exact (proj1 (handleExit_closes_store_sessions unit Sample.closeNothing
                  Sample.stored tt stored_wf)).
Defined.

(** C3, as stated, fails.  The session "a" is in the registry map when the
    signal arrives; the cleanup ends in the regular way, and the session's
    client has not had [close()] invoked and is still connected. *)
Lemma handleExit_leaves_registry_sessions_open :
  browsers Sample.named !! "a" = Some (Sample.session 0 "a")
  /\ fst (fst (Program.handleExit unit Sample.closeNothing Sample.named tt))
     = Program.ExitAfterCleanup
  /\ heap (snd (fst (Program.handleExit unit Sample.closeNothing
                       Sample.named tt))) !! 0%nat
     = Some Sample.client
  /\ Client.closes Sample.client = 0%nat
  /\ Client.isConnected Sample.client = true.
Proof. repeat split; reflexivity. Qed.

(** * Further properties *)

(** ** The frame of a command, read back *)

Section FrameFields.

Import Client.

Lemma ActionType_value_inj (a b : ActionType) :
  ActionType_value a = ActionType_value b -> a = b.
Proof. destruct a, b; simpl; intros H; first [reflexivity|discriminate H]. Qed.

(** Each property of the frame is the field of the command it was built
    from. *)
Lemma commandData_fields (c : Command) :
  property "action_type" (commandData c)
  = Some (JStr (ActionType_value (action_type c)))
  /\ property "x" (commandData c) = JNum <$> x c
  /\ property "y" (commandData c) = JNum <$> y c
  /\ property "text" (commandData c) = JStr <$> text c
  /\ property "delta_x" (commandData c) = JNum <$> delta_x c
  /\ property "delta_y" (commandData c) = JNum <$> delta_y c
  /\ property "url" (commandData c) = JStr <$> url c
  /\ property "width" (commandData c) = JNum <$> width c
  /\ property "height" (commandData c) = JNum <$> height c.
Proof.
  destruct c as [a [px|] [py|] [t|] [dx|] [dy|] [u|] [w|] [h|] tm];
    repeat split; reflexivity.
Qed.

Lemma fmap_JNum_inj (a b : option Z) : JNum <$> a = JNum <$> b -> a = b.
Proof. destruct a, b; simpl; congruence. Qed.

Lemma fmap_JStr_inj (a b : option string) : JStr <$> a = JStr <$> b -> a = b.
Proof. destruct a, b; simpl; congruence. Qed.

(** X1.  The frame keeps every field of the command apart: no key occurs
    twice in it, and two commands give the same frame exactly when they
    agree on the action type and on all eight optional fields and their
    timeouts come to the same number after the default has been put in.
    Nothing but the distinction between an absent, a zero and a 30000
    timeout is lost on the wire. *)
Theorem commandData_faithful (c1 c2 : Command) :
  NoDup (commandData c1).*1
  /\ (commandData c1 = commandData c2
      <-> action_type c1 = action_type c2
          /\ x c1 = x c2 /\ y c1 = y c2 /\ text c1 = text c2
          /\ delta_x c1 = delta_x c2 /\ delta_y c1 = delta_y c2
          /\ url c1 = url c2 /\ width c1 = width c2
          /\ height c1 = height c2
          /\ or_default (timeout c1) 30000 = or_default (timeout c2) 30000).
Proof.
  split.
  - destruct c1 as [a [px|] [py|] [t|] [dx|] [dy|] [u|] [w|] [h|] tm];
      cbn; repeat (apply NoDup_cons_2; [intros Hin; repeat
        (apply elem_of_cons in Hin as [Hin|Hin]; [discriminate Hin|]);
        inversion Hin|]); apply NoDup_nil_2.
  - split.
    + intros Heq.
      destruct (commandData_fields c1)
        as (Ha & Hx & Hy & Ht & Hdx & Hdy & Hu & Hw & Hh).
      destruct (commandData_fields c2)
        as (Ha' & Hx' & Hy' & Ht' & Hdx' & Hdy' & Hu' & Hw' & Hh').
      pose proof (commandData_timeout c1) as Htm.
      pose proof (commandData_timeout c2) as Htm'.
      rewrite Heq in Ha, Hx, Hy, Ht, Hdx, Hdy, Hu, Hw, Hh, Htm.
      rewrite Ha in Ha'. rewrite Hx in Hx'. rewrite Hy in Hy'.
      rewrite Ht in Ht'. rewrite Hdx in Hdx'. rewrite Hdy in Hdy'.
      rewrite Hu in Hu'. rewrite Hw in Hw'. rewrite Hh in Hh'.
      rewrite Htm in Htm'.
      injection Ha' as Ha'. apply ActionType_value_inj in Ha'.
      apply fmap_JNum_inj in Hx', Hy', Hdx', Hdy', Hw', Hh'.
      apply fmap_JStr_inj in Ht', Hu'.
      injection Htm' as Htm'.
      repeat split; assumption.
    + intros (Ha & Hx & Hy & Ht & Hdx & Hdy & Hu & Hw & Hh & Htm).
      unfold commandData. rewrite Ha, Hx, Hy, Ht, Hdx, Hdy, Hu, Hw, Hh, Htm.
      reflexivity.
Qed.

End FrameFields.

(** ** The life of a connection *)

Section Lifecycle.

Import Client.

Lemma close_frame (c : TzafonWrightClient) :
  ws (snd (close c)) = ws c
  /\ handlers (snd (close c)) = handlers c
  /\ sent (snd (close c)) = sent c
  /\ calls (snd (close c)) = calls c.
Proof.
  unfold close. destruct (ws c) eqn:Hws; [destruct (closeError (remote c))|];
    simpl; rewrite ?Hws; auto.
Qed.

Lemma close_disconnects (c : TzafonWrightClient) :
  closeError (remote c) = None ->
  negb (ws (snd (close c))) || negb (isConnected (snd (close c))) = true.
Proof.
  intros Hce. unfold close. rewrite Hce.
  destruct (ws c) eqn:Hws; simpl; rewrite Hws; reflexivity.
Qed.

(** No code of the client but the "open" listener makes it connected. *)
Lemma step_stays_disconnected (c : TzafonWrightClient) (e : Event) :
  e <> OnOpen ->
  negb (ws c) || negb (isConnected c) = true ->
  negb (ws (step c e)) || negb (isConnected (step c e)) = true.
Proof.
  intros Hne Hc. destruct e as [cmd| | | |data| |ms]; simpl.
  - unfold sendAction. rewrite Hc. simpl. exact Hc.
  - contradiction.
  - apply orb_true_r.
  - apply orb_true_r.
  - destruct (emit_message_frame data c) as (-> & -> & _). exact Hc.
  - unfold close. destruct (ws c) eqn:Hws; [|simpl; rewrite Hws; reflexivity].
    destruct (closeError (remote c)); simpl; rewrite Hws;
      [exact Hc|reflexivity].
  - exact Hc.
Qed.

Lemma run_stays_disconnected (trace : list Event) (c : TzafonWrightClient) :
  Forall (fun e => e <> OnOpen) trace ->
  negb (ws c) || negb (isConnected c) = true ->
  negb (ws (run trace c)) || negb (isConnected (run trace c)) = true.
Proof.
  intros Htr. revert c. induction Htr as [|e trace He _ IH]; intros c Hc.
  - exact Hc.
  - simpl. apply IH, step_stays_disconnected; assumption.
Qed.

(** X2.  After [close()] has returned without throwing, the client answers
    every later [sendAction] itself: whatever else happens to it short of an
    "open" event of the socket (further calls, frames, errors, more closes,
    time passing), the call's promise is fulfilled at once with the result
    "Client not connected", no frame is sent and no listener is attached. *)
Theorem sendAction_after_close_is_refused
  (c : TzafonWrightClient) (trace : list Event) (command : Command) :
  closeError (remote c) = None ->
  Forall (fun e => e <> OnOpen) trace ->
  let c1 := run trace (snd (close c)) in
  let k := fst (sendAction command c1) in
  let c2 := snd (sendAction command c1) in
  calls c2 !! k = Some (Fulfilled notConnected)
  /\ sent c2 = sent c1
  /\ handlers c2 = handlers c1
  /\ length (calls c2) = S (length (calls c1)).
Proof.
  intros Hce Htr c1 k c2.
  pose proof (run_stays_disconnected trace _ Htr (close_disconnects c Hce))
    as Hd.
  fold c1 in Hd. subst k c2. unfold sendAction. rewrite Hd. simpl.
  refine (conj _ (conj eq_refl (conj eq_refl _))).
  - rewrite lookup_app_r by reflexivity.
    replace (length (calls c1) - length (calls c1))%nat with 0%nat by lia.
    reflexivity.
  - rewrite length_app. simpl. lia.
Qed.

(** X3.  What [connect()] settles with decides what the first [sendAction]
    does.  It resolves exactly when the socket opens; then the first call
    sends the frame of its command and stays pending with one listener
    attached.  When [connect()] rejects, whether because the constructor
    threw or because the socket reported an error, the first call is
    answered "Client not connected" and nothing is sent. *)
Theorem connect_decides_first_call
  (wsUrl : string) (r : Remote) (command : Command) :
  let o := fst (connect (new wsUrl r)) in
  let c := snd (connect (new wsUrl r)) in
  let c' := snd (sendAction command c) in
  (o = Ret tt <-> exists t, handshake r = Opens t)
  /\ match o with
     | Ret _ =>
         sent c' = [commandData command] /\ calls c' = [Pending]
         /\ handlers c' = [0%nat]
     | Throw e =>
         sent c' = [] /\ calls c' = [Fulfilled notConnected]
         /\ handlers c' = []
         /\ (handshake r = Invalid e \/ exists t, handshake r = Errors t e)
     | Hang => handshake r = Silent /\ sent c = [] /\ isConnected c = false
     end.
Proof.
  unfold connect, new; simpl.
  destruct (handshake r) as [msg|t|t msg|] eqn:Hh; simpl; split.
  - split; [discriminate|intros [t Ht]; discriminate Ht].
  - eauto 6.
  - split; [eauto|reflexivity].
  - auto.
  - split; [discriminate|intros [t' Ht]; discriminate Ht].
  - eauto 8.
  - split; [discriminate|intros [t' Ht]; discriminate Ht].
  - auto.
Qed.

End Lifecycle.

Lemma sendAction_after_close_is_refused_witness :
  let c1 :=
    Client.run [Client.Call (Sample.command Client.CLICK None);
                Client.OnMessage Sample.respA; Client.OnError;
                Client.Elapse 500]
      (snd (Client.close Sample.client)) in
  let c2 := snd (Client.sendAction Client.screenshot c1) in
  Client.calls c2 !! fst (Client.sendAction Client.screenshot c1)
  = Some (Fulfilled Client.notConnected)
  /\ Client.sent c2 = Client.sent c1
  /\ Client.handlers c2 = Client.handlers c1
  /\ length (Client.calls c2) = S (length (Client.calls c1)).
Proof.
  apply (sendAction_after_close_is_refused Sample.client).
  - reflexivity.
  - repeat constructor; discriminate.
Defined.

(** ** The configuration the program starts with *)

Section Resolved.

Import Configuration.

Variable env : option string.

(** The URL that wins: the command line's, then the environment's, then
    the built-in one; an empty string counts as absent. *)
Lemma resolveConfig_proxyUrl (cli : CLIOptions) :
  get "proxyUrl" (resolveConfig env cli)
  = JString
      (Client.or_else (proxyUrl cli) (Client.or_else env fallbackProxyUrl)).
Proof.
  destruct cli as [[[|a u]|] p h bw bh], env as [[|b e]|];
    destruct h; reflexivity.
Qed.

Lemma resolveConfig_viewPort (cli : CLIOptions) :
  get "viewPort" (resolveConfig env cli)
  = JObject [("browserWidth", browserWidth cli);
             ("browserHeight", browserHeight cli)].
Proof.
  destruct cli as [[[|a u]|] p h bw bh], env as [[|b e]|];
    destruct h; reflexivity.
Qed.

Lemma or_else_nonempty (v : option string) (d : string) :
  Store.nonempty d = true -> Store.nonempty (Client.or_else v d) = true.
Proof.
  intros Hd. unfold Client.or_else, Client.truthy.
  destruct v as [t|]; simpl; [|exact Hd].
  unfold Store.nonempty in *.
  destruct (String.eqb t "") eqn:Ht; simpl; [exact Hd|].
  rewrite Ht. reflexivity.
Qed.

(** X4.  The configuration [resolveConfig] returns always has a proxy URL:
    the one of the command line, else the one of the environment, else
    ws://34.123.107.160:80, an empty string counting as absent.  So the
    server's "proxyUrl is required" check passes, and with a configuration
    of that URL [createNewBrowserSession] never fails for a missing URL: it
    goes on to construct a client. *)
Theorem resolveConfig_has_proxy_url
  (network : nat -> Client.Remote) (defaultSessionId newSessionId : string)
  (cli : CLIOptions) (w : World) :
  let url :=
    Client.or_else (proxyUrl cli) (Client.or_else env fallbackProxyUrl) in
  get "proxyUrl" (resolveConfig env cli) = JString url
  /\ Store.nonempty url = true
  /\ (forall config,
        as_Config (resolveConfig env cli) = Some config ->
        Config.proxyUrl config = url)
  /\ (forall config,
        Config.proxyUrl config = url ->
        Index.proxyUrl_required config = Ret tt
        /\ length
             (heap (snd (SessionManager.createNewBrowserSession network
                           defaultSessionId newSessionId config w)))
           = S (length (heap w))).
Proof.
  intros url.
  assert (Hne : Store.nonempty url = true).
  { subst url. apply or_else_nonempty, or_else_nonempty. reflexivity. }
  refine (conj (resolveConfig_proxyUrl cli) (conj Hne (conj _ _))).
  - intros config. unfold as_Config.
    rewrite resolveConfig_proxyUrl, resolveConfig_viewPort. fold url.
    cbn [get String.eqb Ascii.eqb Bool.eqb].
    destruct (dimension_of (browserWidth cli)) as [bw|]; [|discriminate].
    destruct (dimension_of (browserHeight cli)) as [bh|]; [|discriminate].
    intros [= <-]. reflexivity.
  - intros config Hurl. rewrite <- Hurl in Hne. split.
    + unfold Index.proxyUrl_required. rewrite Hne. reflexivity.
    + rewrite (createNewBrowserSession_eq network defaultSessionId)
        by exact Hne.
      destruct (fst (client_fate _ _)) as [[]|e|]; simpl;
        rewrite length_app; simpl; lia.
Qed.


End Resolved.

(** ** Tools *)

Section Tools.

Variable network : nat -> Client.Remote.
Variable defaultSessionId : string.

(** An awaited call on an open client: the frame goes out, and the next
    frame of the proxy settles the call. *)
Lemma await_sendAction_open (command : Client.Command)
  (c : Client.TzafonWrightClient) :
  Client.ws c = true ->
  Client.isConnected c = true ->
  let r := Client.await_sendAction command c in
  Client.sent (snd r) = Client.sent c ++ [Client.commandData command]
  /\ fst r
     = match Client.replies (Client.remote c) with
       | [] => Hang
       | data :: _ =>
           match Client.handle data with
           | Fulfilled res => Ret res
           | Rejected e => Throw e
           | Pending => Hang
           end
       end.
Proof.
  intros Hws Hconn. unfold Client.await_sendAction.
  rewrite sendAction_open by assumption. simpl.
  rewrite lookup_app_r by lia. rewrite Nat.sub_diag. simpl.
  destruct (Client.replies (Client.remote c)) as [|data rest]; simpl;
    [split; reflexivity|].
  match goal with
  | |- context [Client.emit_message data ?x] =>
      pose proof (emit_message_calls data x (length (Client.calls c))) as Hk;
      destruct (emit_message_frame data x) as (_ & _ & Hsent & _)
  end.
  simpl in Hk.
  rewrite decide_True in Hk
    by (apply elem_of_app; right; apply list_elem_of_here).
  rewrite lookup_app_r in Hk by lia. rewrite Nat.sub_diag in Hk.
  simpl in Hk. rewrite Hk.
  destruct (Client.handle data) as [|res|e]; simpl; rewrite Hsent;
    split; reflexivity.
Qed.

(** A session that is there and has a client is what [getSession] returns,
    and it becomes the active one; nothing else changes. *)
Lemma getSession_found (id : string) (config : Config.t)
  (createIfMissing : bool) (w : World) (session : BrowserSession.t)
  (r : nat) :
  current_session defaultSessionId id w = Some session ->
  (createIfMissing = false -> String.eqb id defaultSessionId = false) ->
  BrowserSession.client session = Some r ->
  SessionManager.getSession network defaultSessionId id config
    createIfMissing w
  = (Ret (Some session), set_activeSessionId id w).
Proof.
  unfold current_session, SessionManager.getSession.
  intros Hcur Hflag Hr.
  destruct (String.eqb id defaultSessionId) eqn:Hid.
  - destruct createIfMissing; [|specialize (Hflag eq_refl); discriminate].
    simpl. apply String.eqb_eq in Hid. subst id.
    unfold try_catch, bind, SessionManager.ensureDefaultSessionInternal.
    rewrite Hcur, Hr. simpl.
    unfold SessionManager.setActiveSessionId.
    rewrite String.eqb_refl, orb_true_r. reflexivity.
  - simpl. rewrite Hcur, Hr.
    unfold SessionManager.setActiveSessionId, SessionManager.has.
    rewrite bool_decide_eq_true_2 by (rewrite Hcur; eauto). reflexivity.
Qed.

(** The navigate action, once the client is known. *)
Lemma navigate_action_via (url : string) (ctx : Context.t) (w w1 : World)
  (r : nat) (c : Client.TzafonWrightClient) :
  Context.getTzafonWrightClient network defaultSessionId (ctx, w)
  = (Ret (Some r), (ctx, w1)) ->
  heap w1 !! r = Some c ->
  Navigate.action network defaultSessionId url (ctx, w)
  = (navigate_result url
       (fst (Client.await_sendAction
               (Client.goto (Navigate.normalizedUrl url) None) c)),
     (ctx,
      set_heap
        (<[r := snd (Client.await_sendAction
                       (Client.goto (Navigate.normalizedUrl url) None) c)]>
           (heap w1)) w1)).
Proof.
  intros Hget Hc. unfold Navigate.action, try_catch, bind.
  rewrite Hget. unfold lift, client_sendAction, with_client. simpl.
  rewrite Hc.
  destruct (Client.await_sendAction _ c) as [[res|e|] c']; simpl;
    [destruct (Client.success res)|..]; reflexivity.
Qed.

Lemma navigate_result_reply (url : string) (c : Client.TzafonWrightClient) :
  Client.ws c = true ->
  Client.isConnected c = true ->
  navigate_result url
    (fst (Client.await_sendAction
            (Client.goto (Navigate.normalizedUrl url) None) c))
  = match Client.replies (Client.remote c) with
    | [] => Hang
    | Client.Unparsable err :: _ =>
        Throw ("Failed to navigate: Failed to parse response: " +:+ err)
    | Client.Response success error_message _ :: _ =>
        if default false success then
          Ret (Some
                 (Some
                    [TextContent
                       ("Successfully navigated to: "
                        +:+ Navigate.normalizedUrl url
                        +:+ " (original: " +:+ url +:+ ")")]))
        else
          Throw ("Failed to navigate: "
                 +:+ Client.or_else error_message "Navigation failed")
    end.
Proof.
  intros Hws Hconn.
  destruct (await_sendAction_open
              (Client.goto (Navigate.normalizedUrl url) None) c Hws Hconn)
    as [_ Ho].
  rewrite Ho.
  destruct (Client.replies (Client.remote c)) as [|[err|sc em im] rest];
    simpl; try reflexivity.
Qed.

Lemma normalizedUrl_protocol (url : string) :
  String.prefix "http://" (Navigate.normalizedUrl url)
  || String.prefix "https://" (Navigate.normalizedUrl url) = true.
Proof.
  unfold Navigate.normalizedUrl.
  destruct (String.prefix "http://" url) eqn:H1; simpl.
  - rewrite H1. reflexivity.
  - destruct (String.prefix "https://" url) eqn:H2; simpl.
    + rewrite H2. apply orb_true_r.
    + destruct url; reflexivity.
Qed.

(** X6.  Navigating in a session that is there and connected.  The tool
    sends one frame to the client of the context's current session and to
    no other: a goto whose URL is the one given, with https:// put in front
    unless it starts with http:// or https://, and whose timeout is 30000.
    The session becomes the active one; the context and the registry are
    otherwise unchanged.  The action then waits for the proxy's next frame:
    it returns the success text when that frame reports success, throws
    "Failed to navigate: ..." with the proxy's error message (or
    "Navigation failed") when it does not or cannot be parsed, and never
    settles when no frame comes. *)
Theorem navigate_sends_one_goto (url : string) (ctx : Context.t) (w : World)
  (session : BrowserSession.t) (r : nat) (c : Client.TzafonWrightClient) :
  Context.own_client ctx = None ->
  current_session defaultSessionId (Context.currentSessionId ctx) w
  = Some session ->
  BrowserSession.client session = Some r ->
  heap w !! r = Some c ->
  Client.ws c = true ->
  Client.isConnected c = true ->
  let res := Navigate.action network defaultSessionId url (ctx, w) in
  let w' := snd (snd res) in
  fst (snd res) = ctx
  /\ (exists c',
        heap w' !! r = Some c'
        /\ Client.sent c'
           = Client.sent c
             ++ [[("action_type", Client.JStr "goto");
                  ("url", Client.JStr (Navigate.normalizedUrl url));
                  ("timeout", Client.JNum 30000)]])
  /\ String.prefix "http://" (Navigate.normalizedUrl url)
     || String.prefix "https://" (Navigate.normalizedUrl url) = true
  /\ (forall n, n <> r -> heap w' !! n = heap w !! n)
  /\ browsers w' = browsers w
  /\ defaultBrowserSession w' = defaultBrowserSession w
  /\ store w' = store w
  /\ activeSessionId w' = Context.currentSessionId ctx
  /\ fst res
     = match Client.replies (Client.remote c) with
       | [] => Hang
       | Client.Unparsable err :: _ =>
           Throw ("Failed to navigate: Failed to parse response: " +:+ err)
       | Client.Response success error_message _ :: _ =>
           if default false success then
             Ret (Some
                    (Some
                       [TextContent
                          ("Successfully navigated to: "
                           +:+ Navigate.normalizedUrl url
                           +:+ " (original: " +:+ url +:+ ")")]))
           else
             Throw ("Failed to navigate: "
                    +:+ Client.or_else error_message "Navigation failed")
       end.
Proof.
  intros Hown Hcur Hr Hc Hws Hconn res w'.
  assert (Hget :
    Context.getTzafonWrightClient network defaultSessionId (ctx, w)
    = (Ret (Some r),
       (ctx, set_activeSessionId (Context.currentSessionId ctx) w))).
  { unfold Context.getTzafonWrightClient. simpl. rewrite Hown.
    unfold bind, lift. simpl.
    rewrite (getSession_found _ _ _ _ session r Hcur) by (discriminate || exact Hr).
    simpl. rewrite Hr. reflexivity. }
  subst res w'.
  rewrite (navigate_action_via url ctx w _ r c Hget) by exact Hc.
  destruct (await_sendAction_open
              (Client.goto (Navigate.normalizedUrl url) None) c Hws Hconn)
    as [Hsent _].
  cbn [fst snd heap set_heap browsers defaultBrowserSession store
       activeSessionId set_activeSessionId].
  refine (conj eq_refl (conj _ (conj (normalizedUrl_protocol url)
            (conj _ (conj eq_refl (conj eq_refl (conj eq_refl
              (conj eq_refl _)))))))).
  - eexists. split.
    + apply list_lookup_insert_eq. eapply lookup_lt_Some. exact Hc.
    + exact Hsent.
  - intros n Hn. apply list_lookup_insert_ne. congruence.
  - apply navigate_result_reply; assumption.
Qed.

End Tools.

(** X6, witness: the session "a" of [Sample.browsing], whose proxy answers
    with success. *)
Lemma navigate_sends_one_goto_witness :
  fst (Navigate.action (fun _ => Sample.quiet) Sample.main "example.com"
         (Sample.context, Sample.browsing))
  = Ret (Some
           (Some
              [TextContent
                 "Successfully navigated to: https://example.com (original: example.com)"])).
Proof.
  exact (proj2 (proj2 (proj2 (proj2 (proj2 (proj2 (proj2 (proj2
           (navigate_sends_one_goto (fun _ => Sample.quiet) Sample.main
              "example.com" Sample.context Sample.browsing
              (Sample.session 0 "a") 0%nat
              (snd (Client.connect (Client.new Sample.proxy Sample.answering)))
              eq_refl eq_refl eq_refl eq_refl eq_refl eq_refl))))))))).
Defined.

(** ** The URL a navigation uses *)

Lemma append_length (s t : string) :
  String.length (s +:+ t) = (String.length s + String.length t)%nat.
Proof. induction s as [|a s IH]; simpl; [reflexivity|rewrite IH; reflexivity]. Qed.

(** X7.  The URL handed to [goto] always starts with http:// or https://;
    a URL that already does is passed on as it is, and only such a URL is;
    normalising twice is the same as normalising once. *)
Theorem normalizedUrl_idempotent (url : string) :
  String.prefix "http://" (Navigate.normalizedUrl url)
  || String.prefix "https://" (Navigate.normalizedUrl url) = true
  /\ (Navigate.normalizedUrl url = url
      <-> String.prefix "http://" url || String.prefix "https://" url = true)
  /\ Navigate.normalizedUrl (Navigate.normalizedUrl url)
     = Navigate.normalizedUrl url.
Proof.
  assert (Hfix : forall u,
            String.prefix "http://" u || String.prefix "https://" u = true ->
            Navigate.normalizedUrl u = u).
  { intros u Hu. unfold Navigate.normalizedUrl.
    rewrite <- negb_orb, Hu. reflexivity. }
  refine (conj (normalizedUrl_protocol url) (conj (conj _ (Hfix url)) _)).
  - intros Heq. unfold Navigate.normalizedUrl in Heq.
    destruct (String.prefix "http://" url || String.prefix "https://" url)
      eqn:Hp; [reflexivity|].
    rewrite <- negb_orb, Hp in Heq. simpl in Heq.
    apply (f_equal String.length) in Heq. rewrite append_length in Heq.
    simpl in Heq. lia.
  - apply Hfix, normalizedUrl_protocol.
Qed.

(** ** The tools that work on a session of the store *)

Section StoreTools.

Variable network : nat -> Client.Remote.
Variable defaultSessionId : string.

(** X8.  Navigating in a session of the store.  The session-aware
    navigate tool, run by [Context.run] on the id of a stored session
    whose client is connected, sends the goto frame to that session's
    client and changes nothing else: the context keeps its current session
    id, the registry is not consulted (no default session is created, the
    active id stays), and the store is as before.  What the proxy answers
    becomes the result: the success text, or an error result carrying
    "Failed to navigate: ..."; without an answer the call never returns. *)
Theorem navigate_in_stored_session (sessionId url : string) (ctx : Context.t)
  (w : World) (session : TzafonWrightSession.t)
  (c : Client.TzafonWrightClient) :
  store w !! sessionId = Some session ->
  heap w !! TzafonWrightSession.client session = Some c ->
  Client.ws c = true ->
  Client.isConnected c = true ->
  let res :=
    Context.run
      (MultiSession.navigateWithSessionTool network defaultSessionId)
      (sessionId, url) (ctx, w) in
  (exists c',
     snd res
     = (ctx, set_heap (<[TzafonWrightSession.client session := c']> (heap w)) w)
     /\ Client.sent c'
        = Client.sent c
          ++ [[("action_type", Client.JStr "goto");
               ("url", Client.JStr (Navigate.normalizedUrl url));
               ("timeout", Client.JNum 30000)]])
  /\ fst res
     = match Client.replies (Client.remote c) with
       | [] => Hang
       | Client.Unparsable err :: _ =>
           Ret (error_result
                  ("Failed to navigate: Failed to parse response: " +:+ err))
       | Client.Response success error_message _ :: _ =>
           if default false success then
             Ret {| content :=
                      [TextContent
                         ("Successfully navigated to: "
                          +:+ Navigate.normalizedUrl url
                          +:+ " (original: " +:+ url +:+ ")")];
                    isError := false |}
           else
             Ret (error_result
                    ("Failed to navigate: "
                     +:+ Client.or_else error_message "Navigation failed"))
       end.
Proof.
  intros Hs Hc Hws Hconn res.
  set (sctx := {| Context.config := Context.config ctx;
                  Context.currentSessionId := sessionId;
                  Context.own_client :=
                    Some (TzafonWrightSession.client session) |}).
  assert (Hact :
    Navigate.action network defaultSessionId url (sctx, w)
    = (navigate_result url
         (fst (Client.await_sendAction
                 (Client.goto (Navigate.normalizedUrl url) None) c)),
       (sctx,
        set_heap
          (<[TzafonWrightSession.client session :=
               snd (Client.await_sendAction
                      (Client.goto (Navigate.normalizedUrl url) None) c)]>
             (heap w)) w))).
  { apply navigate_action_via; [reflexivity|exact Hc]. }
  destruct (await_sendAction_open
              (Client.goto (Navigate.normalizedUrl url) None) c Hws Hconn)
    as [Hsent _].
  pose proof (navigate_result_reply url c Hws Hconn) as Hreply.
  subst res.
  unfold Context.run, MultiSession.navigateWithSessionTool,
    MultiSession.createMultiSessionAwareTool, try_catch, bind.
  cbn [Context.handle Context.name fst snd].
  unfold Store.get. rewrite Hs.
  cbn [Navigate.navigateTool Context.handle Navigate.handleNavigate ret
       Context.action fmap option_fmap option_map fst snd].
  fold sctx. rewrite Hact. cbn [fst snd]. rewrite Hreply.
  split.
  - destruct (Client.replies (Client.remote c)) as [|[err|sc em im] rest];
      [| |destruct (default false sc)]; cbn [fst snd];
      (eexists; split; [reflexivity|exact Hsent]).
  - destruct (Client.replies (Client.remote c)) as [|[err|sc em im] rest];
      [| |destruct (default false sc)]; reflexivity.
Qed.

(** X9.  Closing a session of the store.  The close tool, run on the id of
    a stored session, takes the session out of the store and invokes
    [close()] on its client, and reports "Closed session <id>": it does so
    also when [close()] throws.  The other sessions of the store, the other
    clients, the registry and the context are as before. *)
Theorem close_stored_session (sessionId : string) (ctx : Context.t)
  (w : World) (session : TzafonWrightSession.t) :
  store w !! sessionId = Some session ->
  let res :=
    Context.run MultiSession.closeSessionTool sessionId (ctx, w) in
  let w' := snd (snd res) in
  fst res
  = Ret {| content := [TextContent ("Closed session " +:+ sessionId)];
           isError := false |}
  /\ fst (snd res) = ctx
  /\ store w' = delete sessionId (store w)
  /\ browsers w' = browsers w
  /\ defaultBrowserSession w' = defaultBrowserSession w
  /\ activeSessionId w' = activeSessionId w
  /\ (forall c, heap w !! TzafonWrightSession.client session = Some c ->
        exists c', heap w' !! TzafonWrightSession.client session = Some c'
                   /\ (Client.closes c < Client.closes c')%nat)
  /\ (forall n, n <> TzafonWrightSession.client session ->
        heap w' !! n = heap w !! n).
Proof.
  intros Hs res w'. subst w' res.
  unfold Context.run, MultiSession.closeSessionTool, try_catch, bind.
  cbn [Context.handle Context.name]. unfold MultiSession.closeSession_handle.
  unfold Store.get. cbn [fst snd]. rewrite Hs. unfold bind, lift.
  cbn [fst snd].
  destruct (remove_spec sessionId w)
    as (Ho & Hst & Hb & Hd & Ha & Hheap & Hother).
  destruct (Store.remove sessionId w) as [o w1]. cbn [fst snd] in *.
  subst o. cbn [ret Context.action fst snd].
  refine (conj eq_refl (conj eq_refl (conj Hst (conj Hb (conj Hd (conj Ha
            (conj _ _))))))).
  - intros c Hc. destruct (Hheap _ c Hc) as (c' & Hc' & _ & Hlt).
    exists c'. split; [exact Hc'|]. apply (Hlt session Hs eq_refl).
  - intros n Hn. apply Hother. intros s0 Hs0. rewrite Hs in Hs0.
    injection Hs0 as <-. congruence.
Qed.

(** X10.  An id that is not in the store.  Both the session-aware navigate
    tool and the close tool answer with the error result "Error: Session
    <id> not found", and neither changes the context, the store, the
    registry or any client. *)
Theorem unknown_stored_session_is_reported (sessionId url : string)
  (ctx : Context.t) (w : World) :
  store w !! sessionId = None ->
  Context.run
    (MultiSession.navigateWithSessionTool network defaultSessionId)
    (sessionId, url) (ctx, w)
  = (Ret (error_result ("Session " +:+ sessionId +:+ " not found")), (ctx, w))
  /\ Context.run MultiSession.closeSessionTool sessionId (ctx, w)
     = (Ret (error_result ("Session " +:+ sessionId +:+ " not found")),
        (ctx, w)).
Proof.
  intros Hs. split.
  - unfold Context.run, MultiSession.navigateWithSessionTool,
      MultiSession.createMultiSessionAwareTool, try_catch, bind.
    cbn [Context.handle Context.name fst snd].
    unfold Store.get. rewrite Hs. reflexivity.
  - unfold Context.run, MultiSession.closeSessionTool, try_catch, bind.
    cbn [Context.handle Context.name].
    unfold MultiSession.closeSession_handle, Store.get. cbn [fst snd].
    rewrite Hs. reflexivity.
Qed.

End StoreTools.

(** X8, witness: navigating in the stored session "s1". *)
Lemma navigate_in_stored_session_witness :
  fst (Context.run
         (MultiSession.navigateWithSessionTool (fun _ => Sample.quiet)
            Sample.main)
         ("s1", "http://example.com") (Sample.context, Sample.stocked))
  = Ret {| content :=
             [TextContent
                "Successfully navigated to: http://example.com (original: http://example.com)"];
           isError := false |}.
Proof.
  exact (proj2
           (navigate_in_stored_session (fun _ => Sample.quiet) Sample.main
              "s1" "http://example.com" Sample.context Sample.stocked _ _
              eq_refl eq_refl eq_refl eq_refl)).
Defined.

(** X9, witness: closing the stored session "s1" empties the store. *)
Lemma close_stored_session_witness :
  store (snd (snd (Context.run MultiSession.closeSessionTool "s1"
                     (Sample.context, Sample.stocked))))
  = delete "s1" (store Sample.stocked).
Proof.
  exact (proj1 (proj2 (proj2
           (close_stored_session "s1" Sample.context Sample.stocked _
              eq_refl)))).
Defined.

(** X10, witness: no session "s2" is in the store. *)
Lemma unknown_stored_session_is_reported_witness :
  Context.run MultiSession.closeSessionTool "s2"
    (Sample.context, Sample.stocked)
  = (Ret (error_result "Session s2 not found"),
     (Sample.context, Sample.stocked)).
Proof.
  exact (proj2
           (unknown_stored_session_is_reported (fun _ => Sample.quiet)
              Sample.main "s2" "example.com" Sample.context Sample.stocked
              eq_refl)).
Defined.

(** ** Errors of a tool *)

(** X11.  [Context.run] never rejects: whatever a tool's handler or its
    action throws comes back as a result with [isError] set and the text
    "Error: <message>", and a tool without a handler is reported the same
    way.  So the [catch] clause of the callback that index.ts registers for
    a tool is never entered: the callback returns what [Context.run]
    returns, and writes no "[Smithery Error]" line. *)
Theorem run_never_rejects {Input : Type} (timestamp : string)
  (tool : Context.Tool Input) (args : Input) (s : Context.State) :
  let r := Context.run tool args s in
  Index.tool_callback timestamp tool args s = r
  /\ (forall e, fst r <> Throw e)
  /\ (forall result,
        fst r = Ret result -> isError result = true ->
        exists e, result = error_result e)
  /\ (Context.handle tool = None ->
      r = (Ret (error_result
                  ("Tool " +:+ Context.name tool
                   +:+ " does not have a handle method")), s)).
Proof.
  intros r.
  assert (Hno : forall e, fst r <> Throw e).
  { intros e. subst r. unfold Context.run, try_catch, bind.
    destruct (Context.handle tool) as [h|]; [|discriminate].
    destruct (h args s) as [[tr|e0|] s1]; [|discriminate|discriminate].
    destruct (Context.action tr) as [a|]; [|discriminate].
    destruct (a s1) as [[ar|e1|] s2]; discriminate. }
  refine (conj _ (conj Hno (conj _ _))).
  - unfold Index.tool_callback, try_catch. fold r.
    destruct r as [[res|e|] s']; try reflexivity.
    exfalso. exact (Hno e eq_refl).
  - subst r. unfold Context.run, try_catch, bind.
    destruct (Context.handle tool) as [h|];
      [|intros result [= <-] _; eexists; reflexivity].
    destruct (h args s) as [[tr|e0|] s1];
      [|intros result [= <-] _; eexists; reflexivity|discriminate].
    destruct (Context.action tr) as [a|];
      [|intros result [= <-] Herr; discriminate Herr].
    destruct (a s1) as [[ar|e1|] s2];
      [intros result [= <-] Herr; discriminate Herr
      |intros result [= <-] _; eexists; reflexivity|discriminate].
  - intros Hnone. subst r. unfold Context.run, try_catch.
    rewrite Hnone. reflexivity.
Qed.

(** ** The registry stays in order *)

Section RegistryInvariant.

Variable network : nat -> Client.Remote.
Variable defaultSessionId : string.

Local Abbreviation wfr := (registry_wf defaultSessionId).

(** A change that keeps the registry's variables and loses no client keeps
    the registry in order. *)
Lemma registry_wf_frame (w w' : World) :
  wfr w ->
  browsers w' = browsers w ->
  defaultBrowserSession w' = defaultBrowserSession w ->
  activeSessionId w' = activeSessionId w ->
  (forall n c, heap w !! n = Some c -> exists c', heap w' !! n = Some c') ->
  wfr w'.
Proof.
  intros (H1 & H2 & H3) Hb Hd Ha Hh. unfold registry_wf, active_registered.
  rewrite Hb, Hd, Ha. refine (conj H1 (conj _ H3)).
  intros id s Hs. destruct (H2 id s Hs) as (Hid & r & c & Hr & Hc).
  split; [exact Hid|]. destruct (Hh r c Hc) as [c' Hc']. eauto.
Qed.

Lemma setActiveSessionId_wf (id : string) (w : World) :
  wfr w -> wfr (SessionManager.setActiveSessionId defaultSessionId id w).
Proof.
  intros Hwf. unfold SessionManager.setActiveSessionId.
  destruct (SessionManager.has id w || String.eqb id defaultSessionId) eqn:Hid.
  - destruct Hwf as (H1 & H2 & _). refine (conj H1 (conj H2 _)).
    unfold active_registered. simpl.
    apply orb_true_iff in Hid as [Hhas|Heq].
    + right. unfold SessionManager.has in Hhas.
      apply bool_decide_eq_true in Hhas. exact Hhas.
    + left. apply String.eqb_eq. exact Heq.
  - apply (registry_wf_frame w); eauto.
Qed.

Lemma created_wf (id : string) (c' : Client.TzafonWrightClient) (w : World) :
  wfr w -> wfr (created defaultSessionId id c' w).
Proof.
  intros (H1 & H2 & H3). unfold registry_wf, active_registered, created.
  simpl. refine (conj _ (conj _ _)).
  - destruct (String.eqb id defaultSessionId) eqn:Hid.
    + apply String.eqb_eq in Hid. subst id. rewrite lookup_insert_eq.
      reflexivity.
    + apply String.eqb_neq in Hid. rewrite lookup_insert_ne by exact Hid.
      exact H1.
  - intros id' s Hs. destruct (decide (id = id')) as [<-|Hne].
    + rewrite lookup_insert_eq in Hs. injection Hs as <-. simpl.
      split; [reflexivity|]. eexists _, c'. split; [reflexivity|].
      rewrite lookup_app_r by lia. rewrite Nat.sub_diag. reflexivity.
    + rewrite lookup_insert_ne in Hs by exact Hne.
      destruct (H2 id' s Hs) as (Hid & r & c & Hr & Hc).
      split; [exact Hid|]. exists r, c. split; [exact Hr|].
      apply lookup_app_l_Some. exact Hc.
  - right. rewrite lookup_insert_eq. eauto.
Qed.

Lemma createNewBrowserSession_wf (id : string) (config : Config.t)
  (w : World) :
  wfr w ->
  wfr (snd (SessionManager.createNewBrowserSession network defaultSessionId
              id config w)).
Proof.
  intros Hwf. destruct (Store.nonempty (Config.proxyUrl config)) eqn:Hurl.
  - rewrite (createNewBrowserSession_eq network defaultSessionId)
      by exact Hurl.
    destruct (fst (client_fate _ _)) as [[]|e|]; simpl.
    + apply created_wf. exact Hwf.
    + apply (registry_wf_frame w); try reflexivity; [exact Hwf|].
      intros n c Hn. exists c. simpl. apply lookup_app_l_Some. exact Hn.
    + apply (registry_wf_frame w); try reflexivity; [exact Hwf|].
      intros n c Hn. exists c. simpl. apply lookup_app_l_Some. exact Hn.
  - rewrite (createNewBrowserSession_nourl network defaultSessionId)
      by exact Hurl.
    exact Hwf.
Qed.

(** The session a successful creation under the default id returns is the
    one in the slot already. *)
Lemma createNewBrowserSession_default_slot (config : Config.t) (w w1 : World)
  (s : BrowserSession.t) :
  SessionManager.createNewBrowserSession network defaultSessionId
    defaultSessionId config w = (Ret s, w1) ->
  set_defaultBrowserSession (Some s) w1 = w1.
Proof.
  intros E. apply (createNewBrowserSession_ret network defaultSessionId) in E
    as (c' & -> & -> & _).
  unfold set_defaultBrowserSession, created. simpl.
  rewrite String.eqb_refl. reflexivity.
Qed.

Lemma recreate_wf (config : Config.t) (w : World) :
  wfr w ->
  wfr (snd (SessionManager.recreate network defaultSessionId config w)).
Proof.
  intros Hwf. rewrite recreate_unfold.
  pose proof (createNewBrowserSession_wf defaultSessionId config w Hwf) as H1.
  destruct (SessionManager.createNewBrowserSession network defaultSessionId
              defaultSessionId config w) as [[s|e1|] w1] eqn:E1; simpl in *.
  - rewrite (createNewBrowserSession_default_slot config w w1 s E1). exact H1.
  - assert (Hwf1 : wfr (write_stderr (retry_notice defaultSessionId e1) w1)).
    { apply (registry_wf_frame w1); eauto. }
    pose proof (createNewBrowserSession_wf defaultSessionId config _ Hwf1)
      as H2.
    destruct (SessionManager.createNewBrowserSession network defaultSessionId
                defaultSessionId config
                (write_stderr (retry_notice defaultSessionId e1) w1))
      as [[s|e2|] w2] eqn:E2; simpl in *.
    + rewrite (createNewBrowserSession_default_slot config _ w2 s E2).
      exact H2.
    + apply (registry_wf_frame w2); eauto.
    + exact H2.
  - exact H1.
Qed.

Lemma ensureDefaultSessionInternal_wf (config : Config.t) (w : World) :
  wfr w ->
  wfr (snd (SessionManager.ensureDefaultSessionInternal network
              defaultSessionId config w)).
Proof.
  intros Hwf. unfold SessionManager.ensureDefaultSessionInternal.
  destruct (defaultBrowserSession w) as [s|] eqn:Hd.
  - destruct Hwf as (H1 & H2 & H3). rewrite Hd in H1. symmetry in H1.
    destruct (H2 _ _ H1) as (_ & r & c & Hr & _). rewrite Hr. simpl.
    apply setActiveSessionId_wf. unfold registry_wf. rewrite Hd. auto.
  - apply recreate_wf. exact Hwf.
Qed.

Lemma getSession_wf (id : string) (config : Config.t) (createIfMissing : bool)
  (w : World) :
  wfr w ->
  wfr (snd (SessionManager.getSession network defaultSessionId id config
              createIfMissing w)).
Proof.
  intros Hwf. unfold SessionManager.getSession.
  destruct (String.eqb id defaultSessionId && createIfMissing).
  - unfold try_catch, bind.
    pose proof (ensureDefaultSessionInternal_wf config w Hwf) as He.
    destruct (SessionManager.ensureDefaultSessionInternal network
                defaultSessionId config w) as [[s|e|] w1]; simpl in *;
      exact He.
  - destruct (browsers w !! id) as [s|] eqn:Hs; simpl.
    + destruct Hwf as (H1 & H2 & H3).
      destruct (H2 _ _ Hs) as (_ & r & c & Hr & _). rewrite Hr. simpl.
      apply setActiveSessionId_wf. unfold registry_wf. auto.
    + apply (registry_wf_frame w); eauto.
Qed.

(** [closeBrowserGracefully] on the clients: the session's client has one
    more [close()], every other client is as it was. *)
Lemma closeBrowserGracefully_heap (session : option BrowserSession.t)
  (id : string) (w : World) :
  let w' := snd (SessionManager.closeBrowserGracefully session id w) in
  (forall n c, heap w !! n = Some c ->
     exists c', heap w' !! n = Some c'
                /\ (Client.closes c <= Client.closes c')%nat
                /\ (forall s, session = Some s ->
                      BrowserSession.client s = Some n ->
                      Client.closes c' = S (Client.closes c)))
  /\ (forall n, (forall s, session = Some s ->
                   BrowserSession.client s <> Some n) ->
        heap w' !! n = heap w !! n)
  /\ length (heap w') = length (heap w).
Proof.
  unfold SessionManager.closeBrowserGracefully.
  destruct session as [[[r|] sid]|]; simpl.
  - unfold try_catch, client_close, with_client.
    destruct (heap w !! r) as [c0|] eqn:Hr; simpl.
    + pose proof (close_closes c0) as Hcl.
      destruct (Client.close c0) as [[e|] c0']; simpl in *;
        (refine (conj _ (conj _ _)));
        try (apply length_insert);
        try (intros n Hn; apply list_lookup_insert_ne; intros ->;
             exact (Hn _ eq_refl eq_refl));
        (intros n c Hn; destruct (decide (n = r)) as [->|Hne];
         [exists c0'; rewrite list_lookup_insert_eq
            by (eapply lookup_lt_Some; exact Hr);
          rewrite Hr in Hn; injection Hn as <-;
          split; [reflexivity|]; split; [lia|]; intros; exact Hcl
         |exists c; rewrite list_lookup_insert_ne by congruence;
          split; [exact Hn|]; split; [lia|];
          intros s [= <-] [= ->]; contradiction]).
    + refine (conj _ (conj _ eq_refl)); [|reflexivity].
      intros n c Hn. exists c. split; [exact Hn|]. split; [lia|].
      intros s [= <-] [= ->]. rewrite Hr in Hn. discriminate.
  - refine (conj _ (conj _ eq_refl)); [|reflexivity].
    intros n c Hn. exists c. split; [exact Hn|]. split; [lia|].
    intros s [= <-] [=].
  - refine (conj _ (conj _ eq_refl)); [|reflexivity].
    intros n c Hn. exists c. split; [exact Hn|]. split; [lia|].
    intros s [=].
Qed.

Lemma cleaned_wf (id : string) (w w1 : World) :
  wfr w ->
  browsers w1 = browsers w ->
  defaultBrowserSession w1 = defaultBrowserSession w ->
  activeSessionId w1 = activeSessionId w ->
  (forall n c, heap w !! n = Some c -> exists c', heap w1 !! n = Some c') ->
  wfr (cleaned defaultSessionId id w1).
Proof.
  intros (H1 & H2 & H3) Hb Hd Ha Hh.
  unfold registry_wf, active_registered, cleaned. simpl.
  rewrite Hb, Hd, Ha. refine (conj _ (conj _ _)).
  - destruct (String.eqb id defaultSessionId) eqn:Hid.
    + apply String.eqb_eq in Hid. subst id. rewrite lookup_delete_eq.
      reflexivity.
    + apply String.eqb_neq in Hid. rewrite lookup_delete_ne by exact Hid.
      exact H1.
  - intros id' s Hs. apply lookup_delete_Some in Hs as [Hne Hs].
    destruct (H2 id' s Hs) as (Hid & r & c & Hr & Hc).
    split; [exact Hid|]. destruct (Hh r c Hc) as [c' Hc']. eauto.
  - destruct (String.eqb (activeSessionId w) id) eqn:Hact; [left; reflexivity|].
    apply String.eqb_neq in Hact. destruct H3 as [H3|H3]; [left; exact H3|].
    right. rewrite lookup_delete_ne by congruence. exact H3.
Qed.

Lemma cleanupSession_wf (id : string) (w : World) :
  wfr w ->
  wfr (snd (SessionManager.cleanupSession defaultSessionId id w)).
Proof.
  intros Hwf. rewrite cleanupSession_eq. simpl.
  destruct (closeBrowserGracefully_spec (browsers w !! id) id w)
    as (_ & _ & Hb & Hd & Ha & _).
  destruct (closeBrowserGracefully_heap (browsers w !! id) id w)
    as (Hh & _).
  apply (cleaned_wf id w); try assumption.
  intros n c Hn. destruct (Hh n c Hn) as (c' & Hc' & _). eauto.
Qed.

(** The loop of [closeAllSessions] never throws and touches nothing but
    the clients of the entries it walks. *)
Lemma close_each_spec (entries : list (string * BrowserSession.t))
  (w : World) :
  let r := SessionManager.close_each entries w in
  fst r = Ret tt
  /\ store (snd r) = store w /\ browsers (snd r) = browsers w
  /\ defaultBrowserSession (snd r) = defaultBrowserSession w
  /\ activeSessionId (snd r) = activeSessionId w
  /\ (forall n c, heap w !! n = Some c ->
        exists c', heap (snd r) !! n = Some c'
                   /\ (Client.closes c <= Client.closes c')%nat
                   /\ (forall id s, (id, s) ∈ entries ->
                         BrowserSession.client s = Some n ->
                         (Client.closes c < Client.closes c')%nat))
  /\ (forall n, (forall id s, (id, s) ∈ entries ->
                   BrowserSession.client s <> Some n) ->
        heap (snd r) !! n = heap w !! n).
Proof.
  revert w. induction entries as [|[id s] entries IH]; intros w.
  - simpl. refine (conj eq_refl (conj eq_refl (conj eq_refl (conj eq_refl
                     (conj eq_refl (conj _ _)))))).
    + intros n c Hn. exists c. split; [exact Hn|]. split; [lia|].
      intros id s Hin. inversion Hin.
    + reflexivity.
  - cbn [SessionManager.close_each]. unfold bind.
    destruct (closeBrowserGracefully_spec (Some s) id w)
      as (Ho & Hst & Hb & Hd & Ha & _).
    destruct (closeBrowserGracefully_heap (Some s) id w) as (Hh & Hother & _).
    destruct (SessionManager.closeBrowserGracefully (Some s) id w)
      as [o w1]. simpl in Ho, Hst, Hb, Hd, Ha, Hh, Hother. subst o.
    destruct (IH w1) as (Ho' & Hst' & Hb' & Hd' & Ha' & Hh' & Hother').
    set (r := SessionManager.close_each entries w1) in *.
    refine (conj Ho' (conj _ (conj _ (conj _ (conj _ (conj _ _)))))).
    + congruence.
    + congruence.
    + congruence.
    + congruence.
    + intros n c Hn. destruct (Hh n c Hn) as (c1 & Hc1 & Hle1 & Hlt1).
      destruct (Hh' n c1 Hc1) as (c' & Hc' & Hle' & Hlt').
      exists c'. split; [exact Hc'|]. split; [lia|].
      intros id' s' Hin Hcl. apply elem_of_cons in Hin as [Heq|Hin].
      * injection Heq as -> ->. specialize (Hlt1 s eq_refl Hcl). lia.
      * specialize (Hlt' id' s' Hin Hcl). lia.
    + intros n Hn. rewrite Hother'.
      * apply Hother. intros s0 [= <-]. apply (Hn id s).
        apply list_elem_of_here.
      * intros id' s' Hin. apply (Hn id' s').
        apply list_elem_of_further. exact Hin.
Qed.

Lemma closeAllSessions_eq (w : World) :
  SessionManager.closeAllSessions defaultSessionId w
  = (Ret tt,
     let w1 :=
       snd (SessionManager.close_each (map_to_list (browsers w)) w) in
     {| heap := heap w1; store := store w1; browsers := ∅;
        defaultBrowserSession := None; activeSessionId := defaultSessionId;
        stderr := stderr w1 |}).
Proof.
  unfold SessionManager.closeAllSessions, bind, gets, try_catch, modify.
  destruct (close_each_spec (map_to_list (browsers w)) w) as (Ho & _).
  destruct (SessionManager.close_each (map_to_list (browsers w)) w)
    as [o w1]. simpl in *. subst o.
  unfold SessionManager.setActiveSessionId.
  rewrite String.eqb_refl, orb_true_r. reflexivity.
Qed.

Lemma closeAllSessions_wf (w : World) :
  wfr (snd (SessionManager.closeAllSessions defaultSessionId w)).
Proof.
  rewrite closeAllSessions_eq. unfold registry_wf, active_registered. simpl.
  refine (conj _ (conj _ (or_introl eq_refl))).
  - rewrite lookup_empty. reflexivity.
  - intros id s Hs. rewrite lookup_empty in Hs. discriminate.
Qed.

(** X12.  The registry stays in order.  From a state in which the default
    slot mirrors the map's entry under the default id, every registered
    session sits under its own id with a client that exists, and the active
    id is the default id or a registered one -- as it is when the module
    has just been loaded -- every exported operation of the session manager
    leads to such a state again, whatever its arguments and whether it
    returns, throws or never settles.  The active id therefore never names
    a session that is gone. *)
Theorem registry_stays_in_order (w : World) :
  (browsers w = ∅ -> defaultBrowserSession w = None ->
   activeSessionId w = defaultSessionId -> registry_wf defaultSessionId w)
  /\ (registry_wf defaultSessionId w ->
      (forall id,
         registry_wf defaultSessionId
           (SessionManager.setActiveSessionId defaultSessionId id w))
      /\ (forall id config,
            registry_wf defaultSessionId
              (snd (SessionManager.createNewBrowserSession network
                      defaultSessionId id config w)))
      /\ (forall config,
            registry_wf defaultSessionId
              (snd (SessionManager.ensureDefaultSessionInternal network
                      defaultSessionId config w)))
      /\ (forall id config createIfMissing,
            registry_wf defaultSessionId
              (snd (SessionManager.getSession network defaultSessionId id
                      config createIfMissing w)))
      /\ (forall id,
            registry_wf defaultSessionId
              (snd (SessionManager.cleanupSession defaultSessionId id w)))
      /\ registry_wf defaultSessionId
           (snd (SessionManager.closeAllSessions defaultSessionId w))).
Proof.
  split.
  - intros Hb Hd Ha. unfold registry_wf, active_registered.
    rewrite Hb, Hd. refine (conj _ (conj _ (or_introl Ha))).
    + rewrite lookup_empty. reflexivity.
    + intros id s Hs. rewrite lookup_empty in Hs. discriminate.
  - intros Hwf.
    refine (conj _ (conj _ (conj _ (conj _ (conj _ _))))).
    + intros id. apply setActiveSessionId_wf. exact Hwf.
    + intros id config. apply createNewBrowserSession_wf. exact Hwf.
    + intros config. apply ensureDefaultSessionInternal_wf. exact Hwf.
    + intros id config flag. apply getSession_wf. exact Hwf.
    + intros id. apply cleanupSession_wf. exact Hwf.
    + apply closeAllSessions_wf.
Qed.

End RegistryInvariant.

(** X12, witness: looking up a session in the state of a process that has
    just started. *)
Lemma registry_stays_in_order_witness :
  registry_wf Sample.main
    (snd (SessionManager.getSession (fun _ => Sample.quiet) Sample.main "a"
            Sample.config true Sample.fresh)).
Proof.
  destruct (registry_stays_in_order (fun _ => Sample.quiet) Sample.main
              Sample.fresh) as [Hfresh Hkeep].
  destruct (Hkeep (Hfresh eq_refl eq_refl eq_refl))
    as (_ & _ & _ & Hget & _).
  apply Hget.
Defined.

(** ** Looking a session up, and closing them all *)

Section Lookup.

Variable network : nat -> Client.Remote.
Variable defaultSessionId : string.

Lemma ensureDefaultSessionInternal_ret (config : Config.t) (w : World)
  (s : BrowserSession.t) :
  fst (SessionManager.ensureDefaultSessionInternal network defaultSessionId
         config w) = Ret s ->
  is_Some (BrowserSession.client s)
  /\ activeSessionId
       (snd (SessionManager.ensureDefaultSessionInternal network
               defaultSessionId config w)) = defaultSessionId
  /\ defaultBrowserSession
       (snd (SessionManager.ensureDefaultSessionInternal network
               defaultSessionId config w)) = Some s.
Proof.
  destruct (defaultBrowserSession w) as [s0|] eqn:Hd.
  - destruct (BrowserSession.client s0) as [n|] eqn:Hc.
    + unfold SessionManager.ensureDefaultSessionInternal. rewrite Hd, Hc.
      simpl. intros [= <-]. unfold SessionManager.setActiveSessionId.
      rewrite String.eqb_refl, orb_true_r. simpl. rewrite Hc. eauto.
    + rewrite (ensureDefault_recreate network defaultSessionId)
        by (right; eauto).
      intros Hs.
      destruct (recreate_spec network defaultSessionId config
                  (evict defaultSessionId w))
        as (_ & _ & _ & _ & _ & Hret).
      destruct (Hret s Hs) as (Ha & Hds & _ & n & c & Hn & _).
      rewrite Hn. eauto.
  - rewrite (ensureDefault_recreate network defaultSessionId)
      by (left; exact Hd).
    intros Hs.
    destruct (recreate_spec network defaultSessionId config
                (evict defaultSessionId w))
      as (_ & _ & _ & _ & _ & Hret).
    destruct (Hret s Hs) as (Ha & Hds & _ & n & c & Hn & _).
    rewrite Hn. eauto.
Qed.

Lemma ensureDefaultSessionInternal_frame (config : Config.t) (w : World) :
  let r :=
    SessionManager.ensureDefaultSessionInternal network defaultSessionId
      config w in
  store (snd r) = store w
  /\ (forall n c, heap w !! n = Some c -> heap (snd r) !! n = Some c).
Proof.
  assert (Hcreate : forall id w0,
            store (snd (SessionManager.createNewBrowserSession network
                          defaultSessionId id config w0)) = store w0).
  { intros id w0. destruct (Store.nonempty (Config.proxyUrl config)) eqn:Hurl.
    - rewrite (createNewBrowserSession_eq network defaultSessionId)
        by exact Hurl.
      destruct (fst (client_fate _ _)) as [[]|e|]; reflexivity.
    - rewrite (createNewBrowserSession_nourl network defaultSessionId)
        by exact Hurl.
      reflexivity. }
  assert (Hrec : forall w0,
            store (snd (SessionManager.recreate network defaultSessionId
                          config w0)) = store w0).
  { intros w0. rewrite recreate_unfold.
    pose proof (Hcreate defaultSessionId w0) as H1.
    destruct (SessionManager.createNewBrowserSession network defaultSessionId
                defaultSessionId config w0) as [[s|e1|] w1]; simpl in *;
      try exact H1.
    pose proof (Hcreate defaultSessionId
                  (write_stderr (retry_notice defaultSessionId e1) w1)) as H2.
    destruct (SessionManager.createNewBrowserSession network defaultSessionId
                defaultSessionId config
                (write_stderr (retry_notice defaultSessionId e1) w1))
      as [[s|e2|] w2]; simpl in *; congruence. }
  assert (Hevict : store (evict defaultSessionId w) = store w).
  { unfold evict. destruct (defaultBrowserSession w); reflexivity. }
  intros r. subst r.
  destruct (defaultBrowserSession w) as [s0|] eqn:Hd;
    [destruct (BrowserSession.client s0) as [n0|] eqn:Hc|].
  - unfold SessionManager.ensureDefaultSessionInternal. rewrite Hd, Hc.
    unfold SessionManager.setActiveSessionId.
    rewrite String.eqb_refl, orb_true_r. simpl. auto.
  - rewrite (ensureDefault_recreate network defaultSessionId)
      by (right; eauto).
    split; [rewrite Hrec; exact Hevict|].
    destruct (recreate_spec network defaultSessionId config
                (evict defaultSessionId w)) as (_ & Hkeep & _).
    intros n c Hn. apply Hkeep. rewrite evict_heap. exact Hn.
  - rewrite (ensureDefault_recreate network defaultSessionId)
      by (left; exact Hd).
    split; [rewrite Hrec; exact Hevict|].
    destruct (recreate_spec network defaultSessionId config
                (evict defaultSessionId w)) as (_ & Hkeep & _).
    intros n c Hn. apply Hkeep. rewrite evict_heap. exact Hn.
Qed.

(** X13.  [getSession] reports a missing session as [null] and never
    throws, also when the default session cannot be created.  It takes no
    client that exists out of use and leaves the store alone.  Unless it is
    asked for the default id with [createIfMissing] it constructs no client
    and always returns.  A session it returns has a client and is the
    active one afterwards. *)
Theorem getSession_never_throws (sessionId : string) (config : Config.t)
  (createIfMissing : bool) (w : World) :
  let r :=
    SessionManager.getSession network defaultSessionId sessionId config
      createIfMissing w in
  (forall e, fst r <> Throw e)
  /\ store (snd r) = store w
  /\ (forall n c, heap w !! n = Some c -> heap (snd r) !! n = Some c)
  /\ (String.eqb sessionId defaultSessionId && createIfMissing = false ->
      heap (snd r) = heap w /\ fst r <> Hang)
  /\ (forall s,
        fst r = Ret (Some s) ->
        is_Some (BrowserSession.client s)
        /\ activeSessionId (snd r) = sessionId).
Proof.
  intros r. subst r. unfold SessionManager.getSession.
  destruct (String.eqb sessionId defaultSessionId && createIfMissing)
    eqn:Hpath.
  - apply andb_true_iff in Hpath as [Hid _]. apply String.eqb_eq in Hid.
    subst sessionId. unfold try_catch, bind.
    destruct (ensureDefaultSessionInternal_frame config w) as (Hst & Hkeep).
    pose proof (ensureDefaultSessionInternal_ret config w) as Hret.
    destruct (SessionManager.ensureDefaultSessionInternal network
                defaultSessionId config w) as [[s|e|] w1]; simpl in *;
      (refine (conj _ (conj Hst (conj Hkeep (conj _ _)))));
      try discriminate.
    + intros s0 [= <-]. destruct (Hret s eq_refl) as (Hc & Ha & _). auto.
  - destruct (browsers w !! sessionId) as [s|] eqn:Hs; simpl.
    + destruct (BrowserSession.client s) as [n|] eqn:Hc; simpl.
      * refine (conj _ (conj _ (conj _ (conj _ _)))); try discriminate.
        -- unfold SessionManager.setActiveSessionId.
           destruct (_ || _); reflexivity.
        -- unfold SessionManager.setActiveSessionId.
           destruct (_ || _); simpl; auto.
        -- intros _. unfold SessionManager.setActiveSessionId.
           destruct (_ || _); simpl; split; (reflexivity || discriminate).
        -- intros s0 [= <-]. rewrite Hc. split; [eauto|].
           unfold SessionManager.setActiveSessionId, SessionManager.has.
           rewrite bool_decide_eq_true_2 by (rewrite Hs; eauto).
           reflexivity.
      * destruct s as [cl sid]. simpl in Hc. subst cl.
        unfold bind, modify, ret, SessionManager.closeBrowserGracefully.
        simpl.
        refine (conj _ (conj _ (conj _ (conj _ _)))); try discriminate.
        -- destruct (String.eqb _ sessionId); [|reflexivity].
           unfold SessionManager.setActiveSessionId.
           destruct (_ || _); reflexivity.
        -- destruct (String.eqb _ sessionId); [|simpl; auto].
           unfold SessionManager.setActiveSessionId.
           destruct (_ || _); simpl; auto.
        -- intros _.
           destruct (String.eqb _ sessionId);
             [|split; (reflexivity || discriminate)].
           unfold SessionManager.setActiveSessionId.
           destruct (_ || _); simpl; split; (reflexivity || discriminate).
    + refine (conj _ (conj eq_refl (conj _ (conj _ _)))); try discriminate.
      * auto.
      * intros _. split; (reflexivity || discriminate).
Qed.

(** X14.  [closeAllSessions] never throws, whatever the [close()] calls
    do.  It invokes [close()] on the client of every registered session,
    empties the map, clears the default slot and makes the default id the
    active one.  The store and the clients that no registered session
    holds are left as they were. *)
Theorem closeAllSessions_closes_every_session (w : World) :
  let r := SessionManager.closeAllSessions defaultSessionId w in
  fst r = Ret tt
  /\ browsers (snd r) = ∅
  /\ defaultBrowserSession (snd r) = None
  /\ activeSessionId (snd r) = defaultSessionId
  /\ store (snd r) = store w
  /\ (forall id s n c,
        browsers w !! id = Some s ->
        BrowserSession.client s = Some n ->
        heap w !! n = Some c ->
        exists c', heap (snd r) !! n = Some c'
                   /\ (Client.closes c < Client.closes c')%nat)
  /\ (forall n,
        (forall id s, browsers w !! id = Some s ->
                      BrowserSession.client s <> Some n) ->
        heap (snd r) !! n = heap w !! n).
Proof.
  intros r. subst r. rewrite closeAllSessions_eq. simpl.
  destruct (close_each_spec (map_to_list (browsers w)) w)
    as (_ & Hst & _ & _ & _ & Hh & Hother).
  refine (conj eq_refl (conj eq_refl (conj eq_refl (conj eq_refl
            (conj Hst (conj _ _)))))).
  - intros id s n c Hs Hn Hc.
    destruct (Hh n c Hc) as (c' & Hc' & _ & Hlt).
    exists c'. split; [exact Hc'|]. apply (Hlt id s); [|exact Hn].
    apply elem_of_map_to_list. exact Hs.
  - intros n Hn. apply Hother. intros id s Hin.
    apply (Hn id s). apply elem_of_map_to_list. exact Hin.
Qed.

End Lookup.

(** ** The session tools *)

Section SessionTools.

Variable network : nat -> Client.Remote.
Variable defaultSessionId : string.

Lemma getSession_lookup (id : string) (config : Config.t) (w : World)
  (session : BrowserSession.t) (r : nat) :
  browsers w !! id = Some session ->
  BrowserSession.client session = Some r ->
  SessionManager.getSession network defaultSessionId id config false w
  = (Ret (Some session), set_activeSessionId id w).
Proof.
  intros Hs Hr. unfold SessionManager.getSession.
  rewrite andb_false_r, Hs, Hr.
  unfold SessionManager.setActiveSessionId, SessionManager.has.
  rewrite bool_decide_eq_true_2 by (rewrite Hs; eauto). reflexivity.
Qed.

Lemma client_close_at (r : nat) (w : World) (c : Client.TzafonWrightClient) :
  heap w !! r = Some c ->
  client_close r w
  = (match fst (Client.close c) with
     | Some e => Throw e
     | None => Ret tt
     end,
     set_heap (<[r := snd (Client.close c)]> (heap w)) w).
Proof.
  intros Hc. unfold client_close, with_client. rewrite Hc.
  destruct (Client.close c) as [[e|] c']; reflexivity.
Qed.

Lemma closeBrowserGracefully_at (session : BrowserSession.t) (id : string)
  (r : nat) (w : World) (c : Client.TzafonWrightClient) :
  BrowserSession.client session = Some r ->
  heap w !! r = Some c ->
  fst (Client.close c) = None ->
  SessionManager.closeBrowserGracefully (Some session) id w
  = (Ret tt, set_heap (<[r := snd (Client.close c)]> (heap w)) w).
Proof.
  intros Hr Hc Hok. destruct session as [cl sid]. simpl in Hr. subst cl.
  unfold SessionManager.closeBrowserGracefully, try_catch.
  rewrite (client_close_at r w c Hc), Hok. reflexivity.
Qed.

(** What [close()] reports, from the state of the client. *)
Lemma close_reports (c : Client.TzafonWrightClient) :
  fst (Client.close c)
  = (if Client.ws c then Client.closeError (Client.remote c) else None).
Proof.
  unfold Client.close.
  destruct (Client.ws c); [destruct (Client.closeError (Client.remote c))|];
    reflexivity.
Qed.

Lemma close_again (c : Client.TzafonWrightClient) :
  fst (Client.close c) = None ->
  fst (Client.close (snd (Client.close c))) = None
  /\ Client.closes (snd (Client.close (snd (Client.close c))))
     = S (S (Client.closes c))
  /\ (Client.ws c = true ->
      Client.isConnected (snd (Client.close (snd (Client.close c)))) = false).
Proof.
  rewrite !close_reports. unfold Client.close.
  destruct (Client.ws c) eqn:Hws;
    [destruct (Client.closeError (Client.remote c)) eqn:He|];
    simpl; rewrite ?Hws, ?He; simpl; intros H;
    try discriminate; repeat split; congruence.
Qed.

Lemma close_failed (c : Client.TzafonWrightClient) (e : string) :
  fst (Client.close c) = Some e ->
  Client.closes (snd (Client.close c)) = S (Client.closes c)
  /\ Client.isConnected (snd (Client.close c)) = Client.isConnected c.
Proof.
  unfold Client.close.
  destruct (Client.ws c);
    [destruct (Client.closeError (Client.remote c))|];
    simpl; intros H; try discriminate; split; reflexivity.
Qed.

(** X15.  Closing the current session with the close tool.  When the
    context's current session is registered and its client's [close()]
    does not throw, the tool invokes [close()] on that client twice (once
    itself, once through [cleanupSession]), takes the session out of the
    map, makes the default id the active one and reports success.  When
    [close()] throws, the session stays registered and stays the active
    one, and the tool throws "Failed to close the TzafonWright session
    ..." (or, if the error's message is empty, reports that no session was
    found).  Either way the context's current session id is the default id
    afterwards. *)
Theorem closeSession_closes_current_session (ctx : Context.t) (w : World)
  (session : BrowserSession.t) (r : nat) (c : Client.TzafonWrightClient) :
  let id := Context.currentSessionId ctx in
  browsers w !! id = Some session ->
  BrowserSession.client session = Some r ->
  heap w !! r = Some c ->
  let res := Session.closeSession_action network defaultSessionId (ctx, w) in
  let w' := snd (snd res) in
  Context.currentSessionId (fst (snd res)) = defaultSessionId
  /\ Context.config (fst (snd res)) = Context.config ctx
  /\ match
       (if Client.ws c then Client.closeError (Client.remote c) else None)
     with
     | None =>
         fst res
         = Ret (Some
                  (Some
                     [TextContent
                        ("TzafonWright session ("
                         +:+ Client.or_else (Some id) "default"
                         +:+ ") closed successfully. Context reset to default.")]))
         /\ browsers w' = delete id (browsers w)
         /\ activeSessionId w' = defaultSessionId
         /\ (id = defaultSessionId -> defaultBrowserSession w' = None)
         /\ exists c',
              heap w' !! r = Some c'
              /\ Client.closes c' = S (S (Client.closes c))
              /\ (Client.ws c = true -> Client.isConnected c' = false)
     | Some e =>
         fst res
         = (if Store.nonempty e then
              Throw
                ("Failed to close the TzafonWright session (session ID in context was "
                 +:+ Client.or_else (Some id) "default/unknown"
                 +:+ "). Error: " +:+ e
                 +:+ ". Session context has been reset to default.")
            else
              Ret (Some
                     (Some
                        [TextContent
                           (if Store.nonempty id
                               && negb (String.eqb id defaultSessionId)
                            then
                              "No active TzafonWright session found for session ID '"
                              +:+ id
                              +:+ "'. The context has been reset to default."
                            else
                              "No active TzafonWright session found to close. Session context has been reset to default.")])))
         /\ browsers w' = browsers w
         /\ activeSessionId w' = id
         /\ exists c',
              heap w' !! r = Some c'
              /\ Client.closes c' = S (Client.closes c)
              /\ Client.isConnected c' = Client.isConnected c
     end.
Proof.
  intros id Hs Hr Hc res w'. subst res w'.
  rewrite <- close_reports.
  unfold Session.closeSession_action, Session.closeSession_body,
    Session.close_client, bind, try_catch, lift, gets, modify.
  cbn [fst snd]. fold id.
  rewrite (getSession_lookup id (Context.config ctx) w session r Hs Hr).
  destruct session as [cl sid]. simpl in Hr. subst cl.
  cbn [fst snd].
  assert (Hc0 : heap (set_activeSessionId id w) !! r = Some c) by exact Hc.
  rewrite (client_close_at r _ c Hc0).
  destruct (fst (Client.close c)) as [e|] eqn:Hclose; cbn [fst snd].
  - destruct (close_failed c e Hclose) as [Hcl Hconn].
    cbn [Session.clientCloseErrorMessage Session.clientClosedSuccessfully
         Context.set_currentSessionId Context.currentSessionId Context.config
         fst snd negb andb].
    rewrite andb_true_r.
    destruct (Store.nonempty e); unfold throw, ret; cbn [fst snd];
      (refine (conj eq_refl (conj eq_refl (conj eq_refl (conj eq_refl
                 (conj eq_refl _))))));
      (eexists; split;
       [apply list_lookup_insert_eq; eapply lookup_lt_Some; exact Hc
       |split; assumption]).
  - rewrite cleanupSession_eq. cbn [fst snd browsers set_heap].
    cbn [set_activeSessionId browsers]. rewrite Hs.
    destruct (close_again c Hclose) as (Hok2 & Hcl2 & Hconn2).
    rewrite (closeBrowserGracefully_at
               {| BrowserSession.client := Some r;
                  BrowserSession.sessionId := sid |}
               id r _ (snd (Client.close c)) eq_refl)
      by (first [exact Hok2
                |apply list_lookup_insert_eq; eapply lookup_lt_Some; exact Hc]).
    cbn [fst snd Session.clientCloseErrorMessage
         Session.clientClosedSuccessfully Context.set_currentSessionId
         Context.currentSessionId Context.config negb andb].
    change (Store.nonempty "") with false. unfold ret. cbn [andb fst snd].
    refine (conj eq_refl (conj eq_refl (conj eq_refl (conj eq_refl
              (conj _ (conj _ _)))))).
    + cbn. rewrite String.eqb_refl. reflexivity.
    + intros Hid. cbn. rewrite Hid, String.eqb_refl. reflexivity.
    + exists (snd (Client.close (snd (Client.close c)))).
      split; [|split; assumption].
      cbn. apply list_lookup_insert_eq. rewrite length_insert.
      eapply lookup_lt_Some. exact Hc.
Qed.

End SessionTools.

(** X15, witness: closing the live session "a" of [Sample.browsing]. *)
Lemma closeSession_closes_current_session_witness :
  Context.currentSessionId
    (fst (snd (Session.closeSession_action (fun _ => Sample.quiet)
                 Sample.main (Sample.context, Sample.browsing))))
  = Sample.main
  /\ fst (Session.closeSession_action (fun _ => Sample.quiet) Sample.main
            (Sample.context, Sample.browsing))
     = Ret (Some
              (Some
                 [TextContent
                    "TzafonWright session (a) closed successfully. Context reset to default."])).
Proof.
  destruct (closeSession_closes_current_session (fun _ => Sample.quiet)
              Sample.main Sample.context Sample.browsing
              (Sample.session 0 "a") 0%nat
              (snd (Client.connect (Client.new Sample.proxy Sample.answering)))
              eq_refl eq_refl eq_refl) as (Hctx & _ & Hres & _).
  split; [exact Hctx|exact Hres].
Defined.

Section SessionToolsAlways.

Variable network : nat -> Client.Remote.
Variable defaultSessionId : string.

(** X16.  The close tool, whatever the state it is run in.  It always
    settles, and the context's current session id is the default id
    afterwards, also when it throws.  It constructs no client and leaves the
    store alone.  When the context's current session is not registered it
    reports that no active session was found and changes nothing else in
    the registry. *)
Theorem closeSession_always_resets_context (ctx : Context.t) (w : World) :
  let res := Session.closeSession_action network defaultSessionId (ctx, w) in
  let w' := snd (snd res) in
  Context.currentSessionId (fst (snd res)) = defaultSessionId
  /\ Context.config (fst (snd res)) = Context.config ctx
  /\ fst res <> Hang
  /\ store w' = store w
  /\ length (heap w') = length (heap w)
  /\ (browsers w !! Context.currentSessionId ctx = None ->
      (exists text, fst res = Ret (Some (Some [TextContent text])))
      /\ browsers w' = browsers w
      /\ defaultBrowserSession w' = defaultBrowserSession w
      /\ activeSessionId w' = activeSessionId w
      /\ heap w' = heap w).
Proof.
  intros res w'. subst res w'.
  unfold Session.closeSession_action, Session.closeSession_body,
    Session.close_client, SessionManager.getSession.
  rewrite andb_false_r.
  unfold bind, try_catch, lift, gets, modify, ret.
  cbn [fst snd]. set (id := Context.currentSessionId ctx).
  destruct (browsers w !! id) as [[[r|] sid]|] eqn:Hs;
    cbn [fst snd BrowserSession.client].
  - unfold SessionManager.setActiveSessionId, SessionManager.has.
    rewrite bool_decide_eq_true_2 by (rewrite Hs; eauto).
    cbn [orb fst snd BrowserSession.client].
    set (w0 := set_activeSessionId id w).
    assert (Hst : store (snd (client_close r w0)) = store w)
      by exact (proj1 (client_close_heap r w0)).
    pose proof (client_close_settles r w0) as Hsettle.
    assert (Hlen : length (heap (snd (client_close r w0))) = length (heap w)).
    { unfold client_close, with_client.
      destruct (heap w0 !! r) as [c|]; [|reflexivity].
      destruct (Client.close c) as [[e|] c']; simpl; apply length_insert. }
    destruct (client_close r w0) as [[[]|e|] w1]; cbn [fst snd] in *;
      [| |contradiction].
    + rewrite cleanupSession_eq. cbn [fst snd].
      destruct (closeBrowserGracefully_spec (browsers w1 !! id) id w1)
        as (_ & Hst2 & _).
      destruct (closeBrowserGracefully_heap (browsers w1 !! id) id w1)
        as (_ & _ & Hlen2).
      cbn [Session.clientCloseErrorMessage Session.clientClosedSuccessfully
           negb andb].
      change (Store.nonempty "") with false. unfold ret.
      cbn [andb fst snd Context.set_currentSessionId Context.currentSessionId
           Context.config cleaned store heap].
      refine (conj eq_refl (conj eq_refl (conj _ (conj _ (conj _ _)))));
        try discriminate; try congruence.
    + cbn [Session.clientCloseErrorMessage Session.clientClosedSuccessfully
           negb andb].
      rewrite andb_true_r.
      destruct (Store.nonempty e); unfold throw, ret;
        cbn [fst snd Context.set_currentSessionId Context.currentSessionId
             Context.config write_stderr store heap];
        (refine (conj eq_refl (conj eq_refl (conj _ (conj _ (conj _ _))))));
        try discriminate; try congruence.
  - unfold SessionManager.closeBrowserGracefully, ret.
    cbn [fst snd Session.clientCloseErrorMessage
         Session.clientClosedSuccessfully negb andb].
    change (Store.nonempty "") with false.
    cbn [andb fst snd Context.set_currentSessionId Context.currentSessionId
         Context.config].
    refine (conj eq_refl (conj eq_refl (conj _ (conj _ (conj _ _)))));
      try discriminate.
    + destruct (String.eqb _ id); [|reflexivity].
      unfold SessionManager.setActiveSessionId.
      destruct (_ || _); reflexivity.
    + destruct (String.eqb _ id); [|reflexivity].
      unfold SessionManager.setActiveSessionId.
      destruct (_ || _); reflexivity.
  - unfold ret.
    cbn [fst snd Session.clientCloseErrorMessage
         Session.clientClosedSuccessfully negb andb].
    change (Store.nonempty "") with false.
    cbn [andb fst snd Context.set_currentSessionId Context.currentSessionId
         Context.config].
    refine (conj eq_refl (conj eq_refl (conj _ (conj eq_refl
              (conj eq_refl _))))); [discriminate|].
    intros _. split; [eauto|]. auto.
Qed.

End SessionToolsAlways.

Section CreateSessionTool.

Variable network : nat -> Client.Remote.
Variable defaultSessionId : string.

(** X17.  The create tool.  Its target is the given id with "_tzafonwright"
    appended, or the default id when none (or an empty one) is given.  When
    the action returns, the target is the context's current session and
    the registry's active one, a session with a client is there under that
    id, and the text names it.  When it throws, the message starts with
    "Failed to create Browserbase session: ", the same message has been
    logged, and the context still has the current session id it had. *)
Theorem createSession_sets_current_session (params_sessionId : option string)
  (ctx : Context.t) (w : World) :
  let target := Session.targetSessionId defaultSessionId params_sessionId in
  let res :=
    Session.createSession_action network defaultSessionId params_sessionId
      (ctx, w) in
  let w' := snd (snd res) in
  Context.config (fst (snd res)) = Context.config ctx
  /\ match fst res with
     | Ret result =>
         Context.currentSessionId (fst (snd res)) = target
         /\ activeSessionId w' = target
         /\ exists session,
              current_session defaultSessionId target w' = Some session
              /\ is_Some (BrowserSession.client session)
              /\ result
                 = Some
                     (Some
                        [TextContent
                           ("TzafonWright session created successfully: "
                            +:+ BrowserSession.sessionId session)])
     | Throw e =>
         fst (snd res) = ctx
         /\ exists msg,
              e = "Failed to create Browserbase session: " +:+ msg
              /\ last (stderr w')
                 = Some ("[tool.createSession] Action failed: " +:+ msg)
     | Hang => fst (snd res) = ctx
     end.
Proof.
  intros target res w'. subst res w'.
  unfold Session.createSession_action, try_catch, bind, lift, modify.
  cbn [fst snd]. fold target.
  destruct (String.eqb target defaultSessionId) eqn:Htarget.
  - apply String.eqb_eq in Htarget.
    pose proof (ensureDefaultSessionInternal_ret network defaultSessionId
                  (Context.config ctx) w) as Hret.
    destruct (SessionManager.ensureDefaultSessionInternal network
                defaultSessionId (Context.config ctx) w)
      as [[s|e|] w1]; cbn [fst snd] in *.
    + destruct (Hret s eq_refl) as (Hc & Ha & Hd).
      rewrite (bool_decide_eq_true_2 _ Hc). cbn [negb orb].
      destruct (Store.nonempty (BrowserSession.sessionId s));
        unfold throw, ret; cbn [negb fst snd Context.set_currentSessionId
          Context.currentSessionId Context.config activeSessionId
          write_stderr stderr].
      * refine (conj eq_refl (conj eq_refl (conj _ _))); [congruence|].
        exists s. unfold current_session. rewrite Htarget, String.eqb_refl.
        auto.
      * refine (conj eq_refl (conj eq_refl _)). eexists. split; [reflexivity|].
        apply last_snoc.
    + unfold throw. cbn [fst snd write_stderr stderr].
      refine (conj eq_refl (conj eq_refl _)). eexists. split; [reflexivity|].
      apply last_snoc.
    + auto.
  - pose proof (createNewBrowserSession_ret network defaultSessionId target
                  (Context.config ctx) w) as Hret.
    destruct (SessionManager.createNewBrowserSession network defaultSessionId
                target (Context.config ctx) w) as [[s|e|] w1];
      cbn [fst snd] in *.
    + destruct (Hret w1 s eq_refl) as (c' & -> & -> & _).
      cbn [BrowserSession.client BrowserSession.sessionId].
      rewrite bool_decide_eq_true_2 by eauto. cbn [negb orb].
      destruct (Store.nonempty target); unfold throw, ret;
        cbn [negb fst snd Context.set_currentSessionId
          Context.currentSessionId Context.config activeSessionId
          write_stderr stderr created].
      * refine (conj eq_refl (conj eq_refl (conj eq_refl _))).
        eexists. unfold current_session. rewrite Htarget.
        unfold created. cbn [browsers]. rewrite lookup_insert_eq. split; [reflexivity|].
        split; [eauto|reflexivity].
      * refine (conj eq_refl (conj eq_refl _)). eexists. split; [reflexivity|].
        apply last_snoc.
    + unfold throw. cbn [fst snd write_stderr stderr].
      refine (conj eq_refl (conj eq_refl _)). eexists. split; [reflexivity|].
      apply last_snoc.
    + auto.
Qed.

End CreateSessionTool.

(** ** Sessions of the store *)

Section StoreSessions.

Variable network : nat -> Client.Remote.
Variable defaultSessionId : string.

(** [createTzafonWrightClient] without [params.proxyUrl]: the URL is the
    configuration's. *)
Lemma createTzafonWrightClient_config (config : Config.t) (w : World) :
  Store.nonempty (Config.proxyUrl config) = true ->
  Store.createTzafonWrightClient network config None w
  = (match
       fst (client_fate config
              (Client.new (Config.proxyUrl config)
                 (network (length (heap w)))))
     with
     | Ret _ => Ret (length (heap w))
     | Throw e => Throw e
     | Hang => Hang
     end,
     set_heap
       (heap w
        ++ [snd (client_fate config
                   (Client.new (Config.proxyUrl config)
                      (network (length (heap w)))))]) w).
Proof.
  intros Hurl. unfold Store.createTzafonWrightClient. rewrite Hurl. simpl.
  unfold bind, new_client, try_catch, client_connect, client_sendAction,
    client_close, client_fate, close_and_rethrow.
  rewrite with_client_fresh.
  destruct (Client.connect _) as [[[]|e|] c1]; simpl.
  - destruct (Store.viewport_configured config) as [[vw vh]|]; simpl;
      [|reflexivity].
    unfold bind. rewrite with_client_fresh.
    destruct (Client.await_sendAction _ c1) as [[res|e|] c2]; simpl;
      try reflexivity.
    rewrite with_client_fresh.
    destruct (Client.close c2) as [[e'|] c3]; reflexivity.
  - rewrite with_client_fresh.
    destruct (Client.close c1) as [[e'|] c3]; reflexivity.
  - reflexivity.
Qed.

(** A client whose creation failed has been closed once; one whose
    creation never settles has not been closed. *)
Lemma client_fate_closes (config : Config.t) (url : string)
  (r : Client.Remote) :
  match fst (client_fate config (Client.new url r)) with
  | Ret _ => True
  | Throw _ =>
      Client.closes (snd (client_fate config (Client.new url r))) = 1%nat
  | Hang =>
      Client.closes (snd (client_fate config (Client.new url r))) = 0%nat
  end.
Proof.
  assert (Hrethrow : forall e c,
            Client.closes c = 0%nat ->
            match fst (close_and_rethrow e c) with
            | Ret _ => True
            | Throw _ => Client.closes (snd (close_and_rethrow e c)) = 1%nat
            | Hang => Client.closes (snd (close_and_rethrow e c)) = 0%nat
            end).
  { intros e c Hc. unfold close_and_rethrow.
    pose proof (close_closes c) as Hcl.
    destruct (Client.close c) as [[e'|] c3]; simpl in *; congruence. }
  unfold client_fate, Client.connect. simpl.
  destruct (Client.handshake r) as [msg0|t|t msg|]; simpl.
  - reflexivity.
  - destruct (Store.viewport_configured config) as [[vw vh]|]; simpl;
      [|exact I].
    match goal with
    | |- context [Client.await_sendAction ?cmd ?c] =>
        destruct (await_sendAction_frame cmd c) as (_ & _ & Hcl);
        destruct (Client.await_sendAction cmd c) as [[res|e|] c2]
    end; simpl in *; [exact I| |exact Hcl].
    apply Hrethrow. exact Hcl.
  - apply Hrethrow. reflexivity.
  - reflexivity.
Qed.

(** X18.  Creating a session of the store with the create tool, under a
    configuration that has a proxy URL.  One client is constructed.  When
    its connection is set up, the session is stored under
    "<uuid>_tzafonwright" with that client, the creation time, the given
    name and the proxy URL, and the tool names the new id.  When setting it
    up fails, nothing is stored, the client has been closed once, and the
    tool answers with an error result.  When setting it up never settles,
    neither does the tool, and the client is not closed.  The registry and
    the context are untouched throughout. *)
Theorem create_stored_session (uuid : string) (now : Z)
  (params_name : option string) (ctx : Context.t) (w : World) :
  Store.nonempty (Config.proxyUrl (Context.config ctx)) = true ->
  let id := uuid +:+ "_tzafonwright" in
  let res :=
    Context.run (MultiSession.createSessionTool network uuid now) params_name
      (ctx, w) in
  let w' := snd (snd res) in
  fst (snd res) = ctx
  /\ browsers w' = browsers w
  /\ defaultBrowserSession w' = defaultBrowserSession w
  /\ activeSessionId w' = activeSessionId w
  /\ (remote_cooperates (Context.config ctx) (network (length (heap w)))
      = true ->
      exists result, fst res = Ret result /\ isError result = false)
  /\ exists c',
       heap w' = heap w ++ [c']
       /\ match fst res with
          | Ret result =>
              if isError result then
                store w' = store w
                /\ Client.closes c' = 1%nat
                /\ exists e,
                     result
                     = error_result
                         ("Failed to create browser session: " +:+ e
                          +:+ ". Please check your TzafonWright proxy connection and try again.")
              else
                store w'
                = <[id :=
                      {| TzafonWrightSession.id := id;
                         TzafonWrightSession.client := length (heap w);
                         TzafonWrightSession.created := now;
                         TzafonWrightSession.metadata :=
                           (if Client.truthy params_name
                            then [("name", default "" params_name)]
                            else [])
                           ++ [("proxyUrl",
                                Config.proxyUrl (Context.config ctx))] |}]>
                    (store w)
                /\ Client.isConnected c' = true
                /\ Client.closes c' = 0%nat
                /\ content result
                   = [TextContent
                        ("Created TzafonWright session " +:+ id
                         +:+ (if Client.truthy params_name
                              then " (" +:+ default "" params_name +:+ ")"
                              else ""))]
          | Throw _ => False
          | Hang => store w' = store w /\ Client.closes c' = 0%nat
          end.
Proof.
  intros Hurl id res w'. subst res w'.
  unfold Context.run, MultiSession.createSessionTool, try_catch, bind.
  cbn [Context.handle Context.name].
  unfold MultiSession.createSession_handle, try_catch, bind, lift,
    Store.create, bind.
  cbn [fst snd].
  rewrite (createTzafonWrightClient_config (Context.config ctx) w Hurl).
  pose proof (client_fate_closes (Context.config ctx)
                (Config.proxyUrl (Context.config ctx))
                (network (length (heap w)))) as Hcloses.
  pose proof (client_fate_ret (Context.config ctx)
                (Config.proxyUrl (Context.config ctx))
                (network (length (heap w)))) as Hret.
  pose proof (client_fate_cooperates (Context.config ctx)
                (Config.proxyUrl (Context.config ctx))
                (network (length (heap w)))) as Hcoop.
  destruct (client_fate (Context.config ctx) _) as [[[]|e|] c'];
    cbn [fst snd] in *; unfold modify, ret, throw;
    cbn [fst snd Context.action content isError browsers
         defaultBrowserSession activeSessionId set_store set_heap heap store];
    (refine (conj eq_refl (conj eq_refl (conj eq_refl (conj eq_refl
               (conj _ _))))));
    try (intros Hc; specialize (Hcoop Hc); discriminate Hcoop).
  - intros _. eexists. split; reflexivity.
  - exists c'. split; [reflexivity|].
    destruct (Hret eq_refl) as (_ & Hconn & Hcl).
    cbn [isError content]. fold id. auto.
  - exists c'. split; [reflexivity|]. cbn [error_result isError].
    refine (conj eq_refl (conj Hcloses _)). eexists. reflexivity.
  - exists c'. split; [reflexivity|]. auto.
Qed.

(** [remove_each] only takes entries out of the store. *)
Lemma remove_each_store (l : list TzafonWrightSession.t) (w : World) :
  forall k s,
    store (snd (Store.remove_each l w)) !! k = Some s -> store w !! k = Some s.
Proof.
  revert w. induction l as [|s0 l IH]; intros w k s; [auto|].
  cbn [Store.remove_each]. unfold bind.
  destruct (remove_spec (TzafonWrightSession.id s0) w) as (Ho & Hst & _).
  destruct (Store.remove (TzafonWrightSession.id s0) w) as [o w1].
  simpl in Ho, Hst. subst o. intros Hk. apply IH in Hk.
  rewrite Hst in Hk. apply lookup_delete_Some in Hk as [_ Hk]. exact Hk.
Qed.

(** X19.  Every session of the store sits under its own id, always: this
    holds of the empty store, and [create], [storeSession], [remove] and
    [removeAll] keep it, whatever their arguments and whatever the network
    does.  It is the condition under which the cleanup on exit reaches
    every stored session. *)
Theorem store_sessions_sit_under_their_ids (w : World) :
  (store w = ∅ -> store_wf w)
  /\ (store_wf w ->
      (forall config params_proxyUrl params_meta uuid now,
         store_wf
           (snd (Store.create network config params_proxyUrl params_meta
                   uuid now w)))
      /\ (forall session, store_wf (Store.storeSession session w))
      /\ (forall id, store_wf (snd (Store.remove id w)))
      /\ store_wf (snd (Store.removeAll w))).
Proof.
  split.
  - intros He k s Hk. rewrite He, lookup_empty in Hk. discriminate.
  - intros Hwf. refine (conj _ (conj _ (conj _ _))).
    + intros config pu pm uuid now. unfold Store.create, bind.
      assert (Hc : store (snd (Store.createTzafonWrightClient network config
                                 pu w)) = store w).
      { unfold Store.createTzafonWrightClient.
        destruct (negb (Store.nonempty _)); [reflexivity|].
        unfold bind, new_client, try_catch. cbn [fst snd].
        match goal with
        | |- context [client_connect ?r ?w0] =>
            assert (Hcn : store (snd (client_connect r w0)) = store w)
              by (unfold client_connect, with_client;
                  destruct (heap w0 !! r); [|reflexivity];
                  destruct (Client.connect _); reflexivity);
            destruct (client_connect r w0) as [[[]|e|] w1]
        end; cbn [fst snd] in *.
        - destruct (Store.viewport_configured config) as [[vw vh]|];
            [|exact Hcn].
          unfold bind.
          match goal with
          | |- context [client_sendAction ?r ?cmd w1] =>
              assert (Hsn : store (snd (client_sendAction r cmd w1))
                            = store w)
                by (unfold client_sendAction, with_client;
                    destruct (heap w1 !! r); [|exact Hcn];
                    destruct (Client.await_sendAction _ _); exact Hcn);
              destruct (client_sendAction r cmd w1) as [[res|e|] w2]
          end; cbn [fst snd] in *; try exact Hsn.
          destruct (client_close_heap (length (heap w)) w2) as (Hcl & _).
          destruct (client_close (length (heap w)) w2) as [[[]|e'|] w3];
            unfold throw; cbn [fst snd] in *; congruence.
        - destruct (client_close_heap (length (heap w)) w1) as (Hcl & _).
          destruct (client_close (length (heap w)) w1) as [[[]|e'|] w3];
            unfold throw; cbn [fst snd] in *; congruence.
        - exact Hcn. }
      destruct (Store.createTzafonWrightClient network config pu w)
        as [[r|e|] w1]; cbn [fst snd] in *;
        try (intros k s Hk; rewrite Hc in Hk; exact (Hwf k s Hk)).
      unfold modify, ret. cbn [fst snd]. intros k s. cbn [store set_store].
      rewrite Hc. destruct (decide (uuid +:+ "_tzafonwright" = k)) as [<-|Hne].
      * rewrite lookup_insert_eq. intros [= <-]. reflexivity.
      * rewrite lookup_insert_ne by exact Hne. apply Hwf.
    + intros session. apply storeSession_wf. exact Hwf.
    + intros id k s. destruct (remove_spec id w) as (_ & Hst & _).
      rewrite Hst. intros Hk. apply lookup_delete_Some in Hk as [_ Hk].
      apply Hwf. exact Hk.
    + intros k s Hk. unfold Store.removeAll in Hk.
      apply remove_each_store in Hk. apply Hwf. exact Hk.
Qed.

End StoreSessions.

(** X18, witness: a name is given, the proxy cooperates. *)
Lemma create_stored_session_witness :
  exists result,
    fst (Context.run
           (MultiSession.createSessionTool (fun _ => Sample.quiet)
              "0b5e6a0c" 1700000000000)
           (Some "scraper") (Sample.context, Sample.fresh))
    = Ret result
    /\ isError result = false.
Proof.
  destruct (create_stored_session (fun _ => Sample.quiet) "0b5e6a0c"
              1700000000000 (Some "scraper") Sample.context Sample.fresh
              eq_refl) as (_ & _ & _ & _ & Hcoop & _).
  exact (Hcoop eq_refl).
Defined.

(** ** What a bulk run returns *)

Section BulkResults.

Import Client.

Variable network : Qc -> Remote.
Variable now : Qc -> Z.
Variable random : Qc -> string.
Variable fraction : Qc -> string.
Variable proxyUrl : string.
Variable namePrefix : string.

Local Abbreviation opens := (bulk_opens network).
Local Abbreviation success :=
  (bulk_success network now random fraction proxyUrl namePrefix).
Local Abbreviation failure := (bulk_failure network fraction namePrefix).
Local Abbreviation batch_step count :=
  (batch network now random fraction proxyUrl count namePrefix).
Local Abbreviation try_one :=
  (attempt network now random fraction proxyUrl namePrefix).

Lemma sessionId_truthy (i : Qc) (suffix : string) :
  truthy (Some (sessionName fraction namePrefix i +:+ suffix)) = true.
Proof. unfold sessionName. destruct namePrefix; reflexivity. Qed.

(** Where the result of one attempt goes. *)
Lemma record_attempt_exact (t : Tally) (timeoutMs : Z) (i : Qc) :
  record_result t (SFulfilled (try_one timeoutMs i))
  = if opens timeoutMs i then
      {| t_successful := t_successful t ++ [success i];
         t_failed := t_failed t;
         batchSuccessful := batchSuccessful t + 1;
         batchFailed := batchFailed t |}
    else
      {| t_successful := t_successful t;
         t_failed := t_failed t ++ [failure timeoutMs i];
         batchSuccessful := batchSuccessful t;
         batchFailed := batchFailed t + 1 |}.
Proof.
  pose proof (sessionName_truthy fraction namePrefix i) as Hname.
  pose proof (sessionId_truthy i
                ("-" +:+ pretty (now i) +:+ "-" +:+ random i)) as Hid.
  unfold record_result, attempt, connect_race, bulk_opens, bulk_success,
    bulk_failure.
  cbn [remote new handshake].
  destruct (handshake (network i)) as [msg|t0|t0 msg|];
    [|destruct (t0 <? timeoutMs)|destruct (t0 <? timeoutMs)|];
    cbn [a_client a_success a_sessionId a_name a_error andb default];
    rewrite ?Hname;
    try (unfold or_else at 2; rewrite Hname; reflexivity).
  rewrite Hid. reflexivity.
Qed.

Lemma tally_exact (timeoutMs : Z) (indices : list Qc) (t : Tally) :
  let t' :=
    foldl record_result t
      ((fun i => SFulfilled (try_one timeoutMs i)) <$> indices) in
  t_successful t'
  = t_successful t
    ++ (success <$> filter (fun i => opens timeoutMs i = true) indices)
  /\ t_failed t'
     = t_failed t
       ++ (failure timeoutMs
           <$> filter (fun i => opens timeoutMs i = false) indices).
Proof.
  revert t. induction indices as [|i indices IH]; intros t.
  - cbn [fmap list_fmap foldl filter list_filter]. rewrite !app_nil_r. auto.
  - cbn [fmap list_fmap foldl]. cbv zeta in IH.
    destruct (IH (record_result t (SFulfilled (try_one timeoutMs i))))
      as [IHs IHf].
    rewrite IHs, IHf, record_attempt_exact.
    destruct (opens timeoutMs i) eqn:Hi; cbn [t_successful t_failed].
    + rewrite (filter_cons_True (fun i => opens timeoutMs i = true))
        by exact Hi.
      rewrite (filter_cons_False (fun i => opens timeoutMs i = false))
        by (rewrite Hi; discriminate).
      rewrite fmap_cons, <- app_assoc. auto.
    + rewrite (filter_cons_True (fun i => opens timeoutMs i = false))
        by exact Hi.
      rewrite (filter_cons_False (fun i => opens timeoutMs i = true))
        by (rewrite Hi; discriminate).
      rewrite fmap_cons, <- app_assoc. auto.
Qed.

Lemma loop_exact (c size timeoutMs : Z) (m : nat) :
  0 < size ->
  1 <= c ->
  Z.of_nat m <= ceil_div c size ->
  let r :=
    foldl (batch_step (Qc_of_Z c) (Qc_of_Z size) timeoutMs)
      {| r_successful := []; r_failed := []; r_batchResults := [] |}
      (seqZ 0 (Z.of_nat m)) in
  r_successful r
  = success
    <$> filter (fun i => opens timeoutMs i = true)
          (Qc_of_Z <$> seqZ 0 (Z.min (Z.of_nat m * size) c))
  /\ r_failed r
     = failure timeoutMs
       <$> filter (fun i => opens timeoutMs i = false)
             (Qc_of_Z <$> seqZ 0 (Z.min (Z.of_nat m * size) c)).
Proof.
  intros Hsize Hcount. pose proof (ceil_div_bounds c size Hsize) as Hceil.
  induction m as [|m IH]; intros Hm.
  - replace (Z.min (Z.of_nat 0 * size) c) with 0 by lia. split; reflexivity.
  - cbv zeta in *. rewrite seqZ_S, foldl_snoc.
    destruct (IH ltac:(lia)) as [IHs IHf]. clear IH.
    set (r := foldl _ _ _) in *.
    unfold batch. cbn [r_successful r_failed].
    rewrite batchPromises_indices.
    set (len := Z.min ((0 + Z.of_nat m) * size + size) c
                - (0 + Z.of_nat m) * size).
    assert (Hlen : Z.min (Z.of_nat (S m) * size) c
                   = Z.min (Z.of_nat m * size) c + len) by (subst len; nia).
    assert (Hstart : (0 + Z.of_nat m) * size
                     = 0 + Z.min (Z.of_nat m * size) c) by nia.
    assert (Hpos : 0 <= len) by (subst len; nia).
    destruct (tally_exact timeoutMs
                (Qc_of_Z <$> seqZ ((0 + Z.of_nat m) * size) len)
                {| t_successful := r_successful r; t_failed := r_failed r;
                   batchSuccessful := 0; batchFailed := 0 |}) as [Hs Hf].
    cbn [t_successful t_failed] in Hs, Hf. rewrite Hs, Hf, IHs, IHf, Hlen.
    rewrite seqZ_app by lia. rewrite Hstart.
    rewrite !fmap_app, !filter_app, !fmap_app. auto.
Qed.

Lemma filter_fmap_swap {A B : Type} (f : A -> B) (P : B -> Prop)
  {H : forall x, Decision (P x)} (l : list A) :
  filter P (f <$> l) = f <$> filter (fun a => P (f a)) l.
Proof.
  induction l as [|a l IH]; [reflexivity|].
  rewrite fmap_cons. destruct (decide (P (f a))) as [Ha|Ha].
  - rewrite (filter_cons_True P), (filter_cons_True (fun a => P (f a)))
      by exact Ha.
    rewrite fmap_cons, IH. reflexivity.
  - rewrite (filter_cons_False P), (filter_cons_False (fun a => P (f a)))
      by exact Ha.
    exact IH.
Qed.

(** X20.  What a bulk run returns, attempt by attempt.  For an integer
    count of at least 1 (and an integer batch size of at least 1 when one
    is given), the attempts are those with the indices 0 to [count - 1]:
    the successes are the attempts whose socket opens strictly before the
    connection timeout (10000 ms unless given), in the order of their
    indices whatever the batch size, each with its connected client, its
    name "<prefix>-<index + 1>" and a session id that starts with that name;
    the failures are all the other attempts, again in order, each with its
    name and the message of its error or "Connection timeout". *)
Theorem createBulkSessions_results (c : Z) (given : option Z)
  (delay : option Qc) (timeout : option Z) :
  1 <= c ->
  (forall b, given = Some b -> 1 <= b) ->
  let options :=
    {| batchSize := Qc_of_Z <$> given; batchDelay := delay;
       connectionTimeout := timeout |} in
  let timeoutMs := default 10000 timeout in
  exists results,
    createBulkSessions network now random fraction proxyUrl (Qc_of_Z c)
      namePrefix options
    = Some results
    /\ r_successful results
       = success
         <$> filter (fun i => opens timeoutMs i = true)
               (Qc_of_Z <$> seqZ 0 c)
    /\ r_failed results
       = failure timeoutMs
         <$> filter (fun i => opens timeoutMs i = false)
               (Qc_of_Z <$> seqZ 0 c)
    /\ Forall
         (fun s =>
            ws (s_client s) = true /\ isConnected (s_client s) = true
            /\ closes (s_client s) = 0%nat
            /\ exists suffix, s_sessionId s = s_name s +:+ suffix)
         (r_successful results)
    /\ s_name <$> r_successful results
       = (fun g => namePrefix +:+ "-" +:+ pretty (g + 1))
         <$> filter (fun g => opens timeoutMs (Qc_of_Z g) = true) (seqZ 0 c)
    /\ f_name <$> r_failed results
       = (fun g => namePrefix +:+ "-" +:+ pretty (g + 1))
         <$> filter (fun g => opens timeoutMs (Qc_of_Z g) = false) (seqZ 0 c).
Proof.
  intros Hcount Hopt options timeoutMs.
  set (size := default (Z.min 5 c) given).
  assert (Hsize : 1 <= size).
  { subst size. destruct given as [b|]; simpl; [auto|lia]. }
  pose proof (ceil_div_bounds c size ltac:(lia)) as Hceil.
  assert (Hn : 1 <= ceil_div c size) by nia.
  unfold createBulkSessions. subst options.
  cbn [batchSize connectionTimeout]. fold timeoutMs.
  rewrite size_integral. fold size. rewrite totalBatches_integral.
  destruct (Z.eqb_spec size 0) as [H0|_]; [lia|].
  cbn [mbind option_bind].
  destruct (loop_exact c size timeoutMs (Z.to_nat (ceil_div c size))
              ltac:(lia) Hcount ltac:(lia)) as [Hs Hf].
  rewrite Z2Nat.id in Hs, Hf by lia.
  replace (Z.min (ceil_div c size * size) c) with c in Hs, Hf by lia.
  eexists. split; [reflexivity|].
  refine (conj Hs (conj Hf (conj _ (conj _ _)))).
  - rewrite Hs. apply Forall_fmap, Forall_forall. intros i _.
    cbn [s_client s_sessionId s_name bulk_success set_isConnected
         set_handlers set_ws new ws isConnected closes].
    refine (conj eq_refl (conj eq_refl (conj eq_refl _))).
    eexists. reflexivity.
  - rewrite Hs, <- list_fmap_compose, filter_fmap_swap,
      <- list_fmap_compose.
    apply list_fmap_ext. intros k g _. cbn [compose s_name bulk_success].
    apply sessionName_integral.
  - rewrite Hf, <- list_fmap_compose, filter_fmap_swap,
      <- list_fmap_compose.
    apply list_fmap_ext. intros k g _. cbn [compose f_name bulk_failure].
    apply sessionName_integral.
Qed.

(** *** Counts and batch sizes the loop does not expect *)






End BulkResults.

(** X20, witness: thirteen sessions in batches of five, the fourth attempt
    never answered: it is the one failure. *)
Lemma createBulkSessions_results_witness :
  exists results,
    Client.createBulkSessions Sample.fourth_silent (fun _ => 1700000000000)
      (fun _ => "k3x9q2a") Sample.tenths Sample.proxy (Qc_of_Z 13) "session"
      {| Client.batchSize := Some (Qc_of_Z 5); Client.batchDelay := None;
         Client.connectionTimeout := None |}
    = Some results
    /\ Client.r_failed results
       = [{| Client.f_error := "Connection timeout";
             Client.f_name := "session-4" |}].
Proof.
  destruct (createBulkSessions_results Sample.fourth_silent
              (fun _ => 1700000000000) (fun _ => "k3x9q2a") Sample.tenths
              Sample.proxy "session" 13 (Some 5) None None)
    as (results & Hres & _ & Hf & _).
  - lia.
  - intros b Hb. injection Hb as <-. lia.
  - exists results. split; [exact Hres|]. rewrite Hf. reflexivity.
Defined.

(** ** The first navigation of a process *)

Section FirstNavigation.

Variable network : nat -> Client.Remote.
Variable defaultSessionId : string.

(** The client that comes out of a set-up with a cooperating proxy. *)
Lemma client_fate_cooperates_state (config : Config.t) (url : string)
  (r : Client.Remote) :
  remote_cooperates config r = true ->
  let c := snd (client_fate config (Client.new url r)) in
  fst (client_fate config (Client.new url r)) = Ret tt
  /\ Client.ws c = true
  /\ Client.isConnected c = true
  /\ Client.sent c = setup_frames config
  /\ Client.replies (Client.remote c) = replies_after_setup config r.
Proof.
  unfold remote_cooperates, client_fate, Client.connect, setup_frames,
    replies_after_setup.
  destruct r as [hs reps ce]. simpl.
  destruct hs as [msg0|t|t msg|]; try discriminate. simpl.
  destruct (Store.viewport_configured config) as [[vw vh]|]; [|auto].
  destruct reps as [|[err|sc em im] rest]; try discriminate.
  intros _. unfold Client.await_sendAction. simpl. auto.
Qed.

(** X22.  The first navigation of a process.  No default session exists
    yet, the context's current session is the default one, the
    configuration has a proxy URL, the socket of the next client opens,
    the proxy answers the viewport command (if one is configured) and then
    reports success.  Then the navigate action succeeds, and on the way
    exactly one client has been constructed: it is connected, it belongs
    to the default session, which is registered and active, and the frames
    it has sent are the viewport command (if configured) followed by the
    goto. *)
Theorem first_navigation_creates_default_session (url : string)
  (ctx : Context.t) (w : World) (error_message image : option string)
  (rest : list Client.Inbound) :
  Context.own_client ctx = None ->
  Context.currentSessionId ctx = defaultSessionId ->
  defaultBrowserSession w = None ->
  Store.nonempty (Config.proxyUrl (Context.config ctx)) = true ->
  remote_cooperates (Context.config ctx) (network (length (heap w))) = true ->
  replies_after_setup (Context.config ctx) (network (length (heap w)))
  = Client.Response (Some true) error_message image :: rest ->
  let res := Navigate.action network defaultSessionId url (ctx, w) in
  let w' := snd (snd res) in
  let session :=
    {| BrowserSession.client := Some (length (heap w));
       BrowserSession.sessionId := defaultSessionId |} in
  fst res
  = Ret (Some
           (Some
              [TextContent
                 ("Successfully navigated to: " +:+ Navigate.normalizedUrl url
                  +:+ " (original: " +:+ url +:+ ")")]))
  /\ fst (snd res) = ctx
  /\ defaultBrowserSession w' = Some session
  /\ browsers w' = <[defaultSessionId := session]> (browsers w)
  /\ activeSessionId w' = defaultSessionId
  /\ exists c',
       heap w' = heap w ++ [c']
       /\ Client.isConnected c' = true
       /\ Client.sent c'
          = setup_frames (Context.config ctx)
            ++ [Client.commandData
                  (Client.goto (Navigate.normalizedUrl url) None)].
Proof.
  intros Hown Hcur Hnone Hurl Hcoop Hreplies res w' session.
  set (config := Context.config ctx) in *.
  destruct (client_fate_cooperates_state config (Config.proxyUrl config)
              (network (length (heap w))) Hcoop)
    as (Hfate & Hws & Hconn & Hsent & Hrep).
  set (c := snd (client_fate config
                   (Client.new (Config.proxyUrl config)
                      (network (length (heap w)))))) in *.
  set (w1 := set_defaultBrowserSession (Some session)
               (created defaultSessionId defaultSessionId c w)).
  assert (Hensure :
    SessionManager.ensureDefaultSessionInternal network defaultSessionId
      config w = (Ret session, w1)).
  { rewrite (ensureDefault_recreate network defaultSessionId)
      by (left; exact Hnone).
    unfold evict. rewrite Hnone. rewrite recreate_unfold.
    rewrite (createNewBrowserSession_eq network defaultSessionId)
      by exact Hurl.
    cbv zeta. rewrite Hfate. reflexivity. }
  assert (Hget :
    Context.getTzafonWrightClient network defaultSessionId (ctx, w)
    = (Ret (Some (length (heap w))), (ctx, w1))).
  { unfold Context.getTzafonWrightClient. simpl. rewrite Hown, Hcur.
    unfold bind, lift, SessionManager.getSession. simpl.
    rewrite String.eqb_refl. simpl. unfold try_catch, bind.
    fold config. rewrite Hensure. reflexivity. }
  assert (Hc : heap w1 !! length (heap w) = Some c).
  { subst w1. simpl. rewrite lookup_app_r by lia.
    rewrite Nat.sub_diag. reflexivity. }
  subst res w'.
  rewrite (navigate_action_via network defaultSessionId url ctx w w1 _ c
             Hget Hc).
  destruct (await_sendAction_open
              (Client.goto (Navigate.normalizedUrl url) None) c Hws Hconn)
    as [Hsent' Hout].
  rewrite Hrep, Hreplies in Hout. simpl in Hout.
  cbn [fst snd]. rewrite Hout. simpl.
  refine (conj eq_refl (conj eq_refl (conj eq_refl (conj eq_refl
            (conj eq_refl _))))).
  eexists. split.
  - rewrite insert_app_r_alt by lia. rewrite Nat.sub_diag. reflexivity.
  - split.
    + destruct (await_sendAction_frame
                  (Client.goto (Navigate.normalizedUrl url) None) c)
        as (_ & Hk & _).
      rewrite Hk. exact Hconn.
    + rewrite Hsent', Hsent. reflexivity.
Qed.

End FirstNavigation.

(** X22, witness: the first navigation of [Sample.fresh], without a
    viewport in the configuration. *)
Lemma first_navigation_creates_default_session_witness :
  fst (Navigate.action (fun _ => Sample.answering) Sample.main "example.com"
         (Context.new Sample.main Sample.config, Sample.fresh))
  = Ret (Some
           (Some
              [TextContent
                 "Successfully navigated to: https://example.com (original: example.com)"])).
Proof.
  exact (proj1
           (first_navigation_creates_default_session
              (fun _ => Sample.answering) Sample.main "example.com"
              (Context.new Sample.main Sample.config) Sample.fresh None None
              [] eq_refl eq_refl eq_refl eq_refl eq_refl eq_refl)).
Defined.
